(** * Golden Codex API gateway: ledger, job lifecycle, rate limiter, webhooks

    A shallow embedding of the gateway services
    ([gateway/app/services/tokens.py], [jobs.py], [rate_limit.py],
    [gateway/app/routers/jobs.py], [gateway/app/config.py]) and of the SDK's
    webhook signing helpers ([sdks/python/golden_codex/webhooks.py]),
    followed by the properties the design document states about them. *)

From Stdlib Require Import ZArith String Ascii List Lia.
From Stdlib Require Import DecimalString DecimalZ.
From stdpp Require Import gmap strings list fin_maps sorting.

Local Open Scope Z_scope.
Local Open Scope string_scope.

(** ** models/schemas.py *)

Module Schemas.

Inductive Operation := NOVA | FLUX | ATLAS.

Inductive JobStatus := PENDING | PROCESSING | COMPLETED | FAILED | CANCELLED.

Inductive SubscriptionTier := FREE_TRIAL | CURATOR | STUDIO | GALLERY.

(** [Literal["standard", "full_gcx"]] *)
Inductive NovaTier := tier_standard | tier_full_gcx.

(** [Literal["2x", "4x", "anime", "photo"]] *)
Inductive FluxModel := model_2x | model_4x | model_anime | model_photo.

(** [Literal["png", "jpg", "webp"]] *)
Inductive AtlasFormat := format_png | format_jpg | format_webp.

Global Instance Operation_eq_dec : EqDecision Operation.
Proof. solve_decision. Defined.
Global Instance JobStatus_eq_dec : EqDecision JobStatus.
Proof. solve_decision. Defined.
Global Instance SubscriptionTier_eq_dec : EqDecision SubscriptionTier.
Proof. solve_decision. Defined.
Global Instance NovaTier_eq_dec : EqDecision NovaTier.
Proof. solve_decision. Defined.
Global Instance FluxModel_eq_dec : EqDecision FluxModel.
Proof. solve_decision. Defined.
Global Instance AtlasFormat_eq_dec : EqDecision AtlasFormat.
Proof. solve_decision. Defined.

(** The [str] value of each enum member, as the code compares and stores
    them. *)
Definition Operation_value (op : Operation) : string :=
  match op with NOVA => "nova" | FLUX => "flux" | ATLAS => "atlas" end.

Definition NovaTier_value (t : NovaTier) : string :=
  match t with tier_standard => "standard" | tier_full_gcx => "full_gcx" end.

Definition FluxModel_value (m : FluxModel) : string :=
  match m with
  | model_2x => "2x" | model_4x => "4x"
  | model_anime => "anime" | model_photo => "photo"
  end.

Definition AtlasFormat_value (f : AtlasFormat) : string :=
  match f with
  | format_png => "png" | format_jpg => "jpg" | format_webp => "webp"
  end.

(** Every member of [FluxOptions.model]'s literal type. *)
Definition all_flux_models : list FluxModel :=
  [model_2x; model_4x; model_anime; model_photo].

Record NovaOptions := { tier : NovaTier; language : string }.
Record FluxOptions := { model : FluxModel }.
Record AtlasOptions := { format : AtlasFormat }.

Record OperationOptions := {
  nova : option NovaOptions;
  flux : option FluxOptions;
  atlas : option AtlasOptions;
}.

(** [OperationOptions()] *)
Definition OperationOptions_default : OperationOptions :=
  {| nova := None; flux := None; atlas := None |}.

(** [CostBreakdownItem]; the breakdown dictionaries of [calculate_cost]
    carry exactly these keys. *)
Record CostBreakdownItem := {
  cost : Z;
  item_tier : option string;
  item_model : option string;
}.

End Schemas.
Export Schemas.

(** ** config.py *)

Module Config.

Record Settings := {
  nova_agent_url : string;
  flux_agent_url : string;
  atlas_agent_url : string;
  rate_limit_free : Z;
  rate_limit_curator : Z;
  rate_limit_studio : Z;
  rate_limit_gallery : Z;
  cost_nova_standard : Z;
  cost_nova_full : Z;
  cost_flux_2x : Z;
  cost_flux_4x : Z;
  cost_atlas : Z;
}.

(** [Settings()] with no environment overrides. *)
Definition default_settings : Settings := {|
  nova_agent_url := "https://nova-agent-172867820131.us-west1.run.app";
  flux_agent_url := "https://flux-agent-172867820131.us-west1.run.app";
  atlas_agent_url := "https://atlas-agent-172867820131.us-west1.run.app";
  rate_limit_free := 10;
  rate_limit_curator := 30;
  rate_limit_studio := 100;
  rate_limit_gallery := 300;
  cost_nova_standard := 1;
  cost_nova_full := 2;
  cost_flux_2x := 1;
  cost_flux_4x := 2;
  cost_atlas := 1;
|}.

End Config.
Export Config.

(** ** services/auth.py *)

(** [AuthContext] *)
Module AuthContext.
Record t := {
  user_id : string;
  key_id : string;
  tier : SubscriptionTier;
  balance : Z;
  is_test_mode : bool;
  permissions : list string;
}.
End AuthContext.

(** ** services/tokens.py: the cost table *)

Module Cost.

(** [calculate_cost(operations, options)]; [settings] is what
    [get_settings()] returns. The three [if] blocks run in order, each
    threading [total] and [breakdown]. *)
Definition calculate_cost (settings : Settings)
    (operations : list Operation) (options : option OperationOptions)
  : Z * gmap string CostBreakdownItem :=
  let options := default OperationOptions_default options in
  let total := 0 in
  let breakdown : gmap string CostBreakdownItem := ∅ in
  let '(total, breakdown) :=
    if bool_decide (NOVA ∈ operations) then
      let nova_opts := nova options in
      let tier :=
        match nova_opts with
        | Some o => NovaTier_value (tier o)
        | None => "standard"
        end in
      let cost :=
        if bool_decide (tier = "full_gcx")
        then cost_nova_full settings else cost_nova_standard settings in
      (total + cost,
       <["nova" := {| cost := cost; item_tier := Some tier;
                      item_model := None |}]> breakdown)
    else (total, breakdown) in
  let '(total, breakdown) :=
    if bool_decide (FLUX ∈ operations) then
      let flux_opts := flux options in
      let model :=
        match flux_opts with
        | Some o => FluxModel_value (model o)
        | None => "4x"
        end in
      let cost :=
        if bool_decide (model ∈ ["4x"; "anime"; "photo"])
        then cost_flux_4x settings else cost_flux_2x settings in
      (total + cost,
       <["flux" := {| cost := cost; item_tier := None;
                      item_model := Some model |}]> breakdown)
    else (total, breakdown) in
  let '(total, breakdown) :=
    if bool_decide (ATLAS ∈ operations) then
      let cost := cost_atlas settings in
      (total + cost,
       <["atlas" := {| cost := cost; item_tier := None;
                       item_model := None |}]> breakdown)
    else (total, breakdown) in
  (total, breakdown).

(** The cost recorded for a stage in a breakdown, [0] when the stage has no
    entry. *)
Definition breakdown_cost (breakdown : gmap string CostBreakdownItem)
    (op : Operation) : Z :=
  match breakdown !! Operation_value op with
  | Some item => cost item
  | None => 0
  end.

(** Options that select one upscaling model and nothing else. *)
Definition flux_only (m : FluxModel) : option OperationOptions :=
  Some {| nova := None; flux := Some {| model := m |}; atlas := None |}.

(** The upscaling models charged the [cost_flux_4x] price. *)
Definition high_price_models (settings : Settings) : list FluxModel :=
  filter (λ m, (calculate_cost settings [FLUX] (flux_only m)).1
               = cost_flux_4x settings) all_flux_models.

End Cost.
Export Cost.

(** ** Documents, exceptions and the effect monad *)

(** Python's [str(n)] for an [int]. *)
Definition py_str (n : Z) : string := NilZero.string_of_int (Z.to_int n).

(** Python's [int(s)] for a [str], base ten: surrounding whitespace is
    stripped, one sign is allowed, and single underscores may separate
    digits. [None] stands for [ValueError]. Text is kept as its UTF-8
    bytes, so only ASCII whitespace and ASCII digits are recognised. *)
Module PyInt.

Definition is_space (c : ascii) : bool :=
  bool_decide (c ∈ [" "; "009"; "010"; "011"; "012"; "013"]%char).

Definition is_digit (c : ascii) : bool :=
  bool_decide (c ∈ ["0"; "1"; "2"; "3"; "4"; "5"; "6"; "7"; "8"; "9"]%char).

Fixpoint lstrip (s : string) : string :=
  match s with
  | String c s' => if is_space c then lstrip s' else s
  | EmptyString => EmptyString
  end.

Fixpoint rstrip (s : string) : string :=
  match s with
  | String c s' =>
      let r := rstrip s' in
      if is_space c && bool_decide (r = EmptyString)
      then EmptyString else String c r
  | EmptyString => EmptyString
  end.

Definition strip (s : string) : string := rstrip (lstrip s).

(** The digits of a numeral body, underscores removed; [after_digit]
    says whether the previous character was a digit. *)
Fixpoint digits (after_digit : bool) (s : string) : option string :=
  match s with
  | EmptyString => if after_digit then Some EmptyString else None
  | String c s' =>
      if bool_decide (c = "_"%char) then
        if after_digit then digits false s' else None
      else if is_digit c then String c <$> digits true s'
      else None
  end.

Definition int (s : string) : option Z :=
  let s := strip s in
  let '(negative, body) :=
    match s with
    | String "-" rest => (true, rest)
    | String "+" rest => (false, rest)
    | _ => (false, s)
    end in
  match digits false body with
  | Some ds =>
      match NilEmpty.uint_of_string ds with
      | Some u => Some (if negative then - Z.of_uint u else Z.of_uint u)
      | None => None
      end
  | None => None
  end.

End PyInt.

Definition py_int (s : string) : option Z := PyInt.int s.

(** Truthiness of an optional string: [None] and [""] are falsy. *)
Definition truthy (s : option string) : bool :=
  match s with
  | Some s => negb (bool_decide (s = ""))
  | None => false
  end.

(** A document of the [users] collection, restricted to the fields the
    ledger reads or writes: [tokens.balance], [tokens.totalSpent] and the
    legacy [credits_available]. [None] is an absent field. *)
Module UserDoc.
Record t := {
  tokens_balance : option Z;
  tokens_totalSpent : option Z;
  credits_available : option Z;
}.
End UserDoc.

(** A document of a user's [tokenTransactions] sub-collection. *)
Module TxDoc.
Inductive tx_type := deduction | refund.
Global Instance tx_type_eq_dec : EqDecision tx_type.
Proof. solve_decision. Defined.
Record t := {
  type : tx_type;
  amount : Z;
  reason : string;
  job_id : string;
  balance_after : Z;
  source : string;
}.
End TxDoc.

(** [results] of a job: [{"urls": {"original", "upscaled", "final"},
    "golden_codex"}]. JSON values the gateway only passes along are kept as
    their text. *)
Module Results.
Record t := {
  urls_original : string;
  urls_upscaled : option string;
  urls_final : option string;
  golden_codex : option string;
}.
End Results.

(** [error_data] of a failed job. *)
Module ErrorData.
Record t := { code : string; message : string; retryable : bool }.
End ErrorData.

(** A document of the [api_jobs] collection. The nested [cost.*] and
    [progress.*] fields are flattened, one record field per dotted path. *)
Module JobDoc.
Record t := {
  job_id : string;
  user_id : string;
  api_key_id : string;
  request_id : option string;
  status : JobStatus;
  image_url : string;
  operations : list Operation;
  options : option OperationOptions;
  webhook_url : option string;
  client_metadata : list (string * string);
  cost_estimated : Z;
  cost_charged : Z;
  cost_refunded : Z;
  progress_nova : option JobStatus;
  progress_flux : option JobStatus;
  progress_atlas : option JobStatus;
  results : option Results.t;
  error : option ErrorData.t;
  created_at : Z;
  started_at : option Z;
  completed_at : option Z;
  is_test_mode : bool;
}.

(** Field-wise updates, one per path written by [job_ref.update]. *)
Definition set_status (v : JobStatus) (d : t) : t :=
  {| job_id := job_id d; user_id := user_id d; api_key_id := api_key_id d;
     request_id := request_id d; status := v; image_url := image_url d;
     operations := operations d; options := options d;
     webhook_url := webhook_url d; client_metadata := client_metadata d;
     cost_estimated := cost_estimated d; cost_charged := cost_charged d;
     cost_refunded := cost_refunded d; progress_nova := progress_nova d;
     progress_flux := progress_flux d; progress_atlas := progress_atlas d;
     results := results d; error := error d; created_at := created_at d;
     started_at := started_at d; completed_at := completed_at d;
     is_test_mode := is_test_mode d |}.

Definition set_started_at (v : option Z) (d : t) : t :=
  {| job_id := job_id d; user_id := user_id d; api_key_id := api_key_id d;
     request_id := request_id d; status := status d; image_url := image_url d;
     operations := operations d; options := options d;
     webhook_url := webhook_url d; client_metadata := client_metadata d;
     cost_estimated := cost_estimated d; cost_charged := cost_charged d;
     cost_refunded := cost_refunded d; progress_nova := progress_nova d;
     progress_flux := progress_flux d; progress_atlas := progress_atlas d;
     results := results d; error := error d; created_at := created_at d;
     started_at := v; completed_at := completed_at d;
     is_test_mode := is_test_mode d |}.

Definition set_completed_at (v : option Z) (d : t) : t :=
  {| job_id := job_id d; user_id := user_id d; api_key_id := api_key_id d;
     request_id := request_id d; status := status d; image_url := image_url d;
     operations := operations d; options := options d;
     webhook_url := webhook_url d; client_metadata := client_metadata d;
     cost_estimated := cost_estimated d; cost_charged := cost_charged d;
     cost_refunded := cost_refunded d; progress_nova := progress_nova d;
     progress_flux := progress_flux d; progress_atlas := progress_atlas d;
     results := results d; error := error d; created_at := created_at d;
     started_at := started_at d; completed_at := v;
     is_test_mode := is_test_mode d |}.

Definition set_cost_refunded (v : Z) (d : t) : t :=
  {| job_id := job_id d; user_id := user_id d; api_key_id := api_key_id d;
     request_id := request_id d; status := status d; image_url := image_url d;
     operations := operations d; options := options d;
     webhook_url := webhook_url d; client_metadata := client_metadata d;
     cost_estimated := cost_estimated d; cost_charged := cost_charged d;
     cost_refunded := v; progress_nova := progress_nova d;
     progress_flux := progress_flux d; progress_atlas := progress_atlas d;
     results := results d; error := error d; created_at := created_at d;
     started_at := started_at d; completed_at := completed_at d;
     is_test_mode := is_test_mode d |}.

Definition set_progress (op : Operation) (v : option JobStatus) (d : t) : t :=
  {| job_id := job_id d; user_id := user_id d; api_key_id := api_key_id d;
     request_id := request_id d; status := status d; image_url := image_url d;
     operations := operations d; options := options d;
     webhook_url := webhook_url d; client_metadata := client_metadata d;
     cost_estimated := cost_estimated d; cost_charged := cost_charged d;
     cost_refunded := cost_refunded d;
     progress_nova := match op with NOVA => v | _ => progress_nova d end;
     progress_flux := match op with FLUX => v | _ => progress_flux d end;
     progress_atlas := match op with ATLAS => v | _ => progress_atlas d end;
     results := results d; error := error d; created_at := created_at d;
     started_at := started_at d; completed_at := completed_at d;
     is_test_mode := is_test_mode d |}.

Definition set_results (v : option Results.t) (d : t) : t :=
  {| job_id := job_id d; user_id := user_id d; api_key_id := api_key_id d;
     request_id := request_id d; status := status d; image_url := image_url d;
     operations := operations d; options := options d;
     webhook_url := webhook_url d; client_metadata := client_metadata d;
     cost_estimated := cost_estimated d; cost_charged := cost_charged d;
     cost_refunded := cost_refunded d; progress_nova := progress_nova d;
     progress_flux := progress_flux d; progress_atlas := progress_atlas d;
     results := v; error := error d; created_at := created_at d;
     started_at := started_at d; completed_at := completed_at d;
     is_test_mode := is_test_mode d |}.

Definition set_error (v : option ErrorData.t) (d : t) : t :=
  {| job_id := job_id d; user_id := user_id d; api_key_id := api_key_id d;
     request_id := request_id d; status := status d; image_url := image_url d;
     operations := operations d; options := options d;
     webhook_url := webhook_url d; client_metadata := client_metadata d;
     cost_estimated := cost_estimated d; cost_charged := cost_charged d;
     cost_refunded := cost_refunded d; progress_nova := progress_nova d;
     progress_flux := progress_flux d; progress_atlas := progress_atlas d;
     results := results d; error := v; created_at := created_at d;
     started_at := started_at d; completed_at := completed_at d;
     is_test_mode := is_test_mode d |}.

(** [progress.<op>] *)
Definition progress (op : Operation) (d : t) : option JobStatus :=
  match op with
  | NOVA => progress_nova d
  | FLUX => progress_flux d
  | ATLAS => progress_atlas d
  end.
(** The fields of a job document that nothing writes after [create_job]
    has stored it. *)
Definition identity (d : t) :=
  (job_id d, user_id d, api_key_id d, request_id d, image_url d,
   operations d, options d, webhook_url d, client_metadata d,
   cost_estimated d, cost_charged d, created_at d, is_test_mode d).
End JobDoc.

(** Outbound HTTP: the JSON bodies the gateway posts. *)
Module Http.
Inductive body :=
| Enrich (image_url user_id job_id analysis_depth metadata_tier : string)
| Upscale (image_url user_id job_id model : string)
| Infuse (image_url user_id job_id golden_codex metadata_mode
          output_format : string)
| Webhook (event job_id : string) (status : JobStatus)
          (results : option Results.t) (error : option ErrorData.t)
          (timestamp : Z).

Record request := { url : string; json : body }.

(** The keys the gateway reads from an agent's JSON answer with [.get]. *)
Record response := {
  golden_codex : option string;
  upscaled_image_url : option string;
  final_url : option string;
}.
End Http.

(** Exceptions that travel through the services. *)
Inductive Exc :=
| HTTPException (status_code : Z) (code message : string)
                (balance required : option Z)
| RateLimited (retry_after limit remaining reset : Z)
| NotFound (document : string)
| TypeError (what : string)
| KeyError (key : string)
| HTTPError (message : string).

(** [str(e)] *)
Definition Exc_str (e : Exc) : string :=
  match e with
  | HTTPException _ _ message _ _ => message
  | RateLimited _ _ _ _ => "rate_limited"
  | NotFound d => "No document to update: " ++ d
  | TypeError w => w
  | KeyError k => k
  | HTTPError m => m
  end.

(** Everything the services can change: the two Firestore collections, the
    transaction sub-collections (each record with its owner), and the
    requests sent so far, oldest first. *)
Record World := {
  users : gmap string UserDoc.t;
  api_jobs : gmap string JobDoc.t;
  tokenTransactions : list (string * TxDoc.t);
  sent : list Http.request;
}.

(** What the services read from outside during one call: the settings, the
    clock, the next generated job id, and how the network answers a POST
    ([inl] is an exception raised by the request, by [raise_for_status] or
    while decoding the answer). *)
Record Env := {
  settings : Settings;
  utcnow : Z;
  generate_job_id : string;
  post : Http.request -> string + Http.response;
}.

(** A computation may raise; what it wrote before raising stays written. *)
Definition M (A : Type) : Type := World -> (Exc + A) * World.

Definition ret {A} (a : A) : M A := fun w => (inr a, w).

Definition bind {A B} (m : M A) (k : A -> M B) : M B :=
  fun w => match m w with
           | (inl e, w') => (inl e, w')
           | (inr a, w') => k a w'
           end.

Definition raise {A} (e : Exc) : M A := fun w => (inl e, w).

Definition try_except {A} (body : M A) (handler : Exc -> M A) : M A :=
  fun w => match body w with
           | (inl e, w') => handler e w'
           | (inr a, w') => (inr a, w')
           end.

Definition gets {A} (f : World -> A) : M A := fun w => (inr (f w), w).

Definition modify (f : World -> World) : M unit := fun w => (inr tt, f w).

Notation "'do' x <- m ; k" := (bind m (fun x => k))
  (at level 10, x name, m at level 100, k at level 200,
   format "'[v' 'do'  x  <-  m ; '/' k ']'").
Notation "'run' m ; k" := (bind m (fun _ => k))
  (at level 10, m at level 100, k at level 200,
   format "'[v' 'run'  m ; '/' k ']'").

(** Firestore primitives on the two collections. *)
Module Firestore.

Definition with_users (f : gmap string UserDoc.t -> gmap string UserDoc.t)
    (w : World) : World :=
  {| users := f (users w); api_jobs := api_jobs w;
     tokenTransactions := tokenTransactions w; sent := sent w |}.

Definition with_api_jobs (f : gmap string JobDoc.t -> gmap string JobDoc.t)
    (w : World) : World :=
  {| users := users w; api_jobs := f (api_jobs w);
     tokenTransactions := tokenTransactions w; sent := sent w |}.

Definition add_transaction (user_id : string) (tx : TxDoc.t) (w : World)
  : World :=
  {| users := users w; api_jobs := api_jobs w;
     tokenTransactions := tokenTransactions w ++ [(user_id, tx)];
     sent := sent w |}.

Definition add_sent (r : Http.request) (w : World) : World :=
  {| users := users w; api_jobs := api_jobs w;
     tokenTransactions := tokenTransactions w; sent := sent w ++ [r] |}.

(** [db.collection("api_jobs").document(job_id).get()] *)
Definition job_get (job_id : string) : M (option JobDoc.t) :=
  gets (fun w => api_jobs w !! job_id).

(** [job_doc.to_dict()] followed by a subscript: on a missing document
    [to_dict()] is [None] and the subscript raises. *)
Definition job_get_dict (job_id : string) : M JobDoc.t :=
  do job_doc <- job_get job_id;
  match job_doc with
  | Some job_data => ret job_data
  | None => raise (TypeError "'NoneType' object is not subscriptable")
  end.

(** [document(job_id).set(job_data)]: creates or replaces. *)
Definition job_set (job_id : string) (job_data : JobDoc.t) : M unit :=
  modify (with_api_jobs (insert job_id job_data)).

(** [job_ref.update({...})]: raises [NotFound] on a missing document. *)
Definition job_update (job_id : string) (f : JobDoc.t -> JobDoc.t) : M unit :=
  do job_doc <- job_get job_id;
  match job_doc with
  | Some job_data => modify (with_api_jobs (insert job_id (f job_data)))
  | None => raise (NotFound job_id)
  end.

(** The documents of [api_jobs] with the given [user_id] and
    [request_id], in the store's order. *)
Definition existing_jobs (user_id request_id : string) (w : World)
  : list JobDoc.t :=
  filter (fun d => JobDoc.user_id d = user_id
                   /\ JobDoc.request_id d = Some request_id)
         (map_to_list (api_jobs w)).*2.

(** [list(query.stream())] for the two-field equality query of
    [create_job]. With [.limit(1)] the stream holds at most the first
    match; the caller reads nothing past the first document. *)
Definition jobs_where (user_id request_id : string) : M (list JobDoc.t) :=
  gets (fun w => take 1 (existing_jobs user_id request_id w)).

End Firestore.
Export Firestore.

(** ** services/tokens.py: the ledger *)

Module Tokens.

(** [tokens.get("balance", 0)] *)
Definition get_balance (user_data : UserDoc.t) : Z :=
  default 0 (UserDoc.tokens_balance user_data).

(** [user_data.get("credits_available", 0)] *)
Definition get_credits_available (user_data : UserDoc.t) : Z :=
  default 0 (UserDoc.credits_available user_data).

(** [transaction.update(user_ref, {"tokens.balance": new_balance,
    "tokens.totalSpent": firestore.Increment(delta)})] *)
Definition update_balance (new_balance delta : Z) (user_data : UserDoc.t)
  : UserDoc.t :=
  {| UserDoc.tokens_balance := Some new_balance;
     UserDoc.tokens_totalSpent :=
       Some (default 0 (UserDoc.tokens_totalSpent user_data) + delta);
     UserDoc.credits_available := UserDoc.credits_available user_data |}.

(** [check_balance(user_id, required)] *)
Definition check_balance (user_id : string) (required : Z) : M (bool * Z) :=
  do user_doc <- gets (fun w => users w !! user_id);
  match user_doc with
  | None => ret (false, 0)
  | Some user_data =>
      let balance := get_balance user_data in
      (* Also check credits_available for backward compatibility *)
      let balance :=
        if bool_decide (balance = 0)
        then get_credits_available user_data else balance in
      ret (bool_decide (required <= balance), balance)
  end.

(** [deduct_tokens(user_id, amount, reason, job_id)]. The transaction
    body raises before its first write, so a raised exception leaves the
    store as it was. *)
Definition deduct_tokens (user_id : string) (amount : Z)
    (reason job_id : string) : M Z :=
  do user_snapshot <- gets (fun w => users w !! user_id);
  match user_snapshot with
  | None =>
      raise (HTTPException 402 "user_not_found" "User account not found"
               None None)
  | Some user_data =>
      let current_balance := get_balance user_data in
      (* Also check credits_available *)
      let current_balance :=
        if bool_decide (current_balance = 0)
        then get_credits_available user_data else current_balance in
      if bool_decide (current_balance < amount) then
        raise (HTTPException 402 "insufficient_credits"
                 ("Account has " ++ py_str current_balance
                  ++ " GCX but operation requires " ++ py_str amount
                  ++ " GCX")
                 (Some current_balance) (Some amount))
      else
        let new_balance := current_balance - amount in
        run modify (with_users
                      (insert user_id
                         (update_balance new_balance amount user_data)));
        run modify (add_transaction user_id
                      {| TxDoc.type := TxDoc.deduction;
                         TxDoc.amount := amount;
                         TxDoc.reason := reason;
                         TxDoc.job_id := job_id;
                         TxDoc.balance_after := new_balance;
                         TxDoc.source := "api" |});
        ret new_balance
  end.

(** [refund_tokens(user_id, amount, reason, job_id)] *)
Definition refund_tokens (user_id : string) (amount : Z)
    (reason job_id : string) : M Z :=
  do user_snapshot <- gets (fun w => users w !! user_id);
  match user_snapshot with
  | None => ret 0
  | Some user_data =>
      let current_balance := get_balance user_data in
      let new_balance := current_balance + amount in
      run modify (with_users
                    (insert user_id
                       (update_balance new_balance (- amount) user_data)));
      run modify (add_transaction user_id
                    {| TxDoc.type := TxDoc.refund;
                       TxDoc.amount := amount;
                       TxDoc.reason := reason;
                       TxDoc.job_id := job_id;
                       TxDoc.balance_after := new_balance;
                       TxDoc.source := "api" |});
      ret new_balance
  end.

(** The deduction records of the ledger, oldest first. *)
Definition deductions (w : World) : list (string * TxDoc.t) :=
  filter (fun p => TxDoc.type p.2 = TxDoc.deduction) (tokenTransactions w).

(** One ledger operation of a job's history. *)
Inductive ledger_op :=
| Deduct (amount : Z)
| Refund (amount : Z).

(** The running totals of a job's history: what was charged by the
    deductions that went through, and what was refunded. *)
Record totals := { charged : Z; refunded : Z }.

(** Runs a history for one account and job, oldest operation first. A
    deduction that raises charges nothing and the history goes on. *)
Fixpoint run_history (user_id job_id : string) (ops : list ledger_op)
    (acc : totals) (w : World) : totals * World :=
  match ops with
  | [] => (acc, w)
  | Deduct amount :: ops =>
      match deduct_tokens user_id amount "api_job" job_id w with
      | (inr _, w') =>
          run_history user_id job_id ops
            {| charged := charged acc + amount; refunded := refunded acc |}
            w'
      | (inl _, w') => run_history user_id job_id ops acc w'
      end
  | Refund amount :: ops =>
      let '(_, w') := refund_tokens user_id amount "job_failed" job_id w in
      run_history user_id job_id ops
        {| charged := charged acc; refunded := refunded acc + amount |} w'
  end.

(** The balance [check_balance] reports, whatever amount is asked for. *)
Definition observed_balance (user_id : string) (w : World) : Z :=
  match check_balance user_id 0 w with
  | (inr (_, balance), _) => balance
  | (inl _, _) => 0
  end.

End Tokens.
Export Tokens.

(** ** services/jobs.py: the job lifecycle *)

Module Jobs.

(** The dictionary [create_job] returns. [cost] stays a dictionary: its
    keys are what the router subscripts. *)
Module CreateJobResult.
Record t := {
  job_id : string;
  status : JobStatus;
  operations : list Operation;
  cost : gmap string Z;
  created_at : Z;
  links_self : string;
  links_cancel : string;
  message : option string;
}.
End CreateJobResult.

(** [client.post(url, json=...)] with the request recorded; a raised
    exception carries the network's message. *)
Definition http_post (env : Env) (url : string) (json : Http.body)
  : M Http.response :=
  let request := {| Http.url := url; Http.json := json |} in
  run modify (add_sent request);
  match post env request with
  | inl message => raise (HTTPError message)
  | inr response => ret response
  end.

(** [trigger_webhook(job_id, event, job_data)] *)
Definition trigger_webhook (env : Env) (job_id event : string)
    (job_data : JobDoc.t) : M unit :=
  let webhook_url := JobDoc.webhook_url job_data in
  if negb (truthy webhook_url) then ret tt
  else
    try_except
      (run http_post env (default "" webhook_url)
             (Http.Webhook event job_id (JobDoc.status job_data)
                (JobDoc.results job_data) (JobDoc.error job_data)
                (utcnow env));
       ret tt)
      (fun _ => ret tt).

(** The [Nova] block of [trigger_pipeline]. *)
Definition nova_stage (env : Env) (job_id user_id : string)
    (options : option OperationOptions)
    (state : Results.t * string) : M (Results.t * string) :=
  let '(results, current_image_url) := state in
  run job_update job_id (JobDoc.set_progress NOVA (Some PROCESSING));
  let nova_options :=
    match options with Some o => nova o | None => None end in
  do nova_data <-
    http_post env (nova_agent_url (settings env) ++ "/enrich")
      (Http.Enrich current_image_url user_id job_id
         (match nova_options with
          | Some o =>
              if bool_decide (NovaTier_value (tier o) = "full_gcx")
              then "full" else "standard"
          | None => "standard"
          end)
         (match nova_options with
          | Some o => NovaTier_value (tier o)
          | None => "standard"
          end));
  let results :=
    {| Results.urls_original := Results.urls_original results;
       Results.urls_upscaled := Results.urls_upscaled results;
       Results.urls_final := Results.urls_final results;
       Results.golden_codex :=
         Some (default "{}" (Http.golden_codex nova_data)) |} in
  run job_update job_id (JobDoc.set_progress NOVA (Some COMPLETED));
  ret (results, current_image_url).

(** The [Flux] block of [trigger_pipeline]. *)
Definition flux_stage (env : Env) (job_id user_id : string)
    (options : option OperationOptions)
    (state : Results.t * string) : M (Results.t * string) :=
  let '(results, current_image_url) := state in
  run job_update job_id (JobDoc.set_progress FLUX (Some PROCESSING));
  let flux_options :=
    match options with Some o => flux o | None => None end in
  do flux_data <-
    http_post env (flux_agent_url (settings env) ++ "/upscale")
      (Http.Upscale current_image_url user_id job_id
         (match flux_options with
          | Some o => FluxModel_value (model o)
          | None => "4x"
          end));
  let upscaled_url := Http.upscaled_image_url flux_data in
  let '(results, current_image_url) :=
    if truthy upscaled_url then
      ({| Results.urls_original := Results.urls_original results;
          Results.urls_upscaled := upscaled_url;
          Results.urls_final := Results.urls_final results;
          Results.golden_codex := Results.golden_codex results |},
       default "" upscaled_url)
    else (results, current_image_url) in
  run job_update job_id (JobDoc.set_progress FLUX (Some COMPLETED));
  ret (results, current_image_url).

(** The [Atlas] block of [trigger_pipeline]. *)
Definition atlas_stage (env : Env) (job_id user_id : string)
    (options : option OperationOptions)
    (state : Results.t * string) : M (Results.t * string) :=
  let '(results, current_image_url) := state in
  run job_update job_id (JobDoc.set_progress ATLAS (Some PROCESSING));
  let atlas_options :=
    match options with Some o => atlas o | None => None end in
  do atlas_data <-
    http_post env (atlas_agent_url (settings env) ++ "/infuse")
      (Http.Infuse current_image_url user_id job_id
         (default "{}" (Results.golden_codex results))
         "full_gcx"
         (match atlas_options with
          | Some o => AtlasFormat_value (format o)
          | None => "png"
          end));
  let final_url := Http.final_url atlas_data in
  let results :=
    if truthy final_url then
      {| Results.urls_original := Results.urls_original results;
         Results.urls_upscaled := Results.urls_upscaled results;
         Results.urls_final := final_url;
         Results.golden_codex := Results.golden_codex results |}
    else results in
  run job_update job_id (JobDoc.set_progress ATLAS (Some COMPLETED));
  ret (results, current_image_url).

(** A stage block guarded by [if Operation.X in operations]. *)
Definition when_requested (op : Operation) (operations : list Operation)
    (stage : Results.t * string -> M (Results.t * string))
    (state : Results.t * string) : M (Results.t * string) :=
  if bool_decide (op ∈ operations) then stage state else ret state.

(** The body of the [try] in [trigger_pipeline]. *)
Definition pipeline_body (env : Env) (job_id image_url : string)
    (operations : list Operation) (options : option OperationOptions)
    (user_id : string) : M unit :=
  let results :=
    {| Results.urls_original := image_url;
       Results.urls_upscaled := None;
       Results.urls_final := None;
       Results.golden_codex := None |} in
  let current_image_url := image_url in
  do state <- when_requested NOVA operations
                (nova_stage env job_id user_id options)
                (results, current_image_url);
  do state <- when_requested FLUX operations
                (flux_stage env job_id user_id options) state;
  do state <- when_requested ATLAS operations
                (atlas_stage env job_id user_id options) state;
  let results := state.1 in
  (* Job completed successfully *)
  run job_update job_id
        (fun d => JobDoc.set_completed_at (Some (utcnow env))
                    (JobDoc.set_results (Some results)
                       (JobDoc.set_status COMPLETED d)));
  (* Trigger webhook if configured *)
  do job_data <- job_get_dict job_id;
  if truthy (JobDoc.webhook_url job_data)
  then trigger_webhook env job_id "job.completed" job_data
  else ret tt.

(** The [except Exception as e] handler of [trigger_pipeline]. *)
Definition pipeline_failed (env : Env) (job_id user_id : string) (e : Exc)
  : M unit :=
  let error_data :=
    {| ErrorData.code := "pipeline_error";
       ErrorData.message := Exc_str e;
       ErrorData.retryable := true |} in
  run job_update job_id
        (fun d => JobDoc.set_completed_at (Some (utcnow env))
                    (JobDoc.set_error (Some error_data)
                       (JobDoc.set_status FAILED d)));
  (* Refund tokens on failure *)
  do job_data <- job_get_dict job_id;
  let cost := JobDoc.cost_charged job_data in
  run (if bool_decide (0 < cost) then
         run refund_tokens user_id cost "job_failed" job_id;
         job_update job_id (JobDoc.set_cost_refunded cost)
       else ret tt);
  (* Trigger failure webhook *)
  if truthy (JobDoc.webhook_url job_data)
  then trigger_webhook env job_id "job.failed" job_data
  else ret tt.

(** [trigger_pipeline(job_id, image_url, operations, options, user_id)] *)
Definition trigger_pipeline (env : Env) (job_id image_url : string)
    (operations : list Operation) (options : option OperationOptions)
    (user_id : string) : M unit :=
  (* Update status to processing *)
  run job_update job_id
        (fun d => JobDoc.set_started_at (Some (utcnow env))
                    (JobDoc.set_status PROCESSING d));
  try_except
    (pipeline_body env job_id image_url operations options user_id)
    (pipeline_failed env job_id user_id).

(** [create_job(...)] *)
Definition create_job (env : Env) (user_id api_key_id image_url : string)
    (operations : list Operation) (options : option OperationOptions)
    (webhook_url : option string) (client_metadata : option (list (string * string)))
    (request_id : option string) (is_test_mode : bool)
  : M CreateJobResult.t :=
  (* Calculate cost *)
  let '(total_cost, breakdown) :=
    calculate_cost (settings env) operations options in
  (* Check idempotency *)
  do existing_docs <-
    (if truthy request_id
     then jobs_where user_id (default "" request_id)
     else ret []);
  match existing_docs with
  | existing :: _ =>
      ret {| CreateJobResult.job_id := JobDoc.job_id existing;
             CreateJobResult.status := JobDoc.status existing;
             CreateJobResult.operations := JobDoc.operations existing;
             CreateJobResult.cost :=
               {[ "estimated_aet" := JobDoc.cost_estimated existing ]};
             CreateJobResult.created_at := JobDoc.created_at existing;
             CreateJobResult.links_self :=
               "/v1/jobs/" ++ JobDoc.job_id existing;
             CreateJobResult.links_cancel :=
               "/v1/jobs/" ++ JobDoc.job_id existing;
             CreateJobResult.message :=
               Some "Job already created for this request_id" |}
  | [] =>
      (* Deduct tokens *)
      let job_id := generate_job_id env in
      run deduct_tokens user_id total_cost "api_job" job_id;
      (* Create job document *)
      let now := utcnow env in
      let job_data :=
        {| JobDoc.job_id := job_id;
           JobDoc.user_id := user_id;
           JobDoc.api_key_id := api_key_id;
           JobDoc.request_id := request_id;
           JobDoc.status := PENDING;
           JobDoc.image_url := image_url;
           JobDoc.operations := operations;
           JobDoc.options := options;
           JobDoc.webhook_url :=
             if truthy webhook_url then webhook_url else None;
           JobDoc.client_metadata := default [] client_metadata;
           JobDoc.cost_estimated := total_cost;
           JobDoc.cost_charged := total_cost;
           JobDoc.cost_refunded := 0;
           JobDoc.progress_nova :=
             if bool_decide (NOVA ∈ operations)
             then Some PENDING else None;
           JobDoc.progress_flux :=
             if bool_decide (FLUX ∈ operations)
             then Some PENDING else None;
           JobDoc.progress_atlas :=
             if bool_decide (ATLAS ∈ operations)
             then Some PENDING else None;
           JobDoc.results := None;
           JobDoc.error := None;
           JobDoc.created_at := now;
           JobDoc.started_at := None;
           JobDoc.completed_at := None;
           JobDoc.is_test_mode := is_test_mode |} in
      run job_set job_id job_data;
      (* Trigger pipeline asynchronously *)
      run trigger_pipeline env job_id image_url operations options user_id;
      ret {| CreateJobResult.job_id := job_id;
             CreateJobResult.status := PENDING;
             CreateJobResult.operations := operations;
             CreateJobResult.cost := {[ "estimated_aet" := total_cost ]};
             CreateJobResult.created_at := now;
             CreateJobResult.links_self := "/v1/jobs/" ++ job_id;
             CreateJobResult.links_cancel := "/v1/jobs/" ++ job_id;
             CreateJobResult.message := None |}
  end.

(** [cancel_job(job_id, user_id)] *)
Definition cancel_job (env : Env) (job_id user_id : string) : M bool :=
  do job_doc <- job_get job_id;
  match job_doc with
  | None => ret false
  | Some job_data =>
      (* Verify ownership *)
      if negb (bool_decide (JobDoc.user_id job_data = user_id)) then
        ret false
      (* Can only cancel pending jobs *)
      else if negb (bool_decide (JobDoc.status job_data = PENDING)) then
        ret false
      else
        (* Update status *)
        run job_update job_id
              (fun d => JobDoc.set_completed_at (Some (utcnow env))
                          (JobDoc.set_status CANCELLED d));
        (* Refund tokens *)
        let cost := JobDoc.cost_charged job_data in
        run (if bool_decide (0 < cost) then
               run refund_tokens user_id cost "job_cancelled" job_id;
               job_update job_id (JobDoc.set_cost_refunded cost)
             else ret tt);
        ret true
  end.

(** The request [trigger_webhook] posts for a job with a webhook. *)
Definition webhook_request (env : Env) (job_id event : string)
    (job_data : JobDoc.t) : Http.request :=
  {| Http.url := default "" (JobDoc.webhook_url job_data);
     Http.json :=
       Http.Webhook event job_id (JobDoc.status job_data)
         (JobDoc.results job_data) (JobDoc.error job_data) (utcnow env) |}.

(** The document the [except] handler writes first: [FAILED], the
    structured error, the completion time. *)
Definition failed_job (env : Env) (e : Exc) (d : JobDoc.t) : JobDoc.t :=
  JobDoc.set_completed_at (Some (utcnow env))
    (JobDoc.set_error
       (Some {| ErrorData.code := "pipeline_error";
                ErrorData.message := Exc_str e;
                ErrorData.retryable := true |})
       (JobDoc.set_status FAILED d)).

(** The document [trigger_pipeline] writes first: [PROCESSING] and the
    start time. *)
Definition started_job (env : Env) (d : JobDoc.t) : JobDoc.t :=
  JobDoc.set_started_at (Some (utcnow env)) (JobDoc.set_status PROCESSING d).

(** The ledger after the failure path of a job: a positive charge credited
    back through [refund_tokens]. *)
Definition refunded_ledger (user_id job_id : string) (charged : Z)
    (w : World) : World :=
  if bool_decide (0 < charged)
  then (refund_tokens user_id charged "job_failed" job_id w).2
  else w.

(** The pipeline's writes to one job: everything but its identity and its
    refund may change. *)
Definition advanced (d d' : JobDoc.t) : Prop :=
  JobDoc.identity d' = JobDoc.identity d
  /\ JobDoc.cost_refunded d' = JobDoc.cost_refunded d.

(** From [w] to [w'] only the document [job_id] moved, by [advanced], and
    requests were sent. *)
Definition only_job_advanced (job_id : string) (w w' : World) : Prop :=
  users w' = users w
  /\ tokenTransactions w' = tokenTransactions w
  /\ (forall j, j <> job_id -> api_jobs w' !! j = api_jobs w !! j)
  /\ (forall d, api_jobs w !! job_id = Some d ->
        exists d', api_jobs w' !! job_id = Some d' /\ advanced d d').

(** Every run of [m] is such a move. *)
Definition keeps (job_id : string) {A} (m : M A) : Prop :=
  forall w r w', m w = (r, w') -> only_job_advanced job_id w w'.

End Jobs.
Export Jobs.

(** ** routers/jobs.py *)

Module Router.

(** [CreateJobRequest] *)
Module CreateJobRequest.
Record t := {
  image_url : string;
  operations : list Operation;
  options : option OperationOptions;
  webhook_url : option string;
  metadata : option (list (string * string));
}.
End CreateJobRequest.

(** [CreateJobResponse], with [JobCost] reduced to the field the endpoint
    fills in. *)
Module CreateJobResponse.
Record t := {
  job_id : string;
  status : JobStatus;
  operations : list Operation;
  cost_estimated_gcx : Z;
  created_at : Z;
  links_self : string;
  links_cancel : string;
}.
End CreateJobResponse.

(** [d[key]] on a dictionary: [KeyError] on a missing key. *)
Definition subscript (d : gmap string Z) (key : string) : M Z :=
  match d !! key with
  | Some v => ret v
  | None => raise (KeyError key)
  end.

(** [create_job_endpoint], after the rate-limit dependency has let the
    request through. *)
Definition create_job_endpoint (env : Env) (body : CreateJobRequest.t)
    (auth : AuthContext.t) (x_request_id : option string)
  : M CreateJobResponse.t :=
  do result <-
    create_job env (AuthContext.user_id auth) (AuthContext.key_id auth)
      (CreateJobRequest.image_url body)
      (CreateJobRequest.operations body)
      (CreateJobRequest.options body)
      (if truthy (CreateJobRequest.webhook_url body)
       then CreateJobRequest.webhook_url body else None)
      (CreateJobRequest.metadata body)
      x_request_id
      (AuthContext.is_test_mode auth);
  do estimated_gcx <-
    subscript (CreateJobResult.cost result) "estimated_gcx";
  ret {| CreateJobResponse.job_id := CreateJobResult.job_id result;
         CreateJobResponse.status := CreateJobResult.status result;
         CreateJobResponse.operations := CreateJobResult.operations result;
         CreateJobResponse.cost_estimated_gcx := estimated_gcx;
         CreateJobResponse.created_at := CreateJobResult.created_at result;
         CreateJobResponse.links_self := CreateJobResult.links_self result;
         CreateJobResponse.links_cancel :=
           CreateJobResult.links_cancel result |}.

End Router.
Export Router.

(** ** services/rate_limit.py *)

Module RateLimit.

(** [RateLimitWindow] *)
Record RateLimitWindow := { count : Z; window_start : Z }.

(** [get_rate_limit_for_tier(tier)]; every tier has an entry in [limits],
    so the [.get] default is never taken. *)
Definition get_rate_limit_for_tier (settings : Settings)
    (tier : SubscriptionTier) : Z :=
  match tier with
  | FREE_TRIAL => rate_limit_free settings
  | CURATOR => rate_limit_curator settings
  | STUDIO => rate_limit_studio settings
  | GALLERY => rate_limit_gallery settings
  end.

(** [check_rate_limit(auth)] at clock reading [now = int(time.time())],
    on the module-level table [_rate_limits]. The incremented window is
    stored whether or not the call raises. *)
Definition check_rate_limit (settings : Settings) (now : Z)
    (auth : AuthContext.t) (_rate_limits : gmap string RateLimitWindow)
  : (Exc + Z * Z * Z) * gmap string RateLimitWindow :=
  let key_id := AuthContext.key_id auth in
  let limit := get_rate_limit_for_tier settings (AuthContext.tier auth) in
  let window_start' := (now / 60) * 60 in
  let window_reset := window_start' + 60 in
  (* Get or create rate limit window *)
  let _rate_limits :=
    match _rate_limits !! key_id with
    | Some window =>
        if bool_decide (window_start window ≠ window_start')
        then <[key_id := {| count := 0; window_start := window_start' |}]>
               _rate_limits
        else _rate_limits
    | None =>
        <[key_id := {| count := 0; window_start := window_start' |}]>
          _rate_limits
    end in
  let window :=
    default {| count := 0; window_start := window_start' |}
            (_rate_limits !! key_id) in
  let window :=
    {| count := count window + 1; window_start := window_start window |} in
  let _rate_limits := <[key_id := window]> _rate_limits in
  let remaining := Z.max 0 (limit - count window) in
  if bool_decide (limit < count window) then
    let retry_after := window_reset - now in
    (inl (RateLimited retry_after limit 0 window_reset), _rate_limits)
  else (inr (limit, remaining, window_reset), _rate_limits).

(** [check_rate_limit] called once per clock reading of [times], in order;
    the outcomes, oldest first, and the table left behind. *)
Fixpoint check_many (settings : Settings) (auth : AuthContext.t)
    (times : list Z) (_rate_limits : gmap string RateLimitWindow)
  : list (Exc + Z * Z * Z) * gmap string RateLimitWindow :=
  match times with
  | [] => ([], _rate_limits)
  | now :: times =>
      let '(r, _rate_limits) :=
        check_rate_limit settings now auth _rate_limits in
      let '(rs, _rate_limits) :=
        check_many settings auth times _rate_limits in
      (r :: rs, _rate_limits)
  end.

(** The calls already counted for [key_id] in the window that starts at
    [q * 60]. *)
Definition counted (key_id : string) (q : Z)
    (table : gmap string RateLimitWindow) : Z :=
  match table !! key_id with
  | Some window =>
      if bool_decide (window_start window = q * 60) then count window else 0
  | None => 0
  end.

(** The outcome of the call at [now] that brings the count of window [q]
    to [c]. *)
Definition outcome (limit q c now : Z) : Exc + Z * Z * Z :=
  if bool_decide (limit < c)
  then inl (RateLimited (q * 60 + 60 - now) limit 0 (q * 60 + 60))
  else inr (limit, Z.max 0 (limit - c), q * 60 + 60).

Fixpoint outcomes (limit q c : Z) (times : list Z) : list (Exc + Z * Z * Z) :=
  match times with
  | [] => []
  | now :: times => outcome limit q (c + 1) now :: outcomes limit q (c + 1) times
  end.

End RateLimit.
Export RateLimit.

(** ** hashlib / hmac: SHA-256 and HMAC-SHA256 (FIPS 180-4, RFC 2104) *)

Module Sha256.

(** UTF-8 text is kept as its bytes, so [s.encode("utf-8")] reads the
    characters off as numbers. *)
Definition encode (s : string) : list Z :=
  map (fun c => Z.of_N (N_of_ascii c)) (list_ascii_of_string s).

Definition add32 (a b : Z) : Z := (a + b) mod 2 ^ 32.

Definition rotr (n x : Z) : Z :=
  Z.lor (Z.shiftr x n) (Z.shiftl x (32 - n)) mod 2 ^ 32.

Definition Ch (x y z : Z) : Z :=
  Z.lxor (Z.land x y) (Z.land (Z.lxor x 0xffffffff) z).

Definition Maj (x y z : Z) : Z :=
  Z.lxor (Z.land x y) (Z.lxor (Z.land x z) (Z.land y z)).

Definition Sigma0 (x : Z) : Z :=
  Z.lxor (rotr 2 x) (Z.lxor (rotr 13 x) (rotr 22 x)).

Definition Sigma1 (x : Z) : Z :=
  Z.lxor (rotr 6 x) (Z.lxor (rotr 11 x) (rotr 25 x)).

Definition sigma0 (x : Z) : Z :=
  Z.lxor (rotr 7 x) (Z.lxor (rotr 18 x) (Z.shiftr x 3)).

Definition sigma1 (x : Z) : Z :=
  Z.lxor (rotr 17 x) (Z.lxor (rotr 19 x) (Z.shiftr x 10)).

(** The first [n] primes, by trial division over [2 .. bound]. *)
Definition is_prime (p : Z) : bool :=
  forallb (fun d => negb (Z.eqb (p mod d) 0))
          (map Z.of_nat (seq 2 (Z.to_nat p - 2))).

Definition first_primes (n bound : nat) : list Z :=
  firstn n (filter (fun p => is_prime p = true) (map Z.of_nat (seq 2 bound))).

(** The integer cube root of [x < 2 ^ (3 * bits)], one bit at a time from
    the top. *)
Fixpoint cube_root (bits : nat) (x r : Z) : Z :=
  match bits with
  | O => r
  | S bits =>
      let r' := r + 2 ^ Z.of_nat bits in
      cube_root bits x (if Z.leb (r' * r' * r') x then r' else r)
  end.

(** The round constants: the first 32 bits of the fractional parts of the
    cube roots of the first 64 primes. *)
Definition K : list Z :=
  Eval vm_compute in
    map (fun p => cube_root 36 (p * 2 ^ 96) 0 mod 2 ^ 32) (first_primes 64 310).

(** The initial hash value: the first 32 bits of the fractional parts of
    the square roots of the first 8 primes. *)
Definition H0 : list Z :=
  Eval vm_compute in
    map (fun p => Z.sqrt (p * 2 ^ 64) mod 2 ^ 32) (first_primes 8 18).

(** Big-endian bytes of a number, [n] of them. *)
Fixpoint be_bytes (n : nat) (x : Z) : list Z :=
  match n with
  | O => []
  | S n => (Z.shiftr x (8 * Z.of_nat n)) mod 256 :: be_bytes n x
  end.

(** The message followed by [0x80], zero bytes up to 56 modulo 64, and
    the bit length on eight bytes. *)
Definition pad (msg : list Z) : list Z :=
  let len := Z.of_nat (length msg) in
  let zeros := Z.to_nat ((55 - len) mod 64) in
  (msg ++ [0x80] ++ repeat 0 zeros ++ be_bytes 8 (8 * len))%list.

(** Big-endian 32-bit words of a byte string; trailing bytes that do not
    fill a word are dropped (there are none after [pad]). *)
Fixpoint words (bs : list Z) : list Z :=
  match bs with
  | b0 :: b1 :: b2 :: b3 :: bs =>
      (((b0 * 256 + b1) * 256 + b2) * 256 + b3) :: words bs
  | _ => []
  end.

(** The sixteen-word window of the message schedule, moved on by one. *)
Definition next_window (w : list Z) : list Z :=
  let at_ i := nth i w 0 in
  (tl w ++ [add32 (add32 (sigma1 (at_ 14%nat)) (at_ 9%nat))
                  (add32 (sigma0 (at_ 1%nat)) (at_ 0%nat))])%list.

(** One round on the working variables [a..h]. *)
Definition round (st : list Z) (k wt : Z) : list Z :=
  match st with
  | [a; b; c; d; e; f; g; h] =>
      let t1 := add32 (add32 (add32 h (Sigma1 e)) (add32 (Ch e f g) k)) wt in
      let t2 := add32 (Sigma0 a) (Maj a b c) in
      [add32 t1 t2; a; b; c; add32 d t1; e; f; g]
  | _ => st
  end.

Fixpoint rounds (ks : list Z) (w st : list Z) : list Z :=
  match ks with
  | [] => st
  | k :: ks => rounds ks (next_window w) (round st k (nth 0 w 0))
  end.

(** Compression of one 16-word block into the hash value. *)
Definition compress (h block : list Z) : list Z :=
  zip_with add32 h (rounds K block h).

(** All blocks in turn; [n] bounds the number of blocks. *)
Fixpoint blocks (n : nat) (h ws : list Z) : list Z :=
  match n with
  | O => h
  | S n =>
      match ws with
      | [] => h
      | _ => blocks n (compress h (firstn 16 ws)) (skipn 16 ws)
      end
  end.

(** [hashlib.sha256(msg).digest()] *)
Definition sha256 (msg : list Z) : list Z :=
  let ws := words (pad msg) in
  flat_map (be_bytes 4) (blocks (length ws) H0 ws).

(** [hmac.new(key, msg, hashlib.sha256).digest()] *)
Definition hmac_sha256 (key msg : list Z) : list Z :=
  let key := if bool_decide (64 < length key)%nat then sha256 key else key in
  let key := (key ++ repeat 0 (64 - length key)%nat)%list in
  let ipad := map (Z.lxor 0x36) key in
  let opad := map (Z.lxor 0x5c) key in
  sha256 (opad ++ sha256 (ipad ++ msg))%list.

Definition hex_digit (n : Z) : ascii :=
  match n with
  | 0 => "0" | 1 => "1" | 2 => "2" | 3 => "3" | 4 => "4" | 5 => "5"
  | 6 => "6" | 7 => "7" | 8 => "8" | 9 => "9" | 10 => "a" | 11 => "b"
  | 12 => "c" | 13 => "d" | 14 => "e" | _ => "f"
  end%char.

(** [bytes.hex()] *)
Fixpoint hex (bs : list Z) : string :=
  match bs with
  | [] => ""
  | b :: bs =>
      String (hex_digit ((b / 16) mod 16))
        (String (hex_digit (b mod 16)) (hex bs))
  end.

(** [hmac.new(key, msg, hashlib.sha256).hexdigest()] *)
Definition hmac_sha256_hexdigest (key msg : list Z) : string :=
  hex (hmac_sha256 key msg).

End Sha256.
Export Sha256.

(** ** sdks/python/golden_codex/webhooks.py *)

Module Webhooks.

(** [s.split(sep)] for a one-character separator. *)
Fixpoint split (sep : ascii) (s : string) : list string :=
  match s with
  | EmptyString => [EmptyString]
  | String c s' =>
      if bool_decide (c = sep) then EmptyString :: split sep s'
      else match split sep s' with
           | part :: parts => String c part :: parts
           | [] => [String c EmptyString]
           end
  end.

(** [sep in s] *)
Fixpoint contains (sep : ascii) (s : string) : bool :=
  match s with
  | EmptyString => false
  | String c s' => bool_decide (c = sep) || contains sep s'
  end.

(** [s.split(sep, 1)] on a string that contains [sep]: what comes before
    the first separator, and what comes after it. *)
Fixpoint split_once (sep : ascii) (s : string) : string * string :=
  match s with
  | EmptyString => (EmptyString, EmptyString)
  | String c s' =>
      if bool_decide (c = sep) then (EmptyString, s')
      else let '(key, value) := split_once sep s' in (String c key, value)
  end.

(** Every character of [s] satisfies [P]. *)
Fixpoint all_chars (P : ascii -> bool) (s : string) : bool :=
  match s with
  | EmptyString => true
  | String c s' => P c && all_chars P s'
  end.

(** The characters of [bytes.hex()]. *)
Definition is_hex (c : ascii) : bool :=
  bool_decide (c ∈ ["0"; "1"; "2"; "3"; "4"; "5"; "6"; "7"; "8"; "9";
                    "a"; "b"; "c"; "d"; "e"; "f"]%char).

(** The loop that fills [parts] from the signature header. *)
Definition parse_signature (signature : string) : gmap string string :=
  foldl (fun parts part =>
           if contains "=" part then
             let '(key, value) := split_once "=" part in
             <[key := value]> parts
           else parts)
        ∅ (split "," signature).

Definition is_ascii (s : string) : bool :=
  forallb (fun c => bool_decide (N_of_ascii c < 128)%N)
          (list_ascii_of_string s).

(** [hmac.compare_digest(a, b)] on two [str]: [TypeError] unless both are
    ASCII. *)
Definition compare_digest (a b : string) : Exc + bool :=
  if is_ascii a && is_ascii b then inr (bool_decide (a = b))
  else inl (TypeError
              "comparing strings with non-ASCII characters is not supported").

(** The default of [max_age]. *)
Definition default_max_age : Z := 300.

(** [verify_webhook_signature(payload, signature, secret, max_age)] when
    [time.time()] reads [time_now]. *)
Definition verify_webhook_signature (time_now : Z)
    (payload signature secret : string) (max_age : Z) : Exc + bool :=
  if bool_decide (signature = EmptyString) then inr false
  else
    (* Parse signature header: t=timestamp,v1=hash *)
    let parts := parse_signature signature in
    let timestamp_str := parts !! "t" in
    let hash_value := parts !! "v1" in
    if negb (truthy timestamp_str) || negb (truthy hash_value) then
      inr false
    else
      match py_int (default "" timestamp_str) with
      | None => inr false
      | Some timestamp =>
          (* Check timestamp is within allowed window *)
          let now := time_now in
          if bool_decide (max_age < Z.abs (now - timestamp)) then inr false
          else
            (* Compute expected signature *)
            let expected_hash :=
              hmac_sha256_hexdigest (encode secret)
                (encode (py_str timestamp ++ "." ++ payload)) in
            (* Constant-time comparison *)
            compare_digest (default "" hash_value) expected_hash
      end.

(** [generate_webhook_signature(payload, secret, timestamp)] when
    [time.time()] reads [time_now]. *)
Definition generate_webhook_signature (time_now : Z)
    (payload secret : string) (timestamp : option Z) : string :=
  let timestamp := default time_now timestamp in
  let hash_value :=
    hmac_sha256_hexdigest (encode secret)
      (encode (py_str timestamp ++ "." ++ payload)) in
  "t=" ++ py_str timestamp ++ ",v1=" ++ hash_value.

(** Two texts of the same length that differ at exactly one byte. *)
Definition differ_in_one_byte (p p' : string) : Prop :=
  exists (before after : string) (c c' : ascii),
    c <> c' /\ p = before ++ String c after
    /\ p' = before ++ String c' after.

End Webhooks.
Export Webhooks.

(** ** Sample data *)

Module Examples.

(** A network on which every agent answers and every webhook is
    delivered. *)
Definition network_up (r : Http.request) : string + Http.response :=
  inr {| Http.golden_codex := Some "{}";
         Http.upscaled_image_url := Some "https://cdn.example/up.png";
         Http.final_url := Some "https://cdn.example/final.png" |}.

(** A network on which the upscaling agent times out. *)
Definition network_flux_down (r : Http.request) : string + Http.response :=
  match Http.json r with
  | Http.Upscale _ _ _ _ => inl "timed out"
  | _ => network_up r
  end.

Definition env_at (now : Z) (job_id : string)
    (post : Http.request -> string + Http.response) : Env :=
  {| settings := default_settings; utcnow := now;
     generate_job_id := job_id; post := post |}.

Definition user_with (balance : option Z) (credits : option Z) : UserDoc.t :=
  {| UserDoc.tokens_balance := balance;
     UserDoc.tokens_totalSpent := None;
     UserDoc.credits_available := credits |}.

Definition world_with (user_id : string) (user : UserDoc.t) : World :=
  {| users := {[ user_id := user ]}; api_jobs := ∅;
     tokenTransactions := []; sent := [] |}.

(** A job as [create_job] stores it, before the pipeline starts. *)
Definition pending_job (job_id user_id : string) (charged : Z) : JobDoc.t :=
  {| JobDoc.job_id := job_id; JobDoc.user_id := user_id;
     JobDoc.api_key_id := "key_1"; JobDoc.request_id := None;
     JobDoc.status := PENDING;
     JobDoc.image_url := "https://img.example/a.png";
     JobDoc.operations := [NOVA; FLUX; ATLAS]; JobDoc.options := None;
     JobDoc.webhook_url := Some "https://hooks.example/gcx";
     JobDoc.client_metadata := [];
     JobDoc.cost_estimated := charged; JobDoc.cost_charged := charged;
     JobDoc.cost_refunded := 0;
     JobDoc.progress_nova := Some PENDING;
     JobDoc.progress_flux := Some PENDING;
     JobDoc.progress_atlas := Some PENDING;
     JobDoc.results := None; JobDoc.error := None;
     JobDoc.created_at := 1700000000; JobDoc.started_at := None;
     JobDoc.completed_at := None; JobDoc.is_test_mode := false |}.

Definition auth_of (user_id key_id : string) : AuthContext.t :=
  {| AuthContext.user_id := user_id; AuthContext.key_id := key_id;
     AuthContext.tier := FREE_TRIAL; AuthContext.balance := 10;
     AuthContext.is_test_mode := false; AuthContext.permissions := [] |}.

(** An account that only carries the legacy [credits_available] field. *)
Definition legacy_world : World := world_with "user_1" (user_with None (Some 5)).

End Examples.
Export Examples.

(** ** services/jobs.py: reading jobs back *)

(** The response models of [models/schemas.py] that [_transform_job]
    fills in. *)
Module JobProgress.
Record t := {
  nova : option JobStatus;
  flux : option JobStatus;
  atlas : option JobStatus;
}.
End JobProgress.

Module JobUrls.
Record t := {
  original : string;
  upscaled : option string;
  final : option string;
}.
End JobUrls.

Module JobResults.
Record t := {
  golden_codex : option string;
  urls : option JobUrls.t;
  artwork_id : option string;
}.
End JobResults.

Module JobCost.
Record t := {
  estimated_aet : Z;
  charged_aet : option Z;
  refunded_aet : option Z;
}.
End JobCost.

Module Job.
Record t := {
  job_id : string;
  status : JobStatus;
  operations : list Operation;
  progress : option JobProgress.t;
  results : option JobResults.t;
  error : option ErrorData.t;
  cost : JobCost.t;
  client_metadata : option (list (string * string));
  created_at : Z;
  started_at : option Z;
  completed_at : option Z;
}.
End Job.

Module Pagination.
Record t := { total : Z; limit : Z; offset : Z }.
End Pagination.

Module Views.




(** [created_at] descending, the order of the query of [list_jobs]. *)
Definition newer_first (a b : JobDoc.t) : Prop :=
  JobDoc.created_at b <= JobDoc.created_at a.

Global Instance newer_first_dec a b : Decision (newer_first a b).
Proof. unfold newer_first. apply _. Defined.



End Views.
Export Views.

(** ** routers/estimate.py *)

Module Estimate.

(** [EstimateCostRequest] *)
Module EstimateCostRequest.
Record t := {
  operations : list Operation;
  options : option OperationOptions;
}.
End EstimateCostRequest.

(** [CostEstimate] *)
Module CostEstimate.
Record t := {
  estimated_aet : Z;
  breakdown : gmap string CostBreakdownItem;
  current_balance : Z;
  sufficient_balance : bool;
}.
End CostEstimate.

(** [estimate_cost_endpoint], after the rate-limit dependency has let the
    request through. *)
Definition estimate_cost_endpoint (settings : Settings)
    (body : EstimateCostRequest.t) (auth : AuthContext.t) : CostEstimate.t :=
  let '(total_cost, breakdown) :=
    calculate_cost settings (EstimateCostRequest.operations body)
      (EstimateCostRequest.options body) in
  {| CostEstimate.estimated_aet := total_cost;
     CostEstimate.breakdown := breakdown;
     CostEstimate.current_balance := AuthContext.balance auth;
     CostEstimate.sufficient_balance :=
       bool_decide (total_cost <= AuthContext.balance auth) |}.

End Estimate.
Export Estimate.

(** ** Vocabulary of the properties *)

(** The amount a ledger operation moves. *)
Definition ledger_amount (op : ledger_op) : Z :=
  match op with
  | Deduct amount => amount
  | Refund amount => amount
  end.

(** No account's stored [tokens.balance] is below zero. *)
Definition solvent (w : World) : Prop :=
  forall u user_data,
    users w !! u = Some user_data -> 0 <= get_balance user_data.

(** A request to one of the three agents, as opposed to a webhook. *)
Definition is_agent_request (r : Http.request) : bool :=
  match Http.json r with
  | Http.Webhook _ _ _ _ _ _ => false
  | _ => true
  end.

(** Every agent answers every request; webhooks may still fail. *)
Definition agents_answer (env : Env) : Prop :=
  forall r, is_agent_request r = true -> exists resp, post env r = inr resp.


(** The request the [Nova] block posts for an image. *)
Definition enrich_request (env : Env) (job_id user_id : string)
    (options : option OperationOptions) (image_url : string) : Http.request :=
  let nova_options :=
    match options with Some o => nova o | None => None end in
  {| Http.url := nova_agent_url (settings env) ++ "/enrich";
     Http.json :=
       Http.Enrich image_url user_id job_id
         (match nova_options with
          | Some o =>
              if bool_decide (NovaTier_value (tier o) = "full_gcx")
              then "full" else "standard"
          | None => "standard"
          end)
         (match nova_options with
          | Some o => NovaTier_value (tier o)
          | None => "standard"
          end) |}.

(** The request the [Flux] block posts for an image. *)
Definition upscale_request (env : Env) (job_id user_id : string)
    (options : option OperationOptions) (image_url : string) : Http.request :=
  let flux_options :=
    match options with Some o => flux o | None => None end in
  {| Http.url := flux_agent_url (settings env) ++ "/upscale";
     Http.json :=
       Http.Upscale image_url user_id job_id
         (match flux_options with
          | Some o => FluxModel_value (model o)
          | None => "4x"
          end) |}.

(** The request the [Atlas] block posts for an image and its metadata. *)
Definition infuse_request (env : Env) (job_id user_id : string)
    (options : option OperationOptions) (image_url golden_codex : string)
  : Http.request :=
  let atlas_options :=
    match options with Some o => atlas o | None => None end in
  {| Http.url := atlas_agent_url (settings env) ++ "/infuse";
     Http.json :=
       Http.Infuse image_url user_id job_id golden_codex "full_gcx"
         (match atlas_options with
          | Some o => AtlasFormat_value (format o)
          | None => "png"
          end) |}.

(** The document the last update of the [try] body writes: [COMPLETED],
    the results, the completion time. *)
Definition completed_job (env : Env) (results : Results.t) (d : JobDoc.t)
  : JobDoc.t :=
  JobDoc.set_completed_at (Some (utcnow env))
    (JobDoc.set_results (Some results) (JobDoc.set_status COMPLETED d)).

(** A stage's progress entry once the stage is through, when it was
    requested. *)
Definition stage_done (operations : list Operation) (op : Operation)
    (d : JobDoc.t) : JobDoc.t :=
  if bool_decide (op ∈ operations)
  then JobDoc.set_progress op (Some COMPLETED) d else d.

(** An agent request that was answered. *)
Definition answered (env : Env) (r : Http.request) : Prop :=
  is_agent_request r = true /\ exists resp, post env r = inr resp.

(** The stages of the pipeline, in the order it runs them. *)
Definition stages : list Operation := [NOVA; FLUX; ATLAS].

(** How one guarded stage ends on a stored job. Either it returns: the
    stage, if requested, is marked [COMPLETED] and its one request was
    answered. Or it raises: its request failed, the stage is left
    [PROCESSING] and the exception carries the agent's message. *)
Definition stage_outcome (env : Env) (job_id : string)
    (operations : list Operation) (op : Operation)
    (state : Results.t * string) (w : World) (d : JobDoc.t)
    (res : (Exc + Results.t * string) * World) : Prop :=
  (exists state' w' reqs,
     res = (inr state', w')
     /\ api_jobs w' !! job_id = Some (stage_done operations op d)
     /\ Results.urls_original state'.1 = Results.urls_original state.1
     /\ sent w' = (sent w ++ reqs)%list
     /\ Forall (answered env) reqs
     /\ length reqs = (if bool_decide (op ∈ operations) then 1 else 0)%nat)
  \/ (exists r message w',
        res = (inl (HTTPError message), w')
        /\ is_agent_request r = true
        /\ post env r = inl message
        /\ op ∈ operations
        /\ api_jobs w' !! job_id
           = Some (JobDoc.set_progress op (Some PROCESSING) d)
        /\ sent w' = (sent w ++ [r])%list).

(** How the [try] body ends on a stored job. Either it returns: the job
    is [COMPLETED] with its results, every requested stage was called once
    and answered, and a configured webhook got [job.completed]. Or it
    raises: the last request sent is an agent's that failed, and the
    exception carries its message. *)
Definition body_outcome (env : Env) (job_id image_url : string)
    (operations : list Operation) (w : World) (d : JobDoc.t)
    (res : (Exc + unit) * World) : Prop :=
  (exists w' results reqs,
     let d' :=
       completed_job env results
         (stage_done operations ATLAS
            (stage_done operations FLUX (stage_done operations NOVA d))) in
     res = (inr tt, w')
     /\ api_jobs w' !! job_id = Some d'
     /\ Results.urls_original results = image_url
     /\ sent w' =
        (sent w ++ reqs ++
         if truthy (JobDoc.webhook_url d)
         then [webhook_request env job_id "job.completed" d']
         else [])%list
     /\ Forall (answered env) reqs
     /\ length reqs = length (filter (fun op => op ∈ operations) stages))
  \/ (exists w' reqs r message,
        res = (inl (HTTPError message), w')
        /\ is_agent_request r = true
        /\ post env r = inl message
        /\ sent w' = (sent w ++ reqs ++ [r])%list
        /\ Forall (answered env) reqs).

(** The document [create_job] stores for a new job. *)
Definition new_job (env : Env) (user_id api_key_id image_url : string)
    (operations : list Operation) (options : option OperationOptions)
    (webhook_url : option string)
    (client_metadata : option (list (string * string)))
    (request_id : option string) (is_test_mode : bool) : JobDoc.t :=
  let total_cost := (calculate_cost (settings env) operations options).1 in
  {| JobDoc.job_id := generate_job_id env;
     JobDoc.user_id := user_id;
     JobDoc.api_key_id := api_key_id;
     JobDoc.request_id := request_id;
     JobDoc.status := PENDING;
     JobDoc.image_url := image_url;
     JobDoc.operations := operations;
     JobDoc.options := options;
     JobDoc.webhook_url := if truthy webhook_url then webhook_url else None;
     JobDoc.client_metadata := default [] client_metadata;
     JobDoc.cost_estimated := total_cost;
     JobDoc.cost_charged := total_cost;
     JobDoc.cost_refunded := 0;
     JobDoc.progress_nova :=
       if bool_decide (NOVA ∈ operations) then Some PENDING else None;
     JobDoc.progress_flux :=
       if bool_decide (FLUX ∈ operations) then Some PENDING else None;
     JobDoc.progress_atlas :=
       if bool_decide (ATLAS ∈ operations) then Some PENDING else None;
     JobDoc.results := None;
     JobDoc.error := None;
     JobDoc.created_at := utcnow env;
     JobDoc.started_at := None;
     JobDoc.completed_at := None;
     JobDoc.is_test_mode := is_test_mode |}.

(** The documents the query of [list_jobs] selects. *)
Definition job_matches (user_id : string) (status_filter : option JobStatus)
    (d : JobDoc.t) : Prop :=
  JobDoc.user_id d = user_id
  /\ match status_filter with
     | Some status => JobDoc.status d = status
     | None => True
     end.

Global Instance job_matches_dec user_id status_filter d :
  Decision (job_matches user_id status_filter d).
Proof. unfold job_matches. destruct status_filter; apply _. Defined.

(** ** services/auth.py: API keys *)

Module ApiKeys.

(** A document of the [api_keys] collection. [None] is an absent field,
    and for [last_used_at] also the stored null. *)
Module KeyDoc.
Record t := {
  user_id : string;
  name : option string;
  prefix : option string;
  key_hint : option string;
  active : option bool;
  permissions : option (list string);
  created_at : option Z;
  last_used_at : option Z;
}.

(** [key_doc.reference.update({"last_used_at": ...})] *)
Definition set_last_used_at (v : option Z) (d : t) : t :=
  {| user_id := user_id d; name := name d; prefix := prefix d;
     key_hint := key_hint d; active := active d;
     permissions := permissions d; created_at := created_at d;
     last_used_at := v |}.
End KeyDoc.

(** [s[n:]] *)
Fixpoint string_drop (n : nat) (s : string) : string :=
  match n, s with
  | O, _ => s
  | S n, String _ s' => string_drop n s'
  | S _, EmptyString => EmptyString
  end.

(** [s[:n]] *)
Fixpoint string_take (n : nat) (s : string) : string :=
  match n, s with
  | O, _ => EmptyString
  | S n, String c s' => String c (string_take n s')
  | S _, EmptyString => EmptyString
  end.

(** [s[-n:]] for a positive [n] *)
Definition string_last (n : nat) (s : string) : string :=
  string_drop (String.length s - n) s.

(** [s.startswith(prefix)] *)
Definition startswith (s prefix : string) : bool := String.prefix prefix s.

(** [SubscriptionTier(tier_str)]; [None] stands for [ValueError]. *)
Definition SubscriptionTier_of (tier_str : string) : option SubscriptionTier :=
  if bool_decide (tier_str = "FREE_TRIAL") then Some FREE_TRIAL
  else if bool_decide (tier_str = "CURATOR") then Some CURATOR
  else if bool_decide (tier_str = "STUDIO") then Some STUDIO
  else if bool_decide (tier_str = "GALLERY") then Some GALLERY
  else None.

(** The 401 responses of [verify_api_key]. *)
Definition unauthorized (code message : string) : Exc :=
  HTTPException 401 code message None None.

(** [hashlib.sha256(api_key.encode()).hexdigest()] *)
Definition key_hash_of (api_key : string) : string :=
  hex (sha256 (encode api_key)).

(** [verify_api_key(authorization)] on the [api_keys] collection, reading
    the [users] collection of [w]; [subscriptionTier] holds that field of
    the user documents and [now] is the server's timestamp. The stamp on
    [last_used_at] is written before the user is looked up. *)
Definition verify_api_key (now : Z) (subscriptionTier : gmap string string)
    (w : World) (authorization : option string)
    (api_keys : gmap string KeyDoc.t)
  : (Exc + AuthContext.t) * gmap string KeyDoc.t :=
  if negb (truthy authorization) then
    (inl (unauthorized "missing_api_key"
            "Authorization header required. Use: Bearer gcx_live_xxx"),
     api_keys)
  else
    let authorization := default "" authorization in
    (* Extract bearer token *)
    if negb (startswith authorization "Bearer ") then
      (inl (unauthorized "invalid_auth_format"
              "Authorization header must use Bearer scheme"),
       api_keys)
    else
      let api_key := string_drop 7 authorization in
      (* Validate key format *)
      if negb (startswith api_key "gcx_live_"
               || startswith api_key "gcx_test_") then
        (inl (unauthorized "invalid_api_key_format"
                "API key must start with gcx_live_ or gcx_test_"),
         api_keys)
      else
        let is_test_mode := startswith api_key "gcx_test_" in
        (* Hash the key for lookup *)
        let key_hash := key_hash_of api_key in
        match api_keys !! key_hash with
        | None =>
            (inl (unauthorized "invalid_api_key"
                    "API key is invalid or has been revoked"),
             api_keys)
        | Some key_data =>
            (* Check if key is active *)
            if negb (default false (KeyDoc.active key_data)) then
              (inl (unauthorized "api_key_revoked"
                      "This API key has been revoked"),
               api_keys)
            else
              (* Update last_used_at *)
              let api_keys :=
                <[key_hash := KeyDoc.set_last_used_at (Some now) key_data]>
                  api_keys in
              (* Get user data *)
              let user_id := KeyDoc.user_id key_data in
              match users w !! user_id with
              | None =>
                  (inl (unauthorized "user_not_found"
                          "User account associated with this key no longer exists"),
                   api_keys)
              | Some user_data =>
                  let tier_str :=
                    default "FREE_TRIAL" (subscriptionTier !! user_id) in
                  let tier :=
                    default FREE_TRIAL (SubscriptionTier_of tier_str) in
                  (* Get balance from tokens.balance or credits_available *)
                  let balance := get_balance user_data in
                  let balance :=
                    if bool_decide (balance = 0)
                    then get_credits_available user_data else balance in
                  (inr {| AuthContext.user_id := user_id;
                          AuthContext.key_id := string_take 12 key_hash;
                          AuthContext.tier := tier;
                          AuthContext.balance := balance;
                          AuthContext.is_test_mode := is_test_mode;
                          AuthContext.permissions :=
                            default ["jobs:create"; "jobs:read"]
                              (KeyDoc.permissions key_data) |},
                   api_keys)
              end
        end.

(** [generate_api_key(environment)]; [random_part] is the text drawn from
    [secrets.choice]. *)
Definition generate_api_key (random_part environment : string)
  : string * string :=
  let full_key := "gcx_" ++ environment ++ "_" ++ random_part in
  let key_hash := key_hash_of full_key in
  (full_key, key_hash).

(** The dictionary [create_api_key_for_user] returns. *)
Module CreatedKey.
Record t := {
  api_key : string;
  key_id : string;
  name : string;
  created_at : Z;
}.
End CreatedKey.

(** [create_api_key_for_user(user_id, name, environment)]; [now] is the
    server's timestamp and [utcnow] the gateway's clock. *)
Definition create_api_key_for_user (now utcnow : Z) (random_part : string)
    (user_id name environment : string) (api_keys : gmap string KeyDoc.t)
  : CreatedKey.t * gmap string KeyDoc.t :=
  let '(full_key, key_hash) := generate_api_key random_part environment in
  let api_keys :=
    <[key_hash :=
        {| KeyDoc.user_id := user_id;
           KeyDoc.name := Some name;
           KeyDoc.prefix := Some ("gcx_" ++ environment);
           KeyDoc.key_hint :=
             Some ("gcx_" ++ environment ++ "_..." ++ string_last 4 full_key);
           KeyDoc.active := Some true;
           KeyDoc.permissions :=
             Some ["jobs:create"; "jobs:read"; "account:read";
                   "webhooks:manage"];
           KeyDoc.created_at := Some now;
           KeyDoc.last_used_at := None |}]> api_keys in
  ({| CreatedKey.api_key := full_key;
      CreatedKey.key_id := string_take 12 key_hash;
      CreatedKey.name := name;
      CreatedKey.created_at := utcnow |}, api_keys).

End ApiKeys.
Export ApiKeys.

(** * Properties *)

(** ** The cost table *)

Section CostTable.

Variable settings : Settings.

Lemma Operation_value_inj (op op' : Operation) :
  Operation_value op = Operation_value op' -> op = op'.
Proof. destruct op, op'; simpl; congruence. Qed.

(** C6, counterexample: with the default prices, three of the four
    upscaling models, not two, are charged the high price. *)
Lemma calculate_cost_high_models_counterexample :
  high_price_models default_settings = [model_4x; model_anime; model_photo]
  /\ length (high_price_models default_settings) <> 2%nat.
Proof. split; [reflexivity | vm_compute; discriminate]. Qed.

(** C6, amended: the cost is a function of the settings, the requested
    operations and the options alone. A stage has a breakdown entry
    exactly when it is requested; stage A costs the full price for tier
    [full_gcx] and the standard price otherwise; stage B costs the low
    price for model [2x] and the high price for each of [4x], [anime] and
    [photo] (and when no model is given); stage C has a fixed price; the
    total is the sum of the breakdown's costs. *)
Theorem calculate_cost_table (operations : list Operation)
    (options : option OperationOptions) :
  let total := (calculate_cost settings operations options).1 in
  let breakdown := (calculate_cost settings operations options).2 in
  let opts := default OperationOptions_default options in
  (forall op, is_Some (breakdown !! Operation_value op) <-> op ∈ operations)
  /\ breakdown_cost breakdown NOVA =
       (if bool_decide (NOVA ∈ operations) then
          match nova opts with
          | Some {| tier := tier_full_gcx |} => cost_nova_full settings
          | _ => cost_nova_standard settings
          end
        else 0)
  /\ breakdown_cost breakdown FLUX =
       (if bool_decide (FLUX ∈ operations) then
          match flux opts with
          | Some {| model := model_2x |} => cost_flux_2x settings
          | Some {| model := model_4x |}
          | Some {| model := model_anime |}
          | Some {| model := model_photo |}
          | None => cost_flux_4x settings
          end
        else 0)
  /\ breakdown_cost breakdown ATLAS =
       (if bool_decide (ATLAS ∈ operations) then cost_atlas settings else 0)
  /\ total = breakdown_cost breakdown NOVA + breakdown_cost breakdown FLUX
             + breakdown_cost breakdown ATLAS.
Proof.
  unfold calculate_cost, breakdown_cost.
  destruct (default OperationOptions_default options) as [no fo ao].
  simpl.
  destruct (bool_decide_reflect (NOVA ∈ operations)) as [Hn|Hn];
  destruct (bool_decide_reflect (FLUX ∈ operations)) as [Hf|Hf];
  destruct (bool_decide_reflect (ATLAS ∈ operations)) as [Ha|Ha];
  simpl.
  all: split; [intros [| |]; simpl; simplify_map_eq; split;
               try done; try (intros [? ?]; done); try (intros; eexists; done) | ].
  all: simplify_map_eq.
  all: destruct no as [[[|] ?]|], fo as [[[| | |]]|]; simpl; repeat split; try lia.
Qed.

End CostTable.

(** ** The ledger *)

Section Ledger.

Implicit Types (w : World) (user_id job_id reason : string) (amount : Z).

(** What [check_balance] reports for an existing account. *)
Lemma observed_balance_lookup w user_id user_data :
  users w !! user_id = Some user_data ->
  observed_balance user_id w =
    if bool_decide (get_balance user_data = 0)
    then get_credits_available user_data else get_balance user_data.
Proof.
  intros Hu. unfold observed_balance, check_balance, bind, gets, ret.
  now rewrite Hu.
Qed.

(** A deduction that raises has written nothing. *)
Lemma deduct_tokens_raise_unchanged w w' user_id amount reason job_id e :
  deduct_tokens user_id amount reason job_id w = (inl e, w') -> w' = w.
Proof.
  unfold deduct_tokens, bind, gets, raise, modify, ret.
  destruct (users w !! user_id) as [user_data|]; [|congruence].
  case_bool_decide; simpl; congruence.
Qed.

(** A deduction raises [insufficient_credits] exactly when the account
    exists and the balance it reads is below the amount. *)
Lemma deduct_tokens_insufficient w user_id amount reason job_id :
  is_Some (users w !! user_id) ->
  observed_balance user_id w < amount ->
  deduct_tokens user_id amount reason job_id w =
    (inl (HTTPException 402 "insufficient_credits"
            ("Account has " ++ py_str (observed_balance user_id w)
             ++ " GCX but operation requires " ++ py_str amount ++ " GCX")
            (Some (observed_balance user_id w)) (Some amount)), w).
Proof.
  intros [user_data Hu] Hlt.
  rewrite (observed_balance_lookup _ _ _ Hu) in *.
  unfold deduct_tokens, bind, gets, raise. rewrite Hu.
  now rewrite bool_decide_eq_true_2.
Qed.

(** C1: when the balance the ledger reads is below the requested amount,
    [deduct_tokens] raises [insufficient_credits] and the store is left
    exactly as it was (same balances, same transaction records, same job
    documents, same requests sent); and [create_job], when it reaches the
    deduction of that amount, raises the same exception with the store
    unchanged, so no job document is written and no agent is called. *)
Theorem reserve_failure_mutates_nothing w user_id amount :
  is_Some (users w !! user_id) ->
  observed_balance user_id w < amount ->
  let e :=
    HTTPException 402 "insufficient_credits"
      ("Account has " ++ py_str (observed_balance user_id w)
       ++ " GCX but operation requires " ++ py_str amount ++ " GCX")
      (Some (observed_balance user_id w)) (Some amount) in
  (forall reason job_id,
     deduct_tokens user_id amount reason job_id w = (inl e, w))
  /\ (forall env api_key_id image_url operations options webhook_url
         client_metadata request_id is_test_mode,
       (calculate_cost (settings env) operations options).1 = amount ->
       truthy request_id = false
       \/ existing_jobs user_id (default "" request_id) w = [] ->
       create_job env user_id api_key_id image_url operations options
         webhook_url client_metadata request_id is_test_mode w
       = (inl e, w)).
Proof.
  intros Hu Hlt e. split.
  - intros. now apply deduct_tokens_insufficient.
  - intros env api_key_id image_url operations options webhook_url
      client_metadata request_id is_test_mode Hcost Hfresh.
    unfold create_job.
    destruct (calculate_cost (settings env) operations options)
      as [total_cost breakdown] eqn:Hcc.
    simpl in Hcost. subst total_cost.
    assert (Hex : (if truthy request_id
                   then jobs_where user_id (default "" request_id)
                   else ret []) w = (inr [], w)).
    { destruct Hfresh as [-> | Hnone]; [reflexivity|].
      destruct (truthy request_id); [|reflexivity].
      unfold jobs_where, gets. now rewrite Hnone. }
    unfold bind at 1. rewrite Hex.
    unfold bind at 1.
    now rewrite (deduct_tokens_insufficient _ _ _ "api_job"
                   (generate_job_id env) Hu Hlt).
Qed.

(** An account holding one credit cannot pay for the three default
    stages, which cost four. *)
Lemma reserve_failure_mutates_nothing_witness :
  let w := world_with "user_1" (user_with (Some 1) None) in
  let env := env_at 1700000000 "job_0123456789ab" network_up in
  create_job env "user_1" "key_1" "https://img.example/a.png"
    [NOVA; FLUX; ATLAS] None None None (Some "req-1") false w
  = (inl (HTTPException 402 "insufficient_credits"
            "Account has 1 GCX but operation requires 4 GCX"
            (Some 1) (Some 4)), w).
Proof.
  intros w env.
  assert (Hu : is_Some (users w !! "user_1")) by (eexists; reflexivity).
  assert (Hlt : observed_balance "user_1" w < 4) by (vm_compute; reflexivity).
  destruct (reserve_failure_mutates_nothing w "user_1" 4 Hu Hlt) as [_ H].
  apply (H env); [reflexivity | right; reflexivity].
Defined.

End Ledger.

(** ** Ledger conservation *)

Section Conservation.

Implicit Types (w : World) (user_id job_id : string) (ops : list ledger_op).

(** C3, at a failing input: a legacy account shows a balance of 5; a
    deduction of 5 goes through and charges 5, and afterwards the account
    still shows 5, so the balance moved by 0 while [charged - refunded] is
    5. *)
Theorem ledger_conservation_fails_on_legacy_credits :
  let before := observed_balance "user_1" legacy_world in
  let '(t, w') :=
    run_history "user_1" "job_1" [Deduct 5]
      {| charged := 0; refunded := 0 |} legacy_world in
  let after := observed_balance "user_1" w' in
  before = 5 /\ after = 5 /\ charged t = 5 /\ refunded t = 0
  /\ before - after <> charged t - refunded t.
Proof. vm_compute. repeat split; discriminate. Qed.

(** The refund path does not read [credits_available] at all: the same
    account shows 5, is refunded 2, and then shows 2. *)
Lemma refund_ignores_legacy_credits :
  let before := observed_balance "user_1" legacy_world in
  let '(t, w') :=
    run_history "user_1" "job_1" [Refund 2]
      {| charged := 0; refunded := 0 |} legacy_world in
  let after := observed_balance "user_1" w' in
  before = 5 /\ after = 2 /\ before - after <> charged t - refunded t.
Proof. vm_compute. repeat split; discriminate. Qed.

(** Where the legacy field plays no part (it is absent or zero), every
    history conserves: the reported balance moves by exactly what was
    charged minus what was refunded. *)
Lemma ledger_conservation_without_legacy_credits user_id job_id ops :
  forall w acc user_data,
    users w !! user_id = Some user_data ->
    get_credits_available user_data = 0 ->
    let '(t, w') := run_history user_id job_id ops acc w in
    observed_balance user_id w - observed_balance user_id w'
    = (charged t - charged acc) - (refunded t - refunded acc).
Proof.
  induction ops as [|[amount|amount] ops IH]; intros w acc user_data Hu Hc.
  - simpl. lia.
  - simpl.
    destruct (deduct_tokens user_id amount "api_job" job_id w)
      as [[e|b] w1] eqn:Hd.
    + apply deduct_tokens_raise_unchanged in Hd. subst w1.
      now apply (IH w acc user_data).
    + unfold deduct_tokens, bind, gets, raise, modify, ret in Hd.
      rewrite Hu in Hd.
      case_bool_decide; [discriminate|]. simpl in Hd.
      injection Hd as _ <-.
      set (d' := update_balance _ _ _).
      set (acc' := {| charged := _ |}).
      set (w1 := add_transaction _ _ _).
      assert (Hu1 : users w1 !! user_id = Some d')
        by (simpl; apply lookup_insert_eq).
      specialize (IH w1 acc' d' Hu1 Hc).
      destruct (run_history user_id job_id ops acc' w1) as [t w'].
      rewrite (observed_balance_lookup _ _ _ Hu).
      rewrite (observed_balance_lookup _ _ _ Hu1) in IH.
      subst d' acc'. unfold get_balance, get_credits_available in *.
      simpl in *. rewrite Hc in *.
      repeat case_bool_decide; lia.
  - simpl.
    unfold refund_tokens, bind, gets, modify, ret. rewrite Hu. simpl.
    set (d' := update_balance _ _ _).
    set (acc' := {| charged := _ |}).
    set (w1 := add_transaction _ _ _).
    assert (Hu1 : users w1 !! user_id = Some d')
      by (simpl; apply lookup_insert_eq).
    specialize (IH w1 acc' d' Hu1 Hc).
    destruct (run_history user_id job_id ops acc' w1) as [t w'].
    rewrite (observed_balance_lookup _ _ _ Hu).
    rewrite (observed_balance_lookup _ _ _ Hu1) in IH.
    subst d' acc'. unfold get_balance, get_credits_available in *.
    simpl in *. rewrite Hc in *.
    repeat case_bool_decide; lia.
Qed.

End Conservation.

(** ** The create endpoint *)

Section CreateEndpoint.

(** Whatever [create_job] returns, fresh or replayed, its [cost] dictionary
    has the single key [estimated_aet]. *)
Lemma create_job_cost_keys env user_id api_key_id image_url operations
    options webhook_url client_metadata request_id is_test_mode w r w' :
  create_job env user_id api_key_id image_url operations options
    webhook_url client_metadata request_id is_test_mode w = (inr r, w') ->
  exists total, CreateJobResult.cost r = {[ "estimated_aet" := total ]}.
Proof.
  unfold create_job.
  destruct (calculate_cost (settings env) operations options)
    as [total_cost breakdown].
  unfold bind at 1.
  destruct ((if truthy request_id
             then jobs_where user_id (default "" request_id)
             else ret []) w) as [[e|docs] w0]; [discriminate|].
  destruct docs as [|existing docs].
  - unfold bind at 1.
    destruct (deduct_tokens _ _ _ _ w0) as [[e|b] w1]; [discriminate|].
    unfold bind at 1.
    destruct (job_set _ _ w1) as [[e|[]] w2]; [discriminate|].
    unfold bind at 1.
    destruct (trigger_pipeline _ _ _ _ _ _ w2) as [[e|[]] w3]; [discriminate|].
    unfold ret. intros [= <- <-]. simpl. eauto.
  - unfold ret. intros [= <- <-]. simpl. eauto.
Qed.

(** The endpoint subscripts that dictionary with [estimated_gcx], so every
    call in which [create_job] returns ends in [KeyError]. *)
Lemma create_job_endpoint_key_error env body auth x_request_id w r w' :
  create_job env (AuthContext.user_id auth) (AuthContext.key_id auth)
    (CreateJobRequest.image_url body) (CreateJobRequest.operations body)
    (CreateJobRequest.options body)
    (if truthy (CreateJobRequest.webhook_url body)
     then CreateJobRequest.webhook_url body else None)
    (CreateJobRequest.metadata body) x_request_id
    (AuthContext.is_test_mode auth) w = (inr r, w') ->
  CreateJobResult.cost r !! "estimated_gcx" = None
  /\ create_job_endpoint env body auth x_request_id w
     = (inl (KeyError "estimated_gcx"), w').
Proof.
  intros Hc. destruct (create_job_cost_keys _ _ _ _ _ _ _ _ _ _ _ _ _ Hc)
    as [total Hcost].
  assert (Hk : CreateJobResult.cost r !! "estimated_gcx" = None)
    by (rewrite Hcost; apply lookup_singleton_ne; discriminate).
  split; [exact Hk|].
  unfold create_job_endpoint. unfold bind at 1. rewrite Hc.
  unfold bind at 1, subscript. now rewrite Hk.
Qed.

(** C10, at a failing input: a funded account creates a job for the three
    default stages on a working network. [create_job] returns a dictionary
    whose [cost] holds [estimated_aet] and no [estimated_gcx], the endpoint
    raises [KeyError], and the job has nevertheless been charged and run to
    completion. *)
Theorem create_job_endpoint_raises_key_error :
  let w := world_with "user_1" (user_with (Some 10) None) in
  let env := env_at 1700000000 "job_0123456789ab" network_up in
  let body :=
    {| CreateJobRequest.image_url := "https://img.example/a.png";
       CreateJobRequest.operations := [NOVA; FLUX; ATLAS];
       CreateJobRequest.options := None;
       CreateJobRequest.webhook_url := None;
       CreateJobRequest.metadata := None |} in
  let auth := auth_of "user_1" "key_1" in
  (exists r w',
     create_job env "user_1" "key_1" "https://img.example/a.png"
       [NOVA; FLUX; ATLAS] None None None (Some "req-1") false w
     = (inr r, w')
     /\ CreateJobResult.cost r = {[ "estimated_aet" := 4 ]}
     /\ CreateJobResult.cost r !! "estimated_gcx" = None)
  /\ (exists w',
       create_job_endpoint env body auth (Some "req-1") w
       = (inl (KeyError "estimated_gcx"), w')
       /\ observed_balance "user_1" w' = 6
       /\ JobDoc.status <$> (api_jobs w' !! "job_0123456789ab")
          = Some COMPLETED).
Proof.
  split.
  - eexists _, _. split; [vm_compute; reflexivity|].
    split; vm_compute; reflexivity.
  - eexists. split; [vm_compute; reflexivity|].
    split; vm_compute; reflexivity.
Qed.

End CreateEndpoint.

(** ** Store primitives *)

Section StoreFacts.

Implicit Types (w : World) (job_id user_id reason : string).

(** One step of a sequenced computation. *)
Lemma bind_run {A B} (m : M A) (k : A -> M B) w :
  bind m k w = match m w with
               | (inl e, w') => (inl e, w')
               | (inr a, w') => k a w'
               end.
Proof. reflexivity. Qed.

Lemma job_update_some w job_id f d :
  api_jobs w !! job_id = Some d ->
  job_update job_id f w = (inr tt, with_api_jobs (insert job_id (f d)) w).
Proof.
  intros Hd. unfold job_update, bind, job_get, gets. now rewrite Hd.
Qed.

Lemma job_update_none w job_id f :
  api_jobs w !! job_id = None ->
  job_update job_id f w = (inl (NotFound job_id), w).
Proof.
  intros Hd. unfold job_update, bind, job_get, gets. now rewrite Hd.
Qed.

Lemma job_get_dict_some w job_id d :
  api_jobs w !! job_id = Some d -> job_get_dict job_id w = (inr d, w).
Proof.
  intros Hd. unfold job_get_dict, bind, job_get, gets. now rewrite Hd.
Qed.

(** A refund never raises and touches neither the jobs nor the network. *)
Lemma refund_tokens_returns w user_id amount reason job_id :
  exists b w',
    refund_tokens user_id amount reason job_id w = (inr b, w')
    /\ api_jobs w' = api_jobs w /\ sent w' = sent w.
Proof.
  unfold refund_tokens, bind, gets, modify, ret.
  destruct (users w !! user_id); simpl; eauto.
Qed.

(** What a refund does to an existing account: [tokens.balance] grows by
    the amount and one refund record is appended. *)
Lemma refund_tokens_credits w user_id amount reason job_id user_data :
  users w !! user_id = Some user_data ->
  exists w',
    refund_tokens user_id amount reason job_id w
    = (inr (get_balance user_data + amount), w')
    /\ (get_balance <$> users w' !! user_id)
       = Some (get_balance user_data + amount)
    /\ tokenTransactions w' =
       (tokenTransactions w ++
        [(user_id, {| TxDoc.type := TxDoc.refund; TxDoc.amount := amount;
                      TxDoc.reason := reason; TxDoc.job_id := job_id;
                      TxDoc.balance_after := get_balance user_data + amount;
                      TxDoc.source := "api" |})])%list.
Proof.
  intros Hu. unfold refund_tokens, bind, gets, modify, ret. rewrite Hu.
  simpl. eexists. split; [reflexivity|]. simpl.
  now rewrite lookup_insert_eq.
Qed.

End StoreFacts.

(** ** Cancelling a job *)

Section Cancel.

Implicit Types (w : World) (job_id user_id : string).

(** C7: [cancel_job] returns [True] exactly when the job exists, belongs to
    the caller and is [PENDING]. In that case the stored job becomes
    [CANCELLED] with [completed_at] set and [cost.refunded] equal to
    [cost.charged], a positive charge is credited back through
    [refund_tokens], and nothing is sent. In every other case it returns
    [False] and the store is untouched. The job's cost fields are taken to
    satisfy the data model's invariant [0 <= refunded <= charged]. *)
Theorem cancel_job_spec env w job_id user_id :
  (forall d, api_jobs w !! job_id = Some d ->
             0 <= JobDoc.cost_refunded d <= JobDoc.cost_charged d) ->
  match api_jobs w !! job_id with
  | Some d =>
      if bool_decide (JobDoc.user_id d = user_id /\ JobDoc.status d = PENDING)
      then
        exists w',
          cancel_job env job_id user_id w = (inr true, w')
          /\ api_jobs w' =
             <[job_id :=
                 JobDoc.set_cost_refunded (JobDoc.cost_charged d)
                   (JobDoc.set_completed_at (Some (utcnow env))
                      (JobDoc.set_status CANCELLED d))]> (api_jobs w)
          /\ (exists d', api_jobs w' !! job_id = Some d'
                /\ JobDoc.status d' = CANCELLED
                /\ JobDoc.completed_at d' = Some (utcnow env)
                /\ JobDoc.cost_charged d' = JobDoc.cost_charged d
                /\ JobDoc.cost_refunded d' = JobDoc.cost_charged d')
          /\ (let ledger :=
                if bool_decide (0 < JobDoc.cost_charged d)
                then (refund_tokens user_id (JobDoc.cost_charged d)
                        "job_cancelled" job_id w).2
                else w in
              users w' = users ledger
              /\ tokenTransactions w' = tokenTransactions ledger)
          /\ sent w' = sent w
      else cancel_job env job_id user_id w = (inr false, w)
  | None => cancel_job env job_id user_id w = (inr false, w)
  end.
Proof.
  intros Hinv. unfold cancel_job. rewrite bind_run. unfold job_get, gets.
  destruct (api_jobs w !! job_id) as [d|] eqn:Hd; [|reflexivity].
  specialize (Hinv d eq_refl).
  case_bool_decide as Hok.
  - destruct Hok as [Hown Hpend].
    rewrite (bool_decide_eq_true_2 _ Hown), (bool_decide_eq_true_2 _ Hpend).
    simpl. rewrite bind_run, (job_update_some _ _ _ _ Hd).
    set (w1 := with_api_jobs _ w).
    set (d1 := JobDoc.set_completed_at _ _) in *.
    assert (Hd1 : api_jobs w1 !! job_id = Some d1)
      by (simpl; apply lookup_insert_eq).
    case_bool_decide as Hpos.
    + destruct (refund_tokens_returns w1 user_id (JobDoc.cost_charged d)
                  "job_cancelled" job_id) as (b & w2 & Hr & Hj & Hs).
      rewrite bind_run, bind_run, Hr.
      assert (Hd2 : api_jobs w2 !! job_id = Some d1) by now rewrite Hj.
      rewrite (job_update_some _ _ _ _ Hd2). unfold ret.
      eexists. split; [reflexivity|]. simpl.
      rewrite Hj. simpl. rewrite insert_insert_eq.
      split; [reflexivity|].
      split; [eexists; split; [apply lookup_insert_eq|now simpl]|].
      split; [|now rewrite Hs].
      revert Hr. unfold refund_tokens, bind, gets, modify, ret. simpl.
      destruct (users w !! user_id); simpl; intros [= _ <-]; now simpl.
    + rewrite bind_run. unfold ret.
      eexists. split; [reflexivity|]. simpl.
      assert (Hz : JobDoc.cost_charged d = 0) by lia.
      assert (Hr0 : JobDoc.cost_refunded d = 0) by lia.
      assert (Heq : JobDoc.set_cost_refunded (JobDoc.cost_charged d) d1 = d1).
      { subst d1. destruct d. simpl in *. now subst. }
      rewrite Heq.
      split; [reflexivity|].
      split; [eexists; split; [apply lookup_insert_eq|]|now simpl].
      subst d1. simpl. repeat split; lia.
  - destruct (bool_decide_reflect (JobDoc.user_id d = user_id)) as [Hown|];
      [|reflexivity].
    destruct (bool_decide_reflect (JobDoc.status d = PENDING)) as [Hpend|];
      [|reflexivity].
    now destruct Hok.
Qed.

(** A pending job charged four credits, cancelled by its owner. *)
Lemma cancel_job_spec_witness :
  let w :=
    with_api_jobs (insert "job_1" (pending_job "job_1" "user_1" 4))
      (world_with "user_1" (user_with (Some 6) None)) in
  let env := env_at 1700000100 "job_2" network_up in
  exists w',
    cancel_job env "job_1" "user_1" w = (inr true, w')
    /\ (JobDoc.status <$> api_jobs w' !! "job_1") = Some CANCELLED
    /\ (JobDoc.cost_refunded <$> api_jobs w' !! "job_1") = Some 4
    /\ observed_balance "user_1" w' = 10.
Proof.
  intros w env.
  assert (Hinv : forall d, api_jobs w !! "job_1" = Some d ->
                   0 <= JobDoc.cost_refunded d <= JobDoc.cost_charged d).
  { intros d Hd. vm_compute in Hd. injection Hd as <-. simpl. lia. }
  pose proof (cancel_job_spec env w "job_1" "user_1" Hinv) as H.
  vm_compute in H. destruct H as (w' & Hc & Hj & _).
  exists w'. split; [exact Hc|].
  injection Hc as <-. vm_compute. repeat split.
Defined.

End Cancel.

(** ** The rate limiter *)

Section RateLimiter.

Variable settings : Settings.
Variable auth : AuthContext.t.

(** The window index [q] stands for the minute [60 * q .. 60 * q + 59]. *)
Variable q : Z.

Let key_id := AuthContext.key_id auth.
Let limit := get_rate_limit_for_tier settings (AuthContext.tier auth).
Let window_reset := q * 60 + 60.

Implicit Types (table : gmap string RateLimitWindow) (now c : Z).

Local Abbreviation counted := (RateLimit.counted key_id q).
Local Abbreviation outcome := (RateLimit.outcome limit q).
Local Abbreviation outcomes := (RateLimit.outcomes limit q).

(** One call in window [q] counts one more and answers accordingly. *)
Lemma check_rate_limit_step table now :
  now / 60 = q ->
  exists table',
    check_rate_limit settings now auth table
    = (outcome (counted table + 1) now, table')
    /\ counted table' = counted table + 1.
Proof.
  intros Hq. unfold check_rate_limit, RateLimit.counted, RateLimit.outcome.
  fold key_id. fold limit. rewrite Hq.
  destruct (table !! key_id) as [window|] eqn:Hk.
  - destruct (decide (window_start window = q * 60)) as [Heq|Hne].
    + rewrite (bool_decide_eq_false_2 (window_start window ≠ q * 60))
        by (intros H; now apply H).
      rewrite (bool_decide_eq_true_2 _ Heq), Hk. simpl.
      case_bool_decide; eexists; (split; [reflexivity|]);
        rewrite lookup_insert_eq; simpl; now rewrite bool_decide_eq_true_2.
    + rewrite (bool_decide_eq_true_2 (window_start window ≠ q * 60)) by done.
      rewrite (bool_decide_eq_false_2 _ Hne), lookup_insert_eq. simpl.
      case_bool_decide; eexists; (split; [reflexivity|]);
        rewrite lookup_insert_eq; simpl; now rewrite bool_decide_eq_true_2.
  - rewrite lookup_insert_eq. simpl.
    case_bool_decide; eexists; (split; [reflexivity|]);
      rewrite lookup_insert_eq; simpl; now rewrite bool_decide_eq_true_2.
Qed.

(** A run of calls, all in window [q], answers by count alone. *)
Lemma check_many_outcomes times :
  forall table,
    Forall (fun now => now / 60 = q) times ->
    (check_many settings auth times table).1 = outcomes (counted table) times.
Proof.
  induction times as [|now times IH]; intros table Hall; [reflexivity|].
  apply Forall_cons in Hall as [Hq Hrest].
  destruct (check_rate_limit_step table now Hq) as (table' & Hstep & Hc).
  simpl. rewrite Hstep.
  specialize (IH table' Hrest).
  destruct (check_many settings auth times table') as [rs table''].
  simpl in *. now rewrite IH, Hc.
Qed.

Lemma outcomes_lookup times :
  forall c i now,
    times !! i = Some now ->
    outcomes c times !! i = Some (outcome (c + Z.of_nat i + 1) now).
Proof.
  induction times as [|t times IH]; intros c i now Hi; [discriminate|].
  destruct i as [|i]; simpl in *.
  - injection Hi as ->. do 2 f_equal. lia.
  - rewrite (IH _ _ _ Hi). do 2 f_equal. lia.
Qed.

Lemma outcomes_length c times : length (outcomes c times) = length times.
Proof. revert c. induction times; intros; simpl; [done|]. now rewrite IHtimes. Qed.

(** C8: [limit + 1] calls for one key inside one 60-second window that
    has counted nothing for the key yet. Each of the first [limit] calls
    returns, reporting the calls left; call [limit + 1] raises
    [RateLimited] with [remaining = 0] and [retry_after] the seconds from
    that call to the window's end, which lies between 0 and 60. *)
Theorem check_rate_limit_window (table : gmap string RateLimitWindow)
    (firsts : list Z) (last : Z) :
  0 <= limit ->
  length firsts = Z.to_nat limit ->
  Forall (fun now => now / 60 = q) (firsts ++ [last]) ->
  counted table = 0 ->
  let results := (check_many settings auth (firsts ++ [last]) table).1 in
  length results = S (Z.to_nat limit)
  /\ (forall i now, firsts !! i = Some now ->
        results !! i
        = Some (inr (limit, limit - (Z.of_nat i + 1), window_reset)))
  /\ results !! Z.to_nat limit
     = Some (inl (RateLimited (window_reset - last) limit 0 window_reset))
  /\ 0 <= window_reset - last <= 60.
Proof.
  intros Hlim Hlen Hall Hfresh results. subst results.
  rewrite (check_many_outcomes _ _ Hall), Hfresh.
  split; [|split; [|split]].
  - rewrite outcomes_length, length_app, Hlen. simpl. lia.
  - intros i now Hi.
    assert (Hlt : (i < length firsts)%nat) by (eapply lookup_lt_Some; eauto).
    rewrite (outcomes_lookup _ 0 i now)
      by (rewrite lookup_app_l; [exact Hi | exact Hlt]).
    unfold RateLimit.outcome. subst window_reset. clearbody limit.
    assert (Hle : ~ limit < 0 + Z.of_nat i + 1) by lia.
    rewrite (bool_decide_eq_false_2 _ Hle).
    repeat f_equal. lia.
  - rewrite (outcomes_lookup _ 0 (Z.to_nat limit) last).
    + unfold RateLimit.outcome. subst window_reset. clearbody limit.
      assert (Hgt : limit < 0 + Z.of_nat (Z.to_nat limit) + 1) by lia.
      now rewrite (bool_decide_eq_true_2 _ Hgt).
    + rewrite lookup_app_r by lia. now rewrite Hlen, Nat.sub_diag.
  - rewrite Forall_app, Forall_singleton in Hall.
    destruct Hall as [_ Hlast]. subst window_reset.
    pose proof (Z.div_mod last 60 ltac:(lia)) as Hdm.
    pose proof (Z.mod_pos_bound last 60 ltac:(lia)). lia.
Qed.

End RateLimiter.

(** Eleven calls on the free tier, which allows ten a minute. *)
Lemma check_rate_limit_window_witness :
  let auth := auth_of "user_1" "key_1" in
  let firsts :=
    map (fun k => 1700000040 + k) [0; 1; 2; 3; 5; 8; 13; 14; 15; 19] in
  (check_many default_settings auth (firsts ++ [1700000059]) ∅).1 !! 10%nat
  = Some (inl (RateLimited 41 10 0 1700000100)).
Proof.
  intros auth firsts.
  refine (proj1 (proj2 (proj2
    (check_rate_limit_window default_settings auth 28333334 ∅ firsts
       1700000059 _ _ _ _)))).
  - vm_compute; discriminate.
  - reflexivity.
  - repeat constructor.
  - reflexivity.
Defined.
(** ** What the pipeline leaves alone *)

Section Frame.

Variable job_id : string.

Implicit Types (w : World) (d : JobDoc.t).

Local Abbreviation only_job_advanced := (Jobs.only_job_advanced job_id).
Local Abbreviation keeps := (Jobs.keeps job_id).

Lemma advanced_refl d : advanced d d.
Proof. now split. Qed.

Lemma advanced_trans d1 d2 d3 : advanced d1 d2 -> advanced d2 d3 -> advanced d1 d3.
Proof. intros [? ?] [? ?]. split; congruence. Qed.

Lemma only_job_advanced_refl w : only_job_advanced w w.
Proof. repeat split; eauto using advanced_refl. Qed.

Lemma only_job_advanced_trans w1 w2 w3 :
  only_job_advanced w1 w2 -> only_job_advanced w2 w3 ->
  only_job_advanced w1 w3.
Proof.
  intros (Hu & Ht & Ho & Hj) (Hu' & Ht' & Ho' & Hj').
  split; [congruence|]. split; [congruence|]. split.
  - intros j Hne. now rewrite Ho', Ho.
  - intros d Hd. destruct (Hj d Hd) as (d2 & Hd2 & Ha).
    destruct (Hj' d2 Hd2) as (d3 & Hd3 & Ha').
    eauto using advanced_trans.
Qed.

Lemma keeps_ret {A} (a : A) : keeps (ret a).
Proof. intros w r w' [= _ <-]. apply only_job_advanced_refl. Qed.

Lemma keeps_raise {A} e : keeps (@raise A e).
Proof. intros w r w' [= _ <-]. apply only_job_advanced_refl. Qed.

Lemma keeps_bind {A B} (m : M A) (k : A -> M B) :
  keeps m -> (forall a, keeps (k a)) -> keeps (bind m k).
Proof.
  intros Hm Hk w r w'. rewrite bind_run.
  destruct (m w) as [[e|a] w1] eqn:Hmw.
  - intros [= _ <-]. eauto.
  - intros Hka. eapply only_job_advanced_trans; [eapply Hm|eapply Hk]; eauto.
Qed.

Lemma keeps_try_except {A} (body : M A) handler :
  keeps body -> (forall e, keeps (handler e)) -> keeps (try_except body handler).
Proof.
  intros Hb Hh w r w'. unfold try_except.
  destruct (body w) as [[e|a] w1] eqn:Hbw.
  - intros Hhe. eapply only_job_advanced_trans; [eapply Hb|eapply Hh]; eauto.
  - intros [= _ <-]. eauto.
Qed.

Lemma keeps_job_update f :
  (forall d, advanced d (f d)) -> keeps (job_update job_id f).
Proof.
  intros Hf w r w'. unfold job_update. rewrite bind_run.
  unfold job_get, gets, modify, raise.
  destruct (api_jobs w !! job_id) as [d|] eqn:Hd.
  - intros [= _ <-]. repeat split; simpl.
    + intros j Hne. now apply lookup_insert_ne.
    + intros d0 Hd0. exists (f d). rewrite lookup_insert_eq.
      split; [done|]. assert (d0 = d) as -> by congruence. apply Hf.
  - intros [= _ <-]. apply only_job_advanced_refl.
Qed.

Lemma keeps_job_get_dict : keeps (job_get_dict job_id).
Proof.
  intros w r w'. unfold job_get_dict. rewrite bind_run.
  unfold job_get, gets, raise, ret.
  destruct (api_jobs w !! job_id); intros [= _ <-];
    apply only_job_advanced_refl.
Qed.

Lemma keeps_http_post env url json : keeps (http_post env url json).
Proof.
  intros w r w'. unfold http_post. rewrite bind_run. unfold modify, raise, ret.
  destruct (post env _); intros [= _ <-]; repeat split; simpl;
    eauto using advanced_refl.
Qed.

Lemma keeps_trigger_webhook env event d : keeps (trigger_webhook env job_id event d).
Proof.
  unfold trigger_webhook. destruct (negb _); [apply keeps_ret|].
  apply keeps_try_except; [|intros; apply keeps_ret].
  apply keeps_bind; [apply keeps_http_post|intros; apply keeps_ret].
Qed.

Lemma advanced_set_progress op v d : advanced d (JobDoc.set_progress op v d).
Proof. now split. Qed.

Lemma keeps_when_requested op operations stage state :
  (forall s, keeps (stage s)) -> keeps (when_requested op operations stage state).
Proof. intros Hs. unfold when_requested. case_bool_decide; [apply Hs|apply keeps_ret]. Qed.

Lemma keeps_nova_stage env user_id options state :
  keeps (nova_stage env job_id user_id options state).
Proof.
  destruct state as [results url]. unfold nova_stage.
  repeat (first [ apply keeps_ret
                | apply keeps_job_update; intros; apply advanced_set_progress
                | apply keeps_http_post
                | apply keeps_bind; [|intros] ]).
Qed.

Lemma keeps_flux_stage env user_id options state :
  keeps (flux_stage env job_id user_id options state).
Proof.
  destruct state as [results url]. unfold flux_stage.
  apply keeps_bind; [apply keeps_job_update; intros; apply advanced_set_progress|intros].
  apply keeps_bind; [apply keeps_http_post|intros flux_data].
  destruct (truthy _);
  (apply keeps_bind; [apply keeps_job_update; intros; apply advanced_set_progress|intros; apply keeps_ret]).
Qed.

Lemma keeps_atlas_stage env user_id options state :
  keeps (atlas_stage env job_id user_id options state).
Proof.
  destruct state as [results url]. unfold atlas_stage.
  repeat (first [ apply keeps_ret
                | apply keeps_job_update; intros; apply advanced_set_progress
                | apply keeps_http_post
                | apply keeps_bind; [|intros] ]).
Qed.

Lemma keeps_pipeline_body env image_url operations options user_id :
  keeps (pipeline_body env job_id image_url operations options user_id).
Proof.
  unfold pipeline_body.
  apply keeps_bind; [apply keeps_when_requested; intros; apply keeps_nova_stage|intros].
  apply keeps_bind; [apply keeps_when_requested; intros; apply keeps_flux_stage|intros].
  apply keeps_bind; [apply keeps_when_requested; intros; apply keeps_atlas_stage|intros].
  apply keeps_bind; [apply keeps_job_update; intros; now split|intros].
  apply keeps_bind; [apply keeps_job_get_dict|intros job_data].
  destruct (truthy _); [apply keeps_trigger_webhook|apply keeps_ret].
Qed.

End Frame.

(** ** Pipeline failure *)

Section PipelineFailure.

Implicit Types (w : World) (d : JobDoc.t) (job_id user_id : string).

(** A configured webhook is posted once, whether or not delivery works,
    and the call returns. *)
Lemma trigger_webhook_sends env job_id event d w :
  truthy (JobDoc.webhook_url d) = true ->
  trigger_webhook env job_id event d w
  = (inr tt, add_sent (webhook_request env job_id event d) w).
Proof.
  intros Ht. unfold trigger_webhook, try_except, http_post. rewrite Ht. simpl.
  rewrite !bind_run. unfold modify, webhook_request. simpl.
  now destruct (post env _).
Qed.

(** The [except] handler on a stored job: it returns, the job is left
    [FAILED] with the structured error, a positive charge is refunded in
    full, and a configured webhook receives [job.failed]. *)
Lemma pipeline_failed_spec env job_id user_id e w d :
  api_jobs w !! job_id = Some d ->
  exists w',
    pipeline_failed env job_id user_id e w = (inr tt, w')
    /\ api_jobs w' =
       <[job_id := (if bool_decide (0 < JobDoc.cost_charged d)
                    then JobDoc.set_cost_refunded (JobDoc.cost_charged d)
                           (failed_job env e d)
                    else failed_job env e d)]> (api_jobs w)
    /\ (let ledger :=
          if bool_decide (0 < JobDoc.cost_charged d)
          then (refund_tokens user_id (JobDoc.cost_charged d)
                  "job_failed" job_id w).2
          else w in
        users w' = users ledger
        /\ tokenTransactions w' = tokenTransactions ledger)
    /\ sent w' =
       (sent w ++
        if truthy (JobDoc.webhook_url d)
        then [webhook_request env job_id "job.failed" (failed_job env e d)]
        else [])%list.
Proof.
  intros Hd. unfold pipeline_failed.
  rewrite bind_run, (job_update_some _ _ _ _ Hd).
  fold (failed_job env e d).
  set (w1 := with_api_jobs _ w).
  assert (Hd1 : api_jobs w1 !! job_id = Some (failed_job env e d))
    by (simpl; apply lookup_insert_eq).
  rewrite bind_run, (job_get_dict_some _ _ _ Hd1).
  change (JobDoc.cost_charged (failed_job env e d)) with (JobDoc.cost_charged d).
  change (JobDoc.webhook_url (failed_job env e d)) with (JobDoc.webhook_url d).
  rewrite bind_run.
  case_bool_decide as Hpos.
  - destruct (refund_tokens_returns w1 user_id (JobDoc.cost_charged d)
                "job_failed" job_id) as (b & w2 & Hr & Hj & Hs).
    rewrite bind_run, Hr.
    assert (Hd2 : api_jobs w2 !! job_id = Some (failed_job env e d))
      by now rewrite Hj.
    rewrite (job_update_some _ _ _ _ Hd2).
    assert (Hledger :
      users w2 = users (refund_tokens user_id (JobDoc.cost_charged d)
                          "job_failed" job_id w).2
      /\ tokenTransactions w2 =
         tokenTransactions (refund_tokens user_id (JobDoc.cost_charged d)
                              "job_failed" job_id w).2).
    { revert Hr. unfold refund_tokens, bind, gets, modify, ret. simpl.
      destruct (users w !! user_id); simpl; intros [= _ <-]; now simpl. }
    destruct (truthy (JobDoc.webhook_url d)) eqn:Ht.
    + rewrite trigger_webhook_sends by exact Ht.
      eexists. split; [reflexivity|]. simpl.
      rewrite Hj, Hs. simpl. rewrite insert_insert_eq. now repeat split.
    + unfold ret. eexists. split; [reflexivity|]. simpl.
      rewrite Hj, Hs, app_nil_r. simpl. rewrite insert_insert_eq.
      now repeat split.
  - destruct (truthy (JobDoc.webhook_url d)) eqn:Ht.
    + unfold ret at 1. rewrite trigger_webhook_sends by exact Ht.
      eexists. split; [reflexivity|]. simpl. now repeat split.
    + unfold ret. eexists. split; [reflexivity|]. simpl.
      rewrite app_nil_r. now repeat split.
Qed.

End PipelineFailure.

Section PipelineFault.

Implicit Types (w : World) (d : JobDoc.t) (job_id user_id : string).

(** A refund's effect on the ledger depends on the ledger alone. *)
Lemma refund_tokens_ledger w1 w2 user_id amount reason job_id :
  users w1 = users w2 ->
  tokenTransactions w1 = tokenTransactions w2 ->
  users (refund_tokens user_id amount reason job_id w1).2
  = users (refund_tokens user_id amount reason job_id w2).2
  /\ tokenTransactions (refund_tokens user_id amount reason job_id w1).2
     = tokenTransactions (refund_tokens user_id amount reason job_id w2).2.
Proof.
  intros Hu Ht. unfold refund_tokens, bind, gets, modify, ret. rewrite Hu.
  destruct (users w2 !! user_id); simpl; rewrite ?Hu, ?Ht; now split.
Qed.

(** When the [try] body raises on a stored job, [trigger_pipeline] returns,
    and what it leaves is the handler's work on the job as the body left
    it. *)
Lemma trigger_pipeline_on_fault env w job_id image_url operations options
    user_id d e w2 :
  api_jobs w !! job_id = Some d ->
  pipeline_body env job_id image_url operations options user_id
    (with_api_jobs (insert job_id (started_job env d)) w) = (inl e, w2) ->
  exists d2 w',
    api_jobs w2 !! job_id = Some d2
    /\ advanced (started_job env d) d2
    /\ trigger_pipeline env job_id image_url operations options user_id w
       = (inr tt, w')
    /\ api_jobs w' =
       <[job_id := (if bool_decide (0 < JobDoc.cost_charged d)
                    then JobDoc.set_cost_refunded (JobDoc.cost_charged d)
                           (failed_job env e d2)
                    else failed_job env e d2)]> (api_jobs w2)
    /\ users w' = users (refunded_ledger user_id job_id (JobDoc.cost_charged d) w)
    /\ tokenTransactions w' =
       tokenTransactions (refunded_ledger user_id job_id (JobDoc.cost_charged d) w)
    /\ sent w' =
       (sent w2 ++
        if truthy (JobDoc.webhook_url d)
        then [webhook_request env job_id "job.failed" (failed_job env e d2)]
        else [])%list.
Proof.
  intros Hd Hbody.
  pose proof (keeps_pipeline_body job_id env image_url operations options
                user_id _ _ _ Hbody) as (Hu & Ht & _ & Hj).
  destruct (Hj (started_job env d)) as (d2 & Hd2 & Hadv);
    [simpl; apply lookup_insert_eq|].
  assert (Hcharged : JobDoc.cost_charged d2 = JobDoc.cost_charged d).
  { destruct Hadv as [Hid _]. unfold JobDoc.identity in Hid.
    now injection Hid. }
  assert (Hhook : JobDoc.webhook_url d2 = JobDoc.webhook_url d).
  { destruct Hadv as [Hid _]. unfold JobDoc.identity in Hid.
    now injection Hid. }
  destruct (pipeline_failed_spec env job_id user_id e w2 d2 Hd2)
    as (w' & Hfail & Hjobs & [Hus Hts] & Hsent).
  exists d2, w'. split; [exact Hd2|]. split; [exact Hadv|].
  split.
  { unfold trigger_pipeline. rewrite bind_run, (job_update_some _ _ _ _ Hd).
    fold (started_job env d). unfold try_except. now rewrite Hbody. }
  rewrite Hcharged, Hhook in *.
  split; [exact Hjobs|].
  unfold refunded_ledger.
  case_bool_decide.
  - destruct (refund_tokens_ledger w2 w user_id (JobDoc.cost_charged d)
                "job_failed" job_id Hu Ht) as [Hu' Ht'].
    rewrite Hus, Hts, Hu', Ht'. now repeat split.
  - rewrite Hus, Hts. now repeat split.
Qed.

(** C4: whenever the pipeline of a stored job raises, whatever the fault
    and whichever stage it came from, [trigger_pipeline] itself returns
    (nothing propagates); the job is left [FAILED] with the structured
    error [pipeline_error], [retryable] true; [cost.refunded] equals
    [cost.charged], the charge having been credited back in full through
    [refund_tokens]; and when the job has a webhook URL the last request
    sent is the [job.failed] webhook to that URL. The job's cost fields are
    taken to satisfy [0 <= refunded <= charged]. *)
Theorem trigger_pipeline_fault env w job_id image_url operations options
    user_id d e w2 :
  api_jobs w !! job_id = Some d ->
  0 <= JobDoc.cost_refunded d <= JobDoc.cost_charged d ->
  pipeline_body env job_id image_url operations options user_id
    (with_api_jobs (insert job_id (started_job env d)) w) = (inl e, w2) ->
  exists w' d',
    trigger_pipeline env job_id image_url operations options user_id w
    = (inr tt, w')
    /\ api_jobs w' !! job_id = Some d'
    /\ JobDoc.status d' = FAILED
    /\ JobDoc.error d' =
       Some {| ErrorData.code := "pipeline_error";
               ErrorData.message := Exc_str e;
               ErrorData.retryable := true |}
    /\ JobDoc.cost_charged d' = JobDoc.cost_charged d
    /\ JobDoc.cost_refunded d' = JobDoc.cost_charged d'
    /\ users w' = users (refunded_ledger user_id job_id (JobDoc.cost_charged d) w)
    /\ tokenTransactions w' =
       tokenTransactions (refunded_ledger user_id job_id (JobDoc.cost_charged d) w)
    /\ (if truthy (JobDoc.webhook_url d) then
          exists results,
            sent w' =
            (sent w2 ++
             [{| Http.url := default "" (JobDoc.webhook_url d);
                 Http.json :=
                   Http.Webhook "job.failed" job_id FAILED results
                     (Some {| ErrorData.code := "pipeline_error";
                              ErrorData.message := Exc_str e;
                              ErrorData.retryable := true |})
                     (utcnow env) |}])%list
        else sent w' = sent w2).
Proof.
  intros Hd Hinv Hbody.
  destruct (trigger_pipeline_on_fault _ _ _ _ _ _ _ _ _ _ Hd Hbody)
    as (d2 & w' & Hd2 & [Hid Href] & Hrun & Hjobs & Hus & Hts & Hsent).
  assert (Hcharged : JobDoc.cost_charged d2 = JobDoc.cost_charged d)
    by (unfold JobDoc.identity in Hid; now injection Hid).
  assert (Hhook : JobDoc.webhook_url d2 = JobDoc.webhook_url d)
    by (unfold JobDoc.identity in Hid; now injection Hid).
  simpl in Href.
  exists w'. eexists. split; [exact Hrun|].
  split; [rewrite Hjobs; apply lookup_insert_eq|].
  case_bool_decide as Hpos; simpl;
    (split; [reflexivity|]); (split; [reflexivity|]);
    (split; [exact Hcharged|]); (split; [lia|]);
    (split; [exact Hus|]); (split; [exact Hts|]);
    rewrite Hsent; destruct (truthy (JobDoc.webhook_url d));
    rewrite ?app_nil_r; try reflexivity;
    exists (JobDoc.results d2); unfold webhook_request; simpl;
    now rewrite Hhook.
Qed.

End PipelineFault.

(** A paid job with a webhook whose upscaling agent times out. *)
Lemma trigger_pipeline_fault_witness :
  let w :=
    with_api_jobs (insert "job_1" (pending_job "job_1" "user_1" 4))
      (world_with "user_1" (user_with (Some 6) None)) in
  let env := env_at 1700000100 "job_2" network_flux_down in
  exists w',
    trigger_pipeline env "job_1" "https://img.example/a.png"
      [NOVA; FLUX; ATLAS] None "user_1" w = (inr tt, w')
    /\ (JobDoc.status <$> api_jobs w' !! "job_1") = Some FAILED
    /\ (JobDoc.cost_refunded <$> api_jobs w' !! "job_1") = Some 4
    /\ (UserDoc.tokens_balance <$> users w' !! "user_1") = Some (Some 10).
Proof.
  intros w env.
  assert (Hd : api_jobs w !! "job_1" = Some (pending_job "job_1" "user_1" 4))
    by reflexivity.
  assert (Hinv : 0 <= JobDoc.cost_refunded (pending_job "job_1" "user_1" 4)
                 <= JobDoc.cost_charged (pending_job "job_1" "user_1" 4))
    by (simpl; lia).
  destruct (pipeline_body env "job_1" "https://img.example/a.png"
              [NOVA; FLUX; ATLAS] None "user_1"
              (with_api_jobs
                 (insert "job_1"
                    (started_job env (pending_job "job_1" "user_1" 4))) w))
    as [[e|[]] w2] eqn:Hbody; [|vm_compute in Hbody; discriminate].
  destruct (trigger_pipeline_fault env w "job_1" "https://img.example/a.png"
              [NOVA; FLUX; ATLAS] None "user_1" _ e w2 Hd Hinv Hbody)
    as (w' & d' & Hrun & Hd' & Hst & _ & Hch & Hre & Hus & _).
  exists w'. split; [exact Hrun|].
  rewrite Hd', Hus. simpl. rewrite Hst, Hre, Hch.
  split; [reflexivity|]. split; [reflexivity|].
  vm_compute. reflexivity.
Defined.

(** ** Stage B fails after stage A *)

Section StageBFailure.

Implicit Types (w : World) (d : JobDoc.t) (job_id user_id : string).

(** With the enrichment agent answering and the upscaling agent failing,
    the [try] body raises the upscaling fault, having marked stage A
    [COMPLETED] and stage B [PROCESSING]. *)
Lemma pipeline_body_flux_fault env w job_id image_url operations options
    user_id d nova_data message :
  api_jobs w !! job_id = Some d ->
  NOVA ∈ operations -> FLUX ∈ operations ->
  (forall url a b c x y,
     post env {| Http.url := url; Http.json := Http.Enrich a b c x y |}
     = inr nova_data) ->
  (forall url a b c x,
     post env {| Http.url := url; Http.json := Http.Upscale a b c x |}
     = inl message) ->
  exists w2,
    pipeline_body env job_id image_url operations options user_id w
    = (inl (HTTPError message), w2)
    /\ api_jobs w2 !! job_id =
       Some (JobDoc.set_progress FLUX (Some PROCESSING)
               (JobDoc.set_progress NOVA (Some COMPLETED)
                  (JobDoc.set_progress NOVA (Some PROCESSING) d))).
Proof.
  intros Hd Hn Hf Hnova Hflux.
  unfold pipeline_body, when_requested.
  rewrite (bool_decide_eq_true_2 _ Hn), (bool_decide_eq_true_2 _ Hf).
  unfold nova_stage, flux_stage, http_post.
  rewrite bind_run, bind_run, (job_update_some _ _ _ _ Hd).
  rewrite bind_run, bind_run. unfold modify at 1. rewrite Hnova.
  unfold ret at 1. rewrite bind_run.
  erewrite job_update_some by (simpl; apply lookup_insert_eq).
  unfold ret at 1. rewrite bind_run, bind_run.
  erewrite job_update_some by (simpl; apply lookup_insert_eq).
  rewrite bind_run, bind_run. unfold modify at 1. rewrite Hflux.
  unfold raise. eexists. split; [reflexivity|].
  simpl. rewrite lookup_insert_eq. reflexivity.
Qed.

(** C5, counterexample: a paid job for all three stages whose upscaling
    agent times out after enrichment succeeded ends [FAILED] with stage A
    [completed], but stage B's progress entry is [processing], as for a
    stage still running, and not [failed]. *)
Lemma stage_b_progress_counterexample :
  let w :=
    with_api_jobs (insert "job_1" (pending_job "job_1" "user_1" 4))
      (world_with "user_1" (user_with (Some 6) None)) in
  let env := env_at 1700000100 "job_2" network_flux_down in
  exists w' d',
    trigger_pipeline env "job_1" "https://img.example/a.png"
      [NOVA; FLUX; ATLAS] None "user_1" w = (inr tt, w')
    /\ api_jobs w' !! "job_1" = Some d'
    /\ JobDoc.status d' = FAILED
    /\ JobDoc.progress NOVA d' = Some COMPLETED
    /\ JobDoc.progress FLUX d' = Some PROCESSING
    /\ JobDoc.progress FLUX d' <> Some FAILED.
Proof.
  intros w env. eexists _, _.
  split; [vm_compute; reflexivity|].
  split; [vm_compute; reflexivity|].
  simpl. repeat split. discriminate.
Qed.

(** C5, amended: when the upscaling agent fails after the enrichment agent
    answered, the job ends [FAILED]; stage A's progress entry is
    [completed]; stage B's entry stays at [processing], the value written
    before the call (no stage is ever marked failed, the failure shows in
    the job's status and error); stage C's entry is untouched; and the
    refund is the job's whole charge. The job's cost fields are taken to
    satisfy [0 <= refunded <= charged]. *)
Theorem stage_b_failure env w job_id image_url operations options user_id d
    nova_data message :
  api_jobs w !! job_id = Some d ->
  0 <= JobDoc.cost_refunded d <= JobDoc.cost_charged d ->
  NOVA ∈ operations -> FLUX ∈ operations ->
  (forall url a b c x y,
     post env {| Http.url := url; Http.json := Http.Enrich a b c x y |}
     = inr nova_data) ->
  (forall url a b c x,
     post env {| Http.url := url; Http.json := Http.Upscale a b c x |}
     = inl message) ->
  exists w' d',
    trigger_pipeline env job_id image_url operations options user_id w
    = (inr tt, w')
    /\ api_jobs w' !! job_id = Some d'
    /\ JobDoc.status d' = FAILED
    /\ JobDoc.progress NOVA d' = Some COMPLETED
    /\ JobDoc.progress FLUX d' = Some PROCESSING
    /\ JobDoc.progress ATLAS d' = JobDoc.progress ATLAS d
    /\ JobDoc.error d' =
       Some {| ErrorData.code := "pipeline_error";
               ErrorData.message := message;
               ErrorData.retryable := true |}
    /\ JobDoc.cost_charged d' = JobDoc.cost_charged d
    /\ JobDoc.cost_refunded d' = JobDoc.cost_charged d
    /\ users w' = users (refunded_ledger user_id job_id (JobDoc.cost_charged d) w)
    /\ tokenTransactions w' =
       tokenTransactions (refunded_ledger user_id job_id (JobDoc.cost_charged d) w).
Proof.
  intros Hd Hinv Hn Hf Hnova Hflux.
  set (w1 := with_api_jobs (insert job_id (started_job env d)) w).
  assert (Hd1 : api_jobs w1 !! job_id = Some (started_job env d))
    by (simpl; apply lookup_insert_eq).
  destruct (pipeline_body_flux_fault env w1 job_id image_url operations
              options user_id _ nova_data message Hd1 Hn Hf Hnova Hflux)
    as (w2 & Hbody & Hd2).
  destruct (trigger_pipeline_on_fault _ _ _ _ _ _ _ _ _ _ Hd Hbody)
    as (d2 & w' & Hd2' & _ & Hrun & Hjobs & Hus & Hts & _).
  rewrite Hd2 in Hd2'. injection Hd2' as <-.
  exists w'. eexists. split; [exact Hrun|].
  split; [rewrite Hjobs; apply lookup_insert_eq|].
  case_bool_decide; simpl; repeat split; try assumption; lia.
Qed.

(** The same run as above, read through the theorem. *)
Lemma stage_b_failure_witness :
  let w :=
    with_api_jobs (insert "job_1" (pending_job "job_1" "user_1" 4))
      (world_with "user_1" (user_with (Some 6) None)) in
  let env := env_at 1700000100 "job_2" network_flux_down in
  exists w' d',
    trigger_pipeline env "job_1" "https://img.example/a.png"
      [NOVA; FLUX; ATLAS] None "user_1" w = (inr tt, w')
    /\ api_jobs w' !! "job_1" = Some d'
    /\ JobDoc.status d' = FAILED
    /\ JobDoc.progress FLUX d' = Some PROCESSING
    /\ JobDoc.cost_refunded d' = 4.
Proof.
  intros w env.
  destruct (stage_b_failure env w "job_1" "https://img.example/a.png"
              [NOVA; FLUX; ATLAS] None "user_1"
              (pending_job "job_1" "user_1" 4)
              {| Http.golden_codex := Some "{}";
                 Http.upscaled_image_url := Some "https://cdn.example/up.png";
                 Http.final_url := Some "https://cdn.example/final.png" |}
              "timed out")
    as (w' & d' & Hrun & Hd' & Hst & _ & Hfl & _ & _ & _ & Hre & _).
  - reflexivity.
  - simpl. lia.
  - set_solver.
  - set_solver.
  - reflexivity.
  - reflexivity.
  - exists w', d'. now repeat split.
Defined.

End StageBFailure.

(** ** Idempotent creation *)

Section Idempotency.

Implicit Types (w : World) (d : JobDoc.t) (job_id user_id rid : string).

Lemma filter_fmap {A B} (f : A -> B) (P : B -> Prop)
    `{!forall x, Decision (P x)} (l : list A) :
  filter P (f <$> l) = f <$> filter (fun a => P (f a)) l.
Proof.
  induction l as [|a l IH]; [reflexivity|].
  rewrite fmap_cons, !filter_cons. destruct (decide (P (f a))); simpl.
  - now rewrite IH.
  - exact IH.
Qed.

Lemma NoDup_all_equal {A} (l : list A) (a : A) :
  NoDup l -> a ∈ l -> (forall x, x ∈ l -> x = a) -> l = [a].
Proof.
  intros Hnd Hin Hall. destruct l as [|x l]; [inversion Hin|].
  assert (x = a) as -> by (apply Hall; left).
  destruct l as [|y l]; [reflexivity|].
  assert (y = a) as -> by (apply Hall; right; left).
  apply NoDup_cons in Hnd as [Hnotin _]. exfalso. apply Hnotin. left.
Qed.

(** No stored job carries the key. *)
Lemma existing_jobs_nil user_id rid w :
  existing_jobs user_id rid w = [] <->
  forall j d, api_jobs w !! j = Some d ->
    ~ (JobDoc.user_id d = user_id /\ JobDoc.request_id d = Some rid).
Proof.
  unfold existing_jobs. rewrite filter_fmap. split.
  - intros Hnil j d Hd Hm.
    apply fmap_nil_inv in Hnil.
    assert (Hin : (j, d) ∈ filter
              (fun a : string * JobDoc.t =>
                 JobDoc.user_id a.2 = user_id
                 /\ JobDoc.request_id a.2 = Some rid)
              (map_to_list (api_jobs w))).
    { apply list_elem_of_filter. split; [exact Hm|].
      now apply elem_of_map_to_list. }
    rewrite Hnil in Hin. inversion Hin.
  - intros Hall.
    destruct (filter _ (map_to_list (api_jobs w))) as [|[j d] l] eqn:Hf;
      [reflexivity|].
    assert (Hin : (j, d) ∈ filter
              (fun a : string * JobDoc.t =>
                 JobDoc.user_id a.2 = user_id
                 /\ JobDoc.request_id a.2 = Some rid)
              (map_to_list (api_jobs w))) by (rewrite Hf; left).
    apply list_elem_of_filter in Hin as [Hm Hin].
    apply elem_of_map_to_list in Hin. now destruct (Hall j d Hin).
Qed.

(** Exactly one stored job carries the key. *)
Lemma existing_jobs_singleton user_id rid w job_id d :
  api_jobs w !! job_id = Some d ->
  JobDoc.user_id d = user_id -> JobDoc.request_id d = Some rid ->
  (forall j d', j <> job_id -> api_jobs w !! j = Some d' ->
     ~ (JobDoc.user_id d' = user_id /\ JobDoc.request_id d' = Some rid)) ->
  existing_jobs user_id rid w = [d].
Proof.
  intros Hd Hu Hr Hothers. unfold existing_jobs. rewrite filter_fmap.
  rewrite (NoDup_all_equal _ (job_id, d)); [reflexivity| | |].
  - apply NoDup_filter, NoDup_map_to_list.
  - apply list_elem_of_filter. split; [now split|].
    now apply elem_of_map_to_list.
  - intros [j d'] Hin. apply list_elem_of_filter in Hin as [Hm Hin].
    apply elem_of_map_to_list in Hin.
    destruct (decide (j = job_id)) as [->|Hne]; [congruence|].
    now destruct (Hothers j d' Hne Hin).
Qed.

(** A refund adds no deduction record. *)
Lemma deductions_refund user_id amount reason job_id w :
  deductions (refund_tokens user_id amount reason job_id w).2 = deductions w.
Proof.
  unfold refund_tokens, bind, gets, modify, ret, deductions.
  destruct (users w !! user_id); simpl; [|reflexivity].
  rewrite filter_app, filter_cons_False, filter_nil, app_nil_r; [done|].
  simpl. discriminate.
Qed.

(** On a stored job [trigger_pipeline] always returns; it keeps the job's
    identity, leaves every other job alone and deducts nothing. *)
Lemma trigger_pipeline_returns env w job_id image_url operations options
    user_id d :
  api_jobs w !! job_id = Some d ->
  exists w' d',
    trigger_pipeline env job_id image_url operations options user_id w
    = (inr tt, w')
    /\ api_jobs w' !! job_id = Some d'
    /\ JobDoc.identity d' = JobDoc.identity d
    /\ (forall j, j <> job_id -> api_jobs w' !! j = api_jobs w !! j)
    /\ deductions w' = deductions w.
Proof.
  intros Hd.
  destruct (pipeline_body env job_id image_url operations options user_id
              (with_api_jobs (insert job_id (started_job env d)) w))
    as [[e|[]] w2] eqn:Hbody.
  - destruct (trigger_pipeline_on_fault _ _ _ _ _ _ _ _ _ _ Hd Hbody)
      as (d2 & w' & Hd2 & [Hid _] & Hrun & Hjobs & _ & Hts & _).
    pose proof (keeps_pipeline_body job_id env image_url operations options
                  user_id _ _ _ Hbody) as (_ & _ & Hothers & _).
    exists w'. eexists. split; [exact Hrun|].
    split; [rewrite Hjobs; apply lookup_insert_eq|].
    split; [case_bool_decide; exact Hid|].
    split.
    + intros j Hne. rewrite Hjobs, lookup_insert_ne, Hothers by congruence.
      simpl. now rewrite lookup_insert_ne by congruence.
    + unfold deductions at 1. rewrite Hts. unfold refunded_ledger.
      case_bool_decide; [apply deductions_refund|reflexivity].
  - pose proof (keeps_pipeline_body job_id env image_url operations options
                  user_id _ _ _ Hbody) as (_ & Ht & Hothers & Hj).
    destruct (Hj (started_job env d)) as (d2 & Hd2 & [Hid _]);
      [simpl; apply lookup_insert_eq|].
    exists w2, d2. split.
    { unfold trigger_pipeline. rewrite bind_run, (job_update_some _ _ _ _ Hd).
      fold (started_job env d). unfold try_except. now rewrite Hbody. }
    split; [exact Hd2|]. split; [exact Hid|]. split.
    + intros j Hne. rewrite Hothers by exact Hne. simpl.
      now rewrite lookup_insert_ne by congruence.
    + unfold deductions. now rewrite Ht.
Qed.

End Idempotency.

Section IdempotentCreate.

Implicit Types (w : World) (d : JobDoc.t) (job_id user_id rid : string).

(** A deduction that goes through leaves the jobs alone and appends one
    deduction record. *)
Lemma deduct_tokens_returns w w' user_id amount reason job_id b :
  deduct_tokens user_id amount reason job_id w = (inr b, w') ->
  api_jobs w' = api_jobs w
  /\ deductions w' =
     (deductions w ++
      [(user_id, {| TxDoc.type := TxDoc.deduction; TxDoc.amount := amount;
                    TxDoc.reason := reason; TxDoc.job_id := job_id;
                    TxDoc.balance_after := b; TxDoc.source := "api" |})])%list.
Proof.
  unfold deduct_tokens, bind, gets, raise, modify, ret, deductions.
  destruct (users w !! user_id); [|discriminate].
  case_bool_decide; [discriminate|]. simpl. intros [= <- <-]. simpl.
  split; [reflexivity|].
  rewrite filter_app, filter_cons_True by reflexivity. now rewrite filter_nil.
Qed.

(** A replayed key: the first stored job with the key is returned and the
    store is not touched. *)
Lemma create_job_replay env w user_id rid api_key_id image_url operations
    options webhook_url client_metadata is_test_mode d rest :
  rid <> "" ->
  existing_jobs user_id rid w = d :: rest ->
  exists r,
    create_job env user_id api_key_id image_url operations options
      webhook_url client_metadata (Some rid) is_test_mode w = (inr r, w)
    /\ CreateJobResult.job_id r = JobDoc.job_id d.
Proof.
  intros Hrid Hex. unfold create_job.
  destruct (calculate_cost (settings env) operations options)
    as [total_cost breakdown].
  rewrite bind_run. simpl. rewrite (bool_decide_eq_false_2 _ Hrid). simpl.
  unfold jobs_where, gets. rewrite Hex. simpl. unfold ret.
  eexists. split; reflexivity.
Qed.

(** C2: for an account and a given (non-empty) idempotency key, a create
    call that returns is followed by a second call with the same account
    and key, whatever its other arguments, that returns the same job id and
    leaves the whole store as it was: no deduction, no job document, no
    request sent. When no job carried the key before the first call, that
    call made exactly one deduction, for the job it returned. *)
Theorem create_job_idempotent env1 env2 w user_id rid
    api_key_id1 image_url1 operations1 options1 webhook_url1
    client_metadata1 is_test_mode1
    api_key_id2 image_url2 operations2 options2 webhook_url2
    client_metadata2 is_test_mode2 r1 w1 :
  rid <> "" ->
  create_job env1 user_id api_key_id1 image_url1 operations1 options1
    webhook_url1 client_metadata1 (Some rid) is_test_mode1 w = (inr r1, w1) ->
  exists r2,
    create_job env2 user_id api_key_id2 image_url2 operations2 options2
      webhook_url2 client_metadata2 (Some rid) is_test_mode2 w1 = (inr r2, w1)
    /\ CreateJobResult.job_id r2 = CreateJobResult.job_id r1
    /\ (match existing_jobs user_id rid w with
        | [] =>
            exists tx,
              deductions w1 = (deductions w ++ [(user_id, tx)])%list
              /\ TxDoc.job_id tx = CreateJobResult.job_id r1
              /\ TxDoc.amount tx =
                 (calculate_cost (settings env1) operations1 options1).1
        | _ :: _ => w1 = w
        end).
Proof.
  intros Hrid Hfirst.
  destruct (existing_jobs user_id rid w) as [|d rest] eqn:Hex.
  - (* the first call creates the job *)
    revert Hfirst. unfold create_job at 1.
    destruct (calculate_cost (settings env1) operations1 options1)
      as [total_cost breakdown].
    rewrite bind_run. simpl. rewrite (bool_decide_eq_false_2 _ Hrid). simpl.
    unfold jobs_where, gets. rewrite Hex. simpl.
    rewrite bind_run.
    destruct (deduct_tokens user_id total_cost "api_job"
                (generate_job_id env1) w) as [[e|b] wa] eqn:Hded;
      [discriminate|].
    destruct (deduct_tokens_returns _ _ _ _ _ _ _ Hded) as [Hja Hda].
    rewrite bind_run. unfold job_set, modify.
    set (job_data := JobDoc.Build_t _ _ _ _ _ _ _ _ _ _ _ _ _ _ _ _ _ _ _ _ _ _).
    set (wb := with_api_jobs _ wa).
    assert (Hdb : api_jobs wb !! generate_job_id env1 = Some job_data)
      by (simpl; apply lookup_insert_eq).
    destruct (trigger_pipeline_returns env1 wb (generate_job_id env1)
                image_url1 operations1 options1 user_id job_data Hdb)
      as (w' & d' & Hrun & Hd' & Hid & Hothers & Hdw).
    rewrite bind_run, Hrun. unfold ret. intros [= <- <-].
    unfold JobDoc.identity in Hid. simpl in Hid.
    injection Hid as Hjid Huid _ Hreq _ _ _ _ _ _ _ _ _.
    assert (Hex' : existing_jobs user_id rid w' = [d']).
    { apply (existing_jobs_singleton _ _ _ (generate_job_id env1));
        [exact Hd'|exact Huid|exact Hreq|].
      intros j dj Hne Hdj.
      rewrite (Hothers j Hne) in Hdj. simpl in Hdj.
      rewrite lookup_insert_ne, Hja in Hdj by congruence.
      clear Hne. revert j dj Hdj. now apply existing_jobs_nil. }
    destruct (create_job_replay env2 w' user_id rid api_key_id2 image_url2
                operations2 options2 webhook_url2 client_metadata2
                is_test_mode2 d' [] Hrid Hex') as (r2 & Hsecond & Hr2).
    exists r2. split; [exact Hsecond|]. split; [now rewrite Hr2|].
    eexists. split; [rewrite Hdw; exact Hda|]. now split.
  - (* the first call was itself a replay *)
    destruct (create_job_replay env1 w user_id rid api_key_id1 image_url1
                operations1 options1 webhook_url1 client_metadata1
                is_test_mode1 d rest Hrid Hex) as (r & Hr & Hid).
    rewrite Hr in Hfirst. injection Hfirst as <- <-.
    destruct (create_job_replay env2 w user_id rid api_key_id2 image_url2
                operations2 options2 webhook_url2 client_metadata2
                is_test_mode2 d rest Hrid Hex) as (r2 & Hr2 & Hid2).
    exists r2. split; [exact Hr2|]. split; [congruence|reflexivity].
Qed.

End IdempotentCreate.

(** A funded account creates a job under the key [req-1], then retries
    with the same key after the job id generator has moved on. *)
Lemma create_job_idempotent_witness :
  let w := world_with "user_1" (user_with (Some 10) None) in
  let env1 := env_at 1700000000 "job_0123456789ab" network_up in
  let env2 := env_at 1700000030 "job_ba9876543210" network_up in
  exists r1 w1 r2,
    create_job env1 "user_1" "key_1" "https://img.example/a.png"
      [NOVA; FLUX; ATLAS] None None None (Some "req-1") false w
    = (inr r1, w1)
    /\ create_job env2 "user_1" "key_1" "https://img.example/a.png"
         [NOVA; FLUX; ATLAS] None None None (Some "req-1") false w1
       = (inr r2, w1)
    /\ CreateJobResult.job_id r2 = CreateJobResult.job_id r1
    /\ length (deductions w1) = 1%nat.
Proof.
  intros w env1 env2.
  destruct (create_job env1 "user_1" "key_1" "https://img.example/a.png"
              [NOVA; FLUX; ATLAS] None None None (Some "req-1") false w)
    as [[e|r1] w1] eqn:Hfirst; [vm_compute in Hfirst; discriminate|].
  assert (Hrid : "req-1" <> "") by discriminate.
  destruct (create_job_idempotent env1 env2 w "user_1" "req-1"
              "key_1" "https://img.example/a.png" [NOVA; FLUX; ATLAS]
              None None None false
              "key_1" "https://img.example/a.png" [NOVA; FLUX; ATLAS]
              None None None false r1 w1 Hrid Hfirst)
    as (r2 & Hsecond & Hid & Hded).
  exists r1, w1, r2. split; [reflexivity|]. split; [exact Hsecond|].
  split; [exact Hid|].
  change (existing_jobs "user_1" "req-1" w) with (@nil JobDoc.t) in Hded.
  destruct Hded as (tx & -> & _). reflexivity.
Defined.

(** ** Decimal numerals *)

Section Numerals.

Implicit Types (s : string) (c : ascii) (u : Decimal.uint).

Lemma is_digit_cases c :
  PyInt.is_digit c = true ->
  c ∈ ["0"; "1"; "2"; "3"; "4"; "5"; "6"; "7"; "8"; "9"]%char.
Proof. unfold PyInt.is_digit. now intros ?%bool_decide_eq_true_1. Qed.

Lemma string_of_uint_digits u :
  all_chars PyInt.is_digit (NilEmpty.string_of_uint u) = true.
Proof. induction u; simpl; auto. Qed.

Lemma lstrip_digit c s :
  PyInt.is_digit c = true -> PyInt.lstrip (String c s) = String c s.
Proof.
  intros Hc%is_digit_cases. simpl.
  repeat (apply elem_of_cons in Hc as [->|Hc]; [reflexivity|]).
  inversion Hc.
Qed.

Lemma rstrip_digits s :
  all_chars PyInt.is_digit s = true -> PyInt.rstrip s = s.
Proof.
  induction s as [|c s IH]; [reflexivity|]. simpl.
  intros [Hc Hs]%andb_true_iff. rewrite (IH Hs).
  apply is_digit_cases in Hc.
  repeat (apply elem_of_cons in Hc as [->|Hc]; [reflexivity|]).
  inversion Hc.
Qed.

Lemma digits_of_digits s :
  all_chars PyInt.is_digit s = true ->
  PyInt.digits true s = Some s.
Proof.
  induction s as [|c s IH]; [reflexivity|]. simpl.
  intros [Hc Hs]%andb_true_iff. rewrite Hc, (IH Hs).
  apply is_digit_cases in Hc.
  repeat (apply elem_of_cons in Hc as [->|Hc]; [reflexivity|]).
  inversion Hc.
Qed.

(** [int] reads a non-empty run of digits as the number it spells. *)
Lemma int_of_digits c s :
  all_chars PyInt.is_digit (String c s) = true ->
  PyInt.int (String c s)
  = Z.of_uint <$> NilEmpty.uint_of_string (String c s).
Proof.
  intros Hall. unfold PyInt.int, PyInt.strip.
  pose proof Hall as [Hc Hs]%andb_true_iff.
  rewrite (lstrip_digit _ _ Hc), (rstrip_digits _ Hall).
  assert (Hd : PyInt.digits false (String c s) = Some (String c s)).
  { simpl. rewrite Hc, (digits_of_digits _ Hs).
    apply is_digit_cases in Hc.
    repeat (apply elem_of_cons in Hc as [->|Hc]; [reflexivity|]).
    inversion Hc. }
  apply is_digit_cases in Hc.
  repeat (apply elem_of_cons in Hc as [->|Hc];
          [rewrite Hd; now destruct (NilEmpty.uint_of_string _)|]).
  inversion Hc.
Qed.

(** ... and a minus sign in front negates it. *)
Lemma int_of_minus_digits c s :
  all_chars PyInt.is_digit (String c s) = true ->
  PyInt.int (String "-" (String c s))
  = (fun u => - Z.of_uint u) <$> NilEmpty.uint_of_string (String c s).
Proof.
  intros Hall. unfold PyInt.int, PyInt.strip.
  pose proof Hall as [Hc Hs]%andb_true_iff.
  change (PyInt.lstrip (String "-" (String c s)))
    with (String "-" (String c s)).
  assert (Hr : PyInt.rstrip (String "-" (String c s))
               = String "-" (String c s)).
  { change (PyInt.rstrip (String "-" (String c s)))
      with (String "-" (PyInt.rstrip (String c s))).
    now rewrite (rstrip_digits _ Hall). }
  rewrite Hr.
  assert (Hd : PyInt.digits false (String c s) = Some (String c s)).
  { simpl. rewrite Hc, (digits_of_digits _ Hs).
    apply is_digit_cases in Hc.
    repeat (apply elem_of_cons in Hc as [->|Hc]; [reflexivity|]).
    inversion Hc. }
  rewrite Hd. now destruct (NilEmpty.uint_of_string _).
Qed.

Lemma string_of_uint_cons u :
  u <> Decimal.Nil ->
  exists c s, NilEmpty.string_of_uint u = String c s.
Proof. destruct u; [congruence|..]; simpl; eauto. Qed.

(** [int(str(n)) == n] *)
Lemma py_int_py_str (n : Z) : py_int (py_str n) = Some n.
Proof.
  unfold py_int, py_str.
  rewrite <- (DecimalZ.of_to n) at 2.
  destruct (Z.to_int n) as [u|u]; simpl.
  - assert (u = Decimal.Nil \/ u <> Decimal.Nil) as [->|Hu]
      by (destruct u; [left|right..]; congruence); [reflexivity|].
    assert (NilZero.string_of_uint u = NilEmpty.string_of_uint u) as ->
      by now destruct u.
    destruct (string_of_uint_cons u Hu) as (c & s & Hs).
    pose proof (string_of_uint_digits u) as Hall. rewrite Hs in *.
    rewrite (int_of_digits _ _ Hall), <- Hs, NilEmpty.usu. reflexivity.
  - assert (u = Decimal.Nil \/ u <> Decimal.Nil) as [->|Hu]
      by (destruct u; [left|right..]; congruence); [reflexivity|].
    assert (NilZero.string_of_uint u = NilEmpty.string_of_uint u) as ->
      by now destruct u.
    destruct (string_of_uint_cons u Hu) as (c & s & Hs).
    pose proof (string_of_uint_digits u) as Hall. rewrite Hs in *.
    rewrite (int_of_minus_digits _ _ Hall), <- Hs, NilEmpty.usu. reflexivity.
Qed.

(** [str(n)] is never empty and holds no comma. *)
Lemma py_str_shape (n : Z) :
  py_str n <> "" /\ contains "," (py_str n) = false.
Proof.
  assert (Hdigits : forall u,
            contains "," (NilEmpty.string_of_uint u) = false)
    by (induction u; simpl; auto).
  assert (Hzero : forall u,
            NilZero.string_of_uint u <> ""
            /\ contains "," (NilZero.string_of_uint u) = false).
  { intros u. destruct u; simpl; (split; [discriminate|]);
      try reflexivity; apply Hdigits. }
  unfold py_str. destruct (Z.to_int n) as [u|u]; simpl.
  - apply Hzero.
  - split; [discriminate|]. apply Hzero.
Qed.

End Numerals.

(** ** Digests as text *)

Section Digests.

Implicit Types (s : string) (c : ascii) (bs : list Z).

Lemma hex_digit_is_hex (n : Z) : is_hex (hex_digit n) = true.
Proof.
  destruct n as [|p|p]; try reflexivity.
  do 5 (destruct p as [p|p|]; try reflexivity).
Qed.

Lemma hex_is_hex bs : all_chars is_hex (hex bs) = true.
Proof.
  induction bs as [|b bs IH]; [reflexivity|]. simpl.
  now rewrite !hex_digit_is_hex, IH.
Qed.

(** Hexadecimal text is ASCII and holds no comma. *)
Lemma hex_text s :
  all_chars is_hex s = true -> is_ascii s = true /\ contains "," s = false.
Proof.
  induction s as [|c s IH]; [now split|]. simpl.
  intros [Hc Hs]%andb_true_iff. destruct (IH Hs) as [Ha Hn].
  unfold is_ascii in *. simpl. rewrite Ha, Hn.
  unfold is_hex in Hc. apply bool_decide_eq_true_1 in Hc.
  repeat (apply elem_of_cons in Hc as [->|Hc]; [now split|]).
  inversion Hc.
Qed.

Lemma round_length (st : list Z) k wt : length (round st k wt) = length st.
Proof.
  unfold round. do 9 (destruct st as [|? st]; try reflexivity).
Qed.

Lemma rounds_length ks : forall w st, length (rounds ks w st) = length st.
Proof.
  induction ks as [|k ks IH]; intros w st; [reflexivity|]. simpl.
  now rewrite IH, round_length.
Qed.

Lemma blocks_length n : forall h ws, length (blocks n h ws) = length h.
Proof.
  induction n as [|n IH]; intros h ws; [reflexivity|]. simpl.
  destruct ws; [reflexivity|]. rewrite IH. unfold compress.
  rewrite length_zip_with, rounds_length. lia.
Qed.

Lemma hex_nonempty bs : bs <> [] -> hex bs <> "".
Proof.
  destruct bs as [|b bs]; [congruence|]. intros _.
  change (hex (b :: bs))
    with (String (hex_digit ((b / 16) mod 16))
            (String (hex_digit (b mod 16)) (hex bs))).
  discriminate.
Qed.

Lemma sha256_nonempty msg : sha256 msg <> [].
Proof.
  unfold sha256. generalize (words (pad msg)). intros ws.
  pose proof (blocks_length (length ws) H0 ws) as Hlen.
  destruct (blocks (length ws) H0 ws) as [|x xs]; [discriminate Hlen|].
  change (flat_map (be_bytes 4) (x :: xs))
    with ((Z.shiftr x (8 * Z.of_nat 3) mod 256 :: be_bytes 3 x)
          ++ flat_map (be_bytes 4) xs)%list.
  discriminate.
Qed.

(** A digest is never empty, so neither is its text. *)
Lemma hexdigest_nonempty key msg : hmac_sha256_hexdigest key msg <> "".
Proof.
  unfold hmac_sha256_hexdigest, hmac_sha256.
  apply hex_nonempty, sha256_nonempty.
Qed.

End Digests.

(** ** Signature headers *)

Section SignatureHeader.

Implicit Types (s a b : string) (c sep : ascii).

Lemma split_no_sep sep s : contains sep s = false -> split sep s = [s].
Proof.
  induction s as [|c s IH]; [reflexivity|]. simpl.
  intros [Hc Hs]%orb_false_iff. now rewrite Hc, (IH Hs).
Qed.

Lemma split_app sep a b :
  contains sep a = false ->
  split sep (a ++ String sep b) = a :: split sep b.
Proof.
  induction a as [|c a IH]; simpl.
  - intros _. now rewrite bool_decide_eq_true_2.
  - intros [Hc Ha]%orb_false_iff. now rewrite Hc, (IH Ha).
Qed.

(** The header [generate_webhook_signature] writes is read back into its
    two parts. *)
Lemma parse_signature_generated (ts hx : string) :
  contains "," ts = false -> contains "," hx = false ->
  parse_signature ("t=" ++ ts ++ ",v1=" ++ hx)
  = <["v1" := hx]> (<["t" := ts]> ∅).
Proof.
  intros Hts Hhx. unfold parse_signature.
  assert (Hsplit : split "," ("t=" ++ ts ++ ",v1=" ++ hx)
                   = ["t=" ++ ts; "v1=" ++ hx]).
  { change ("t=" ++ ts ++ ",v1=" ++ hx)
      with (String "t" (String "=" (ts ++ String "," ("v1=" ++ hx)))).
    change (split "," (String "t" (String "=" (ts ++ String "," ("v1=" ++ hx)))))
      with (match
              match split "," (ts ++ String "," ("v1=" ++ hx)) with
              | part :: parts => String "=" part :: parts
              | [] => [String "=" EmptyString]
              end
            with
            | part :: parts => String "t" part :: parts
            | [] => [String "t" EmptyString]
            end).
    rewrite (split_app _ _ _ Hts), split_no_sep; [reflexivity|].
    simpl. exact Hhx. }
  rewrite Hsplit. reflexivity.
Qed.

End SignatureHeader.

(** ** Webhook signatures *)

Section WebhookSignatures.

Implicit Types (payload secret hx : string) (now t max_age : Z).

(** Verifying a header of the generated shape comes down to the age test
    and the digest comparison. *)
Lemma verify_generated_header now payload secret t hx max_age :
  hx <> "" -> contains "," hx = false ->
  verify_webhook_signature now payload
    ("t=" ++ py_str t ++ ",v1=" ++ hx) secret max_age
  = if bool_decide (max_age < Z.abs (now - t)) then inr false
    else compare_digest hx
           (hmac_sha256_hexdigest (encode secret)
              (encode (py_str t ++ "." ++ payload))).
Proof.
  intros Hhx Hcomma. destruct (py_str_shape t) as [Hts Htc].
  unfold verify_webhook_signature.
  rewrite bool_decide_eq_false_2 by discriminate.
  rewrite (parse_signature_generated _ _ Htc Hcomma).
  rewrite lookup_insert_eq.
  rewrite lookup_insert_ne, lookup_insert_eq by discriminate.
  unfold truthy.
  rewrite (bool_decide_eq_false_2 _ Hts), (bool_decide_eq_false_2 _ Hhx).
  cbn [negb orb].
  change (default "" (Some (py_str t))) with (py_str t).
  change (default "" (Some hx)) with hx.
  now rewrite py_int_py_str.
Qed.

(** The text of a digest: never empty, ASCII, free of commas. *)
Lemma hexdigest_text key msg :
  hmac_sha256_hexdigest key msg <> ""
  /\ is_ascii (hmac_sha256_hexdigest key msg) = true
  /\ contains "," (hmac_sha256_hexdigest key msg) = false.
Proof.
  split; [apply hexdigest_nonempty|].
  unfold hmac_sha256_hexdigest. apply hex_text, hex_is_hex.
Qed.

(** What [verify_webhook_signature] makes of a generated signature, for
    any payload and secret it is checked against. *)
Lemma verify_generated now time_gen payload payload' secret secret'
    timestamp max_age :
  let t := default time_gen timestamp in
  verify_webhook_signature now payload'
    (generate_webhook_signature time_gen payload secret timestamp)
    secret' max_age
  = if bool_decide (max_age < Z.abs (now - t)) then inr false
    else inr (bool_decide
                (hmac_sha256_hexdigest (encode secret)
                   (encode (py_str t ++ "." ++ payload))
                 = hmac_sha256_hexdigest (encode secret')
                     (encode (py_str t ++ "." ++ payload')))).
Proof.
  intros t. unfold generate_webhook_signature. fold t.
  destruct (hexdigest_text (encode secret)
              (encode (py_str t ++ "." ++ payload))) as (Hne & Hascii & Hcomma).
  destruct (hexdigest_text (encode secret')
              (encode (py_str t ++ "." ++ payload'))) as (_ & Hascii' & _).
  rewrite (verify_generated_header _ _ _ _ _ _ Hne Hcomma).
  unfold compare_digest. now rewrite Hascii, Hascii'.
Qed.

Lemma contains_cons (c a : ascii) (s : string) :
  contains c (String a s) = bool_decide (a = c) || contains c s.
Proof. reflexivity. Qed.

(** No piece of a text holds a character the text does not hold. *)
Lemma split_keeps_absent (c sep : ascii) (s : string) :
  contains c s = false ->
  Forall (fun part => contains c part = false) (split sep s).
Proof.
  induction s as [|a s IH]; intros Hc.
  - now repeat constructor.
  - rewrite contains_cons in Hc. apply orb_false_iff in Hc as [Ha Hs].
    specialize (IH Hs). cbn [split].
    destruct (bool_decide (a = sep)).
    + now constructor.
    + destruct (split sep s) as [|part parts].
      * repeat constructor. now rewrite contains_cons, Ha.
      * apply Forall_cons in IH as [Hp Hps]. constructor; [|exact Hps].
        now rewrite contains_cons, Ha, Hp.
Qed.

(** Pieces without ["="] add nothing to [parts]. *)
Lemma parse_signature_no_equals (signature : string) :
  contains "=" signature = false -> parse_signature signature = ∅.
Proof.
  intros Hc. unfold parse_signature.
  pose proof (split_keeps_absent "=" "," signature Hc) as Hall.
  induction Hall as [|part parts Hp _ IH]; [reflexivity|].
  cbn [foldl]. now rewrite Hp.
Qed.

(** X1: a signature made by [generate_webhook_signature] for a payload and
    a secret is accepted by [verify_webhook_signature] for the same payload
    and secret whenever the clock is at most [max_age] seconds away from
    the signed timestamp, on either side. *)
Theorem generated_signature_verifies
    (now time_gen : Z) (payload secret : string) (timestamp : option Z)
    (max_age : Z) :
  Z.abs (now - default time_gen timestamp) <= max_age ->
  verify_webhook_signature now payload
    (generate_webhook_signature time_gen payload secret timestamp)
    secret max_age = inr true.
Proof.
  intros Hage. rewrite verify_generated.
  rewrite bool_decide_eq_false_2 by lia.
  now rewrite bool_decide_eq_true_2.
Qed.

Lemma generated_signature_verifies_witness :
  Z.abs (1700000100 - default 0 (Some 1700000000)) <= default_max_age
  /\ verify_webhook_signature 1700000100 "job.completed"
       (generate_webhook_signature 0 "job.completed" "whsec_1"
          (Some 1700000000))
       "whsec_1" default_max_age = inr true.
Proof.
  split; [simpl; unfold default_max_age; lia|].
  apply generated_signature_verifies. simpl. unfold default_max_age. lia.
Defined.

(** X2: a generated signature is refused, with [False] and whatever the
    payload and the secret, once the clock is more than [max_age] seconds
    away from the signed timestamp: too old, or dated in the future. *)
Theorem generated_signature_expires
    (now time_gen : Z) (payload payload' secret secret' : string)
    (timestamp : option Z) (max_age : Z) :
  max_age < Z.abs (now - default time_gen timestamp) ->
  verify_webhook_signature now payload'
    (generate_webhook_signature time_gen payload secret timestamp)
    secret' max_age = inr false.
Proof.
  intros Hage. rewrite verify_generated.
  now rewrite bool_decide_eq_true_2.
Qed.

Lemma generated_signature_expires_witness :
  default_max_age < Z.abs (1700000000 - default 1700000301 None)
  /\ verify_webhook_signature 1700000000 "job.completed"
       (generate_webhook_signature 1700000301 "job.completed" "whsec_1" None)
       "whsec_1" default_max_age = inr false.
Proof.
  split; [simpl; unfold default_max_age; lia|].
  apply generated_signature_expires. simpl. unfold default_max_age. lia.
Defined.

(** X3: a generated signature checked against another payload or another
    secret is refused with [False], and no exception, whenever the
    HMAC-SHA256 digests of the two signed texts differ. *)
Theorem generated_signature_binds_message
    (now time_gen : Z) (payload payload' secret secret' : string)
    (timestamp : option Z) (max_age : Z) :
  hmac_sha256_hexdigest (encode secret)
    (encode (py_str (default time_gen timestamp) ++ "." ++ payload))
  <> hmac_sha256_hexdigest (encode secret')
       (encode (py_str (default time_gen timestamp) ++ "." ++ payload')) ->
  verify_webhook_signature now payload'
    (generate_webhook_signature time_gen payload secret timestamp)
    secret' max_age = inr false.
Proof.
  intros Hdiff. rewrite verify_generated.
  rewrite (bool_decide_eq_false_2 _ Hdiff).
  now destruct (bool_decide _).
Qed.

Lemma generated_signature_binds_message_witness :
  hmac_sha256_hexdigest (encode "whsec_1")
    (encode (py_str (default 0 (Some 1700000000)) ++ "." ++ "job.completed"))
  <> hmac_sha256_hexdigest (encode "whsec_1")
       (encode (py_str (default 0 (Some 1700000000)) ++ "." ++ "job.complete_"))
  /\ verify_webhook_signature 1700000000 "job.complete_"
       (generate_webhook_signature 0 "job.completed" "whsec_1"
          (Some 1700000000))
       "whsec_1" default_max_age = inr false.
Proof.
  assert (Hdiff :
    hmac_sha256_hexdigest (encode "whsec_1")
      (encode (py_str (default 0 (Some 1700000000)) ++ "." ++ "job.completed"))
    <> hmac_sha256_hexdigest (encode "whsec_1")
         (encode (py_str (default 0 (Some 1700000000)) ++ "." ++ "job.complete_"))).
  { vm_compute. discriminate. }
  split; [exact Hdiff|].
  apply generated_signature_binds_message. exact Hdiff.
Defined.

(** X4: a header with no ["="] in it, the empty header included, is
    refused with [False] for every payload, secret, clock and [max_age]. *)
Theorem signature_without_equals_rejected
    (now : Z) (payload signature secret : string) (max_age : Z) :
  contains "=" signature = false ->
  verify_webhook_signature now payload signature secret max_age = inr false.
Proof.
  intros Hc. unfold verify_webhook_signature.
  destruct (bool_decide (signature = "")); [reflexivity|].
  now rewrite (parse_signature_no_equals _ Hc).
Qed.

Lemma signature_without_equals_rejected_witness :
  contains "=" "sha256:0a1b2c,1700000000" = false
  /\ verify_webhook_signature 1700000000 "job.completed"
       "sha256:0a1b2c,1700000000" "whsec_1" default_max_age = inr false.
Proof.
  split; [reflexivity|].
  apply signature_without_equals_rejected. reflexivity.
Defined.

(** X5: a header of the right shape and age whose [v1] value holds a
    non-ASCII character is not refused with [False]: the comparison raises
    [TypeError]. *)
Theorem non_ascii_hash_raises
    (now : Z) (payload secret : string) (t : Z) (hx : string) (max_age : Z) :
  contains "," hx = false ->
  is_ascii hx = false ->
  Z.abs (now - t) <= max_age ->
  verify_webhook_signature now payload
    ("t=" ++ py_str t ++ ",v1=" ++ hx) secret max_age
  = inl (TypeError
           "comparing strings with non-ASCII characters is not supported").
Proof.
  intros Hcomma Hascii Hage.
  assert (Hne : hx <> "") by (intros ->; discriminate Hascii).
  rewrite (verify_generated_header _ _ _ _ _ _ Hne Hcomma).
  rewrite bool_decide_eq_false_2 by lia.
  unfold compare_digest. now rewrite Hascii.
Qed.

Lemma non_ascii_hash_raises_witness :
  contains "," (String "195" (String "169" "")) = false
  /\ is_ascii (String "195" (String "169" "")) = false
  /\ Z.abs (1700000000 - 1700000000) <= default_max_age
  /\ verify_webhook_signature 1700000000 "job.completed"
       ("t=" ++ py_str 1700000000 ++ ",v1=" ++ String "195" (String "169" ""))
       "whsec_1" default_max_age
     = inl (TypeError
              "comparing strings with non-ASCII characters is not supported").
Proof.
  split; [reflexivity|]. split; [reflexivity|].
  split; [unfold default_max_age; simpl; lia|].
  apply non_ascii_hash_raises; [reflexivity|reflexivity|].
  unfold default_max_age. simpl. lia.
Defined.

(** X6: a header whose [t] value is not an integer literal is refused with
    [False]; the [ValueError] of [int] does not escape. *)
Theorem non_integer_timestamp_rejected
    (now : Z) (payload secret ts hx : string) (max_age : Z) :
  contains "," ts = false -> contains "," hx = false ->
  is_ascii ts = true -> py_int ts = None ->
  verify_webhook_signature now payload
    ("t=" ++ ts ++ ",v1=" ++ hx) secret max_age = inr false.
Proof.
  intros Hts Hhx _ Hint. unfold verify_webhook_signature.
  rewrite bool_decide_eq_false_2 by discriminate.
  rewrite (parse_signature_generated _ _ Hts Hhx).
  rewrite lookup_insert_eq.
  rewrite lookup_insert_ne, lookup_insert_eq by discriminate.
  change (default "" (Some ts)) with ts. rewrite Hint.
  now destruct (negb _ || negb _).
Qed.

Lemma non_integer_timestamp_rejected_witness :
  contains "," "17e8" = false /\ contains "," "0a1b2c" = false
  /\ is_ascii "17e8" = true /\ py_int "17e8" = None
  /\ verify_webhook_signature 1700000000 "job.completed"
       ("t=" ++ "17e8" ++ ",v1=" ++ "0a1b2c") "whsec_1" default_max_age
     = inr false.
Proof.
  repeat (split; [reflexivity|]).
  now apply non_integer_timestamp_rejected.
Defined.

End WebhookSignatures.

(** ** The rate limiter across keys and windows *)

Section RateLimiterWindows.

Implicit Types (settings : Settings) (auth : AuthContext.t)
  (table : gmap string RateLimitWindow) (now q : Z) (times : list Z).

(** A call writes the caller's window and no other. *)
Lemma check_rate_limit_frame settings now auth table k :
  k <> AuthContext.key_id auth ->
  (check_rate_limit settings now auth table).2 !! k = table !! k.
Proof.
  intros Hk. unfold check_rate_limit.
  destruct (table !! AuthContext.key_id auth) as [window|];
    repeat case_bool_decide; simpl;
    rewrite ?lookup_insert_ne by congruence; reflexivity.
Qed.

Lemma check_many_frame settings auth times :
  forall table k,
    k <> AuthContext.key_id auth ->
    (check_many settings auth times table).2 !! k = table !! k.
Proof.
  induction times as [|now times IH]; intros table k Hk; [reflexivity|].
  simpl.
  pose proof (check_rate_limit_frame settings now auth table k Hk) as Hstep.
  destruct (check_rate_limit settings now auth table) as [r table1].
  specialize (IH table1 k Hk).
  destruct (check_many settings auth times table1) as [rs table2].
  simpl in *. congruence.
Qed.

(** The answer to a call depends on the caller's window alone. *)
Lemma check_rate_limit_local settings now auth table1 table2 :
  table1 !! AuthContext.key_id auth = table2 !! AuthContext.key_id auth ->
  (check_rate_limit settings now auth table1).1
  = (check_rate_limit settings now auth table2).1.
Proof.
  intros Heq. unfold check_rate_limit.
  destruct (table1 !! AuthContext.key_id auth) as [window|] eqn:H1;
    rewrite <- Heq.
  - destruct (bool_decide (window_start window ≠ now / 60 * 60)).
    + rewrite !lookup_insert_eq. simpl. now case_bool_decide.
    + rewrite <- Heq, H1. simpl. now case_bool_decide.
  - rewrite !lookup_insert_eq. simpl. now case_bool_decide.
Qed.

(** X7: the limiter keeps one budget per API key. Whatever another key
    does, however many calls and at whatever times, the answer a key gets
    is the one it would have got without them. *)
Theorem check_rate_limit_per_key settings settings' now (a b : AuthContext.t)
    times table :
  AuthContext.key_id a <> AuthContext.key_id b ->
  (check_rate_limit settings now b
     (check_many settings' a times table).2).1
  = (check_rate_limit settings now b table).1.
Proof.
  intros Hne. apply check_rate_limit_local.
  apply check_many_frame. congruence.
Qed.

Lemma check_rate_limit_per_key_witness :
  AuthContext.key_id (auth_of "user_1" "key_1")
  <> AuthContext.key_id (auth_of "user_1" "key_2")
  /\ (check_rate_limit default_settings 1700000050
        (auth_of "user_1" "key_2")
        (check_many default_settings (auth_of "user_1" "key_1")
           (replicate 25 1700000045) ∅).2).1
     = (check_rate_limit default_settings 1700000050
          (auth_of "user_1" "key_2") ∅).1.
Proof.
  split; [discriminate|].
  apply check_rate_limit_per_key. discriminate.
Defined.

(** After a call the caller's window is the minute of that call. *)
Lemma check_rate_limit_window_start settings now auth table :
  exists window,
    (check_rate_limit settings now auth table).2 !! AuthContext.key_id auth
    = Some window
    /\ window_start window = now / 60 * 60.
Proof.
  unfold check_rate_limit.
  destruct (table !! AuthContext.key_id auth) as [window|] eqn:Hk.
  - destruct (decide (window_start window = now / 60 * 60)) as [Heq|Hne].
    + rewrite (bool_decide_eq_false_2 (window_start window ≠ now / 60 * 60))
        by (intros H; now apply H).
      rewrite Hk. simpl.
      case_bool_decide; simpl; rewrite lookup_insert_eq; eauto.
    + rewrite (bool_decide_eq_true_2 (window_start window ≠ now / 60 * 60))
        by done.
      rewrite lookup_insert_eq. simpl.
      case_bool_decide; simpl; rewrite lookup_insert_eq; eauto.
  - rewrite lookup_insert_eq. simpl.
    case_bool_decide; simpl; rewrite lookup_insert_eq; eauto.
Qed.

Lemma check_many_window_start settings auth q times :
  forall table,
    times <> [] -> Forall (fun t => t / 60 = q) times ->
    exists window,
      (check_many settings auth times table).2 !! AuthContext.key_id auth
      = Some window
      /\ window_start window = q * 60.
Proof.
  induction times as [|t times IH]; intros table Hne Hall; [done|].
  apply Forall_cons in Hall as [Ht Hrest]. simpl.
  pose proof (check_rate_limit_window_start settings t auth table) as Hstep.
  destruct (check_rate_limit settings t auth table) as [r table1].
  destruct times as [|t' times'].
  - simpl in *. now rewrite <- Ht.
  - specialize (IH table1 ltac:(discriminate) Hrest).
    destruct (check_many settings auth (t' :: times') table1) as [rs table2].
    exact IH.
Qed.

(** X8: a new minute starts a new budget. After any run of calls in one
    minute, refused ones included, the first call of a different minute is
    admitted with the whole limit less one remaining, provided the tier
    allows at least one call a minute. *)
Theorem check_rate_limit_new_window settings auth table q times now :
  times <> [] -> Forall (fun t => t / 60 = q) times ->
  now / 60 <> q ->
  1 <= get_rate_limit_for_tier settings (AuthContext.tier auth) ->
  (check_rate_limit settings now auth
     (check_many settings auth times table).2).1
  = inr (get_rate_limit_for_tier settings (AuthContext.tier auth),
         get_rate_limit_for_tier settings (AuthContext.tier auth) - 1,
         now / 60 * 60 + 60).
Proof.
  intros Hne Hall Hq Hlim.
  destruct (check_many_window_start settings auth q times table Hne Hall)
    as (window & Hw & Hstart).
  destruct (check_rate_limit_step settings auth (now / 60)
              (check_many settings auth times table).2 now eq_refl)
    as (table' & Hstep & _).
  rewrite Hstep. simpl. unfold counted. rewrite Hw.
  rewrite bool_decide_eq_false_2 by lia.
  unfold outcome. rewrite bool_decide_eq_false_2 by lia.
  repeat f_equal. lia.
Qed.

Lemma check_rate_limit_new_window_witness :
  replicate 12 1700000045 <> []
  /\ Forall (fun t => t / 60 = 28333334) (replicate 12 1700000045)
  /\ 1700000100 / 60 <> 28333334
  /\ 1 <= get_rate_limit_for_tier default_settings
            (AuthContext.tier (auth_of "user_1" "key_1"))
  /\ (check_rate_limit default_settings 1700000100 (auth_of "user_1" "key_1")
        (check_many default_settings (auth_of "user_1" "key_1")
           (replicate 12 1700000045) ∅).2).1
     = inr (get_rate_limit_for_tier default_settings
              (AuthContext.tier (auth_of "user_1" "key_1")),
            get_rate_limit_for_tier default_settings
              (AuthContext.tier (auth_of "user_1" "key_1")) - 1,
            1700000100 / 60 * 60 + 60).
Proof.
  assert (H1 : replicate 12 1700000045 <> []) by discriminate.
  assert (H2 : Forall (fun t => t / 60 = 28333334) (replicate 12 1700000045))
    by (repeat constructor).
  assert (H3 : 1700000100 / 60 <> 28333334) by (vm_compute; discriminate).
  assert (H4 : 1 <= get_rate_limit_for_tier default_settings
                      (AuthContext.tier (auth_of "user_1" "key_1")))
    by (vm_compute; discriminate).
  repeat (split; [assumption|]).
  exact (check_rate_limit_new_window default_settings
           (auth_of "user_1" "key_1") ∅ 28333334
           (replicate 12 1700000045) 1700000100 H1 H2 H3 H4).
Defined.

(** X9: a refused call is counted too, so once a key has been refused,
    every further call of the same minute is refused as well. *)
Theorem check_rate_limit_stays_refused settings auth table now e table' now' :
  check_rate_limit settings now auth table = (inl e, table') ->
  now' / 60 = now / 60 ->
  exists e' table'',
    check_rate_limit settings now' auth table' = (inl e', table'').
Proof.
  intros Hcall Hsame.
  destruct (check_rate_limit_step settings auth (now / 60) table now eq_refl)
    as (t1 & Hstep & Hc).
  rewrite Hcall in Hstep. injection Hstep as Hout <-.
  destruct (check_rate_limit_step settings auth (now / 60) table' now' Hsame)
    as (t2 & Hstep' & _).
  rewrite Hstep', Hc. unfold outcome in Hout.
  destruct (decide (get_rate_limit_for_tier settings (AuthContext.tier auth)
                    < counted (AuthContext.key_id auth) (now / 60) table + 1))
    as [Hlim|Hlim].
  - unfold outcome. rewrite bool_decide_eq_true_2 by lia. eauto.
  - rewrite (bool_decide_eq_false_2 _ Hlim) in Hout. discriminate Hout.
Qed.

Lemma check_rate_limit_stays_refused_witness :
  let auth := auth_of "user_1" "key_1" in
  let table :=
    (check_many default_settings auth (replicate 10 1700000041) ∅).2 in
  exists e' table'',
    check_rate_limit default_settings 1700000059 auth
      (check_rate_limit default_settings 1700000042 auth table).2
    = (inl e', table'').
Proof.
  intros auth table.
  destruct (check_rate_limit default_settings 1700000042 auth table)
    as [[e|r] table'] eqn:Hcall; [|vm_compute in Hcall; discriminate].
  apply (check_rate_limit_stays_refused default_settings auth table
           1700000042 e table' 1700000059 Hcall).
  reflexivity.
Defined.

(** X10: every refusal, whatever the table and the clock, names the end of
    the current minute: [reset] is the next multiple of sixty after [now],
    [retry_after] is the distance to it, between 1 and 60 seconds, and
    [remaining] is 0. *)
Theorem check_rate_limit_refusal settings now auth table e table' :
  check_rate_limit settings now auth table = (inl e, table') ->
  exists retry_after,
    e = RateLimited retry_after
          (get_rate_limit_for_tier settings (AuthContext.tier auth)) 0
          (now + retry_after)
    /\ 1 <= retry_after <= 60
    /\ (now + retry_after) mod 60 = 0.
Proof.
  intros Hcall.
  destruct (check_rate_limit_step settings auth (now / 60) table now eq_refl)
    as (t1 & Hstep & _).
  rewrite Hcall in Hstep. injection Hstep as Hout _.
  unfold outcome in Hout. case_bool_decide; [|discriminate Hout].
  injection Hout as ->.
  pose proof (Z.div_mod now 60 ltac:(lia)) as Hdm.
  pose proof (Z.mod_pos_bound now 60 ltac:(lia)) as Hb.
  exists (now / 60 * 60 + 60 - now). split; [f_equal; lia|].
  split; [lia|].
  replace (now + (now / 60 * 60 + 60 - now)) with ((now / 60 + 1) * 60) by lia.
  apply Z.mod_mul. lia.
Qed.

Lemma check_rate_limit_refusal_witness :
  let auth := auth_of "user_1" "key_1" in
  let table :=
    (check_many default_settings auth (replicate 10 1700000041) ∅).2 in
  exists retry_after,
    (check_rate_limit default_settings 1700000099 auth table).1
    = inl (RateLimited retry_after
             (get_rate_limit_for_tier default_settings (AuthContext.tier auth))
             0 (1700000099 + retry_after))
    /\ 1 <= retry_after <= 60
    /\ (1700000099 + retry_after) mod 60 = 0.
Proof.
  intros auth table.
  destruct (check_rate_limit default_settings 1700000099 auth table)
    as [[e|r] table'] eqn:Hcall; [|vm_compute in Hcall; discriminate].
  destruct (check_rate_limit_refusal default_settings 1700000099 auth table
              e table' Hcall) as (ra & -> & Hb & Hm).
  exists ra. split; [reflexivity|]. split; [exact Hb|exact Hm].
Defined.

End RateLimiterWindows.

Section RateLimitRemaining.

Implicit Types (settings : Settings) (auth : AuthContext.t)
  (table : gmap string RateLimitWindow) (now : Z).

(** X11: the [remaining] an admitted call reports is what the key can
    still spend in that minute: when it is 0 the next call of the minute is
    refused, otherwise the next call is admitted and reports one less. *)
Theorem remaining_predicts_next_call settings auth table now limit remaining
    reset table' now' :
  check_rate_limit settings now auth table
  = (inr (limit, remaining, reset), table') ->
  now' / 60 = now / 60 ->
  if bool_decide (remaining = 0)
  then (check_rate_limit settings now' auth table').1
       = inl (RateLimited (reset - now') limit 0 reset)
  else (check_rate_limit settings now' auth table').1
       = inr (limit, remaining - 1, reset).
Proof.
  intros Hcall Hsame.
  destruct (check_rate_limit_step settings auth (now / 60) table now eq_refl)
    as (t1 & Hstep & Hc).
  rewrite Hcall in Hstep. injection Hstep as Hout <-.
  destruct (check_rate_limit_step settings auth (now / 60) table' now' Hsame)
    as (t2 & Hstep' & _).
  rewrite Hstep', Hc. simpl. unfold outcome in *.
  set (c := counted (AuthContext.key_id auth) (now / 60) table) in *.
  set (lim := get_rate_limit_for_tier settings (AuthContext.tier auth)) in *.
  clearbody c lim.
  destruct (decide (lim < c + 1)) as [Hlim|Hlim].
  - rewrite (bool_decide_eq_true_2 _ Hlim) in Hout. discriminate Hout.
  - rewrite (bool_decide_eq_false_2 _ Hlim) in Hout.
    injection Hout as Hl Hr Hreset. subst limit remaining reset.
    destruct (decide (Z.max 0 (lim - (c + 1)) = 0)) as [Hrem|Hrem].
    + rewrite (bool_decide_eq_true_2 _ Hrem).
      rewrite (bool_decide_eq_true_2 (lim < c + 1 + 1)) by lia. reflexivity.
    + rewrite (bool_decide_eq_false_2 _ Hrem).
      rewrite (bool_decide_eq_false_2 (lim < c + 1 + 1)) by lia.
      simpl. repeat f_equal. lia.
Qed.

Lemma remaining_predicts_next_call_witness :
  let auth := auth_of "user_1" "key_1" in
  let table :=
    (check_many default_settings auth (replicate 9 1700000041) ∅).2 in
  let table' := (check_rate_limit default_settings 1700000042 auth table).2 in
  (check_rate_limit default_settings 1700000042 auth table).1
  = inr (10, 0, 1700000100)
  /\ (check_rate_limit default_settings 1700000050 auth table').1
     = inl (RateLimited (1700000100 - 1700000050) 10 0 1700000100).
Proof.
  intros auth table table'.
  assert (Hcall : check_rate_limit default_settings 1700000042 auth table
                  = (inr (10, 0, 1700000100), table'))
    by (vm_compute; reflexivity).
  split; [now rewrite Hcall|].
  exact (remaining_predicts_next_call default_settings auth table 1700000042
           10 0 1700000100 table' 1700000050 Hcall eq_refl).
Defined.

End RateLimitRemaining.

(** ** More on the ledger *)

Section LedgerRoundTrip.

Implicit Types (w : World) (user_id job_id reason : string) (amount : Z).

(** X12: [check_balance] and [deduct_tokens] read the balance the same
    way. When [check_balance] answers that the amount is covered, the
    deduction goes through, returns and stores the reported balance less
    the amount, which is not negative; when it answers that it is not
    covered (a missing account included), the deduction raises and writes
    nothing. *)
Theorem deduct_tokens_agrees_with_check_balance w user_id amount reason
    job_id :
  exists ok balance,
    check_balance user_id amount w = (inr (ok, balance), w)
    /\ if ok
       then exists w',
              deduct_tokens user_id amount reason job_id w
              = (inr (balance - amount), w')
              /\ 0 <= balance - amount
              /\ (UserDoc.tokens_balance <$> users w' !! user_id)
                 = Some (Some (balance - amount))
       else exists e,
              deduct_tokens user_id amount reason job_id w = (inl e, w).
Proof.
  unfold check_balance, deduct_tokens, bind, gets, raise, modify, ret.
  destruct (users w !! user_id) as [user_data|] eqn:Hu.
  - eexists _, _. split; [reflexivity|].
    set (balance := if bool_decide (get_balance user_data = 0)
                    then get_credits_available user_data
                    else get_balance user_data).
    destruct (decide (amount <= balance)) as [Hle|Hgt].
    + rewrite (bool_decide_eq_true_2 _ Hle).
      rewrite (bool_decide_eq_false_2 (balance < amount)) by lia.
      eexists. split; [reflexivity|]. split; [lia|].
      simpl. now rewrite lookup_insert_eq.
    + rewrite (bool_decide_eq_false_2 _ Hgt).
      rewrite (bool_decide_eq_true_2 (balance < amount)) by lia.
      eauto.
  - exists false, 0. split; [reflexivity|]. eauto.
Qed.

(** X13: a deduction that went through, followed by a refund of the same
    amount, puts the account back where it was, legacy accounts included:
    the refund returns the balance reported before the deduction,
    [check_balance] reports it again, [tokens.totalSpent] is back at its
    value, and the ledger has grown by one deduction and one refund record
    of that amount. *)
Theorem deduct_then_refund_restores w w1 user_id amount reason reason' job_id
    job_id' b :
  deduct_tokens user_id amount reason job_id w = (inr b, w1) ->
  exists w2 user_data user_data2,
    refund_tokens user_id amount reason' job_id' w1
    = (inr (observed_balance user_id w), w2)
    /\ b = observed_balance user_id w - amount
    /\ observed_balance user_id w2 = observed_balance user_id w
    /\ users w !! user_id = Some user_data
    /\ users w2 !! user_id = Some user_data2
    /\ default 0 (UserDoc.tokens_totalSpent user_data2)
       = default 0 (UserDoc.tokens_totalSpent user_data)
    /\ tokenTransactions w2 =
       (tokenTransactions w ++
        [(user_id, {| TxDoc.type := TxDoc.deduction; TxDoc.amount := amount;
                      TxDoc.reason := reason; TxDoc.job_id := job_id;
                      TxDoc.balance_after := b; TxDoc.source := "api" |});
         (user_id, {| TxDoc.type := TxDoc.refund; TxDoc.amount := amount;
                      TxDoc.reason := reason'; TxDoc.job_id := job_id';
                      TxDoc.balance_after := observed_balance user_id w;
                      TxDoc.source := "api" |})])%list.
Proof.
  unfold deduct_tokens, bind, gets, raise, modify, ret.
  destruct (users w !! user_id) as [user_data|] eqn:Hu; [|discriminate].
  rewrite (observed_balance_lookup _ _ _ Hu).
  set (balance := if bool_decide (get_balance user_data = 0)
                  then get_credits_available user_data
                  else get_balance user_data).
  case_bool_decide as Hlt; [discriminate|]. simpl.
  intros [= <- <-].
  set (d1 := update_balance (balance - amount) amount user_data).
  assert (Hb1 : get_balance d1 = balance - amount) by reflexivity.
  unfold refund_tokens, bind, gets, modify, ret. simpl.
  rewrite lookup_insert_eq. simpl. fold d1. rewrite Hb1.
  replace (balance - amount + amount) with balance by lia.
  set (d2 := update_balance balance (- amount) d1).
  exists (add_transaction user_id
            {| TxDoc.type := TxDoc.refund; TxDoc.amount := amount;
               TxDoc.reason := reason'; TxDoc.job_id := job_id';
               TxDoc.balance_after := balance; TxDoc.source := "api" |}
            (with_users (insert user_id d2)
               (add_transaction user_id
                  {| TxDoc.type := TxDoc.deduction; TxDoc.amount := amount;
                     TxDoc.reason := reason; TxDoc.job_id := job_id;
                     TxDoc.balance_after := balance - amount;
                     TxDoc.source := "api" |}
                  (with_users (insert user_id d1) w)))), user_data, d2.
  assert (Hu2 : forall m : gmap string UserDoc.t,
            <[user_id := d2]> m !! user_id = Some d2)
    by (intros; apply lookup_insert_eq).
  split; [reflexivity|]. split; [reflexivity|]. split.
  { erewrite observed_balance_lookup by (simpl; apply Hu2).
    change (get_balance d2) with balance.
    change (get_credits_available d2) with (get_credits_available user_data).
    case_bool_decide as Hz; [|reflexivity].
    subst balance. revert Hz. case_bool_decide; congruence. }
  split; [reflexivity|]. split; [simpl; apply Hu2|].
  split; [simpl; lia|].
  simpl. now rewrite <- app_assoc.
Qed.

Lemma deduct_then_refund_restores_witness :
  let w := legacy_world in
  exists w1 w2 b,
    deduct_tokens "user_1" 5 "api_job" "job_1" w = (inr b, w1)
    /\ refund_tokens "user_1" 5 "job_failed" "job_1" w1
       = (inr (observed_balance "user_1" w), w2)
    /\ observed_balance "user_1" w2 = observed_balance "user_1" w.
Proof.
  intros w.
  destruct (deduct_tokens "user_1" 5 "api_job" "job_1" w)
    as [[e|b] w1] eqn:Hd; [vm_compute in Hd; discriminate|].
  destruct (deduct_then_refund_restores w w1 "user_1" 5 "api_job"
              "job_failed" "job_1" "job_1" b Hd)
    as (w2 & _ & _ & Hr & _ & Hobs & _).
  exists w1, w2, b. split; [reflexivity|]. split; [exact Hr|exact Hobs].
Defined.

Lemma deduct_tokens_solvent w w' user_id amount reason job_id r :
  0 <= amount ->
  deduct_tokens user_id amount reason job_id w = (r, w') ->
  solvent w -> solvent w'.
Proof.
  intros Hpos. unfold deduct_tokens, bind, gets, raise, modify, ret.
  destruct (users w !! user_id) as [user_data|] eqn:Hu;
    [|now intros [= _ <-]].
  case_bool_decide as Hlt; [now intros [= _ <-]|].
  simpl. intros [= _ <-] Hsolv u d. simpl.
  destruct (decide (u = user_id)) as [->|Hne].
  - rewrite lookup_insert_eq. intros [= <-].
    unfold get_balance in *. simpl in *. lia.
  - rewrite lookup_insert_ne by congruence. apply Hsolv.
Qed.

Lemma refund_tokens_solvent w user_id amount reason job_id :
  0 <= amount ->
  solvent w -> solvent (refund_tokens user_id amount reason job_id w).2.
Proof.
  intros Hpos Hsolv. unfold refund_tokens, bind, gets, modify, ret.
  destruct (users w !! user_id) as [user_data|] eqn:Hu; [|exact Hsolv].
  simpl. intros u d. simpl.
  destruct (decide (u = user_id)) as [->|Hne].
  - rewrite lookup_insert_eq. intros [= <-]. unfold get_balance at 1. simpl.
    specialize (Hsolv _ _ Hu). lia.
  - rewrite lookup_insert_ne by congruence. apply Hsolv.
Qed.

(** X14: no history of deductions and refunds of non-negative amounts,
    refused deductions included, takes a stored [tokens.balance] below
    zero: if no account is in the red before, none is after. *)
Theorem balance_never_negative user_id job_id ops :
  forall acc w,
    Forall (fun op => 0 <= ledger_amount op) ops ->
    (forall u user_data,
       users w !! u = Some user_data -> 0 <= get_balance user_data) ->
    forall u user_data,
      users (run_history user_id job_id ops acc w).2 !! u = Some user_data ->
      0 <= get_balance user_data.
Proof.
  induction ops as [|[amount|amount] ops IH]; intros acc w Hall Hsolv;
    [exact Hsolv| |]; apply Forall_cons in Hall as [Hpos Hrest]; simpl.
  - destruct (deduct_tokens user_id amount "api_job" job_id w)
      as [[e|b] w1] eqn:Hd;
      apply IH; try exact Hrest;
      exact (deduct_tokens_solvent _ _ _ _ _ _ _ Hpos Hd Hsolv).
  - pose proof (refund_tokens_solvent w user_id amount "job_failed" job_id
                  Hpos Hsolv) as Hsolv'.
    destruct (refund_tokens user_id amount "job_failed" job_id w) as [r w1].
    apply IH; [exact Hrest|exact Hsolv'].
Qed.

Lemma balance_never_negative_witness :
  let w := world_with "user_1" (user_with (Some 3) (Some 7)) in
  let ops := [Deduct 2; Deduct 5; Refund 2; Deduct 3; Deduct 1] in
  exists user_data,
    users (run_history "user_1" "job_1" ops
             {| charged := 0; refunded := 0 |} w).2 !! "user_1"
    = Some user_data
    /\ 0 <= get_balance user_data.
Proof.
  intros w ops. eexists. split; [vm_compute; reflexivity|].
  refine (balance_never_negative "user_1" "job_1" ops
            {| charged := 0; refunded := 0 |} w _ _ "user_1" _ _).
  - repeat constructor; simpl; lia.
  - intros u d Hu. unfold w, world_with in Hu. simpl in Hu.
    apply lookup_singleton_Some in Hu as [_ <-]. vm_compute. discriminate.
  - vm_compute. reflexivity.
Defined.

End LedgerRoundTrip.

(** ** The pipeline when the agents answer *)

Section PipelineSuccess.

Implicit Types (w : World) (d : JobDoc.t) (job_id user_id : string)
  (results : Results.t).

Lemma http_post_ok env url json resp w :
  post env {| Http.url := url; Http.json := json |} = inr resp ->
  http_post env url json w
  = (inr resp, add_sent {| Http.url := url; Http.json := json |} w).
Proof.
  intros Hp. unfold http_post. rewrite bind_run. unfold modify.
  now rewrite Hp.
Qed.

Lemma http_post_fails env url json message w :
  post env {| Http.url := url; Http.json := json |} = inl message ->
  http_post env url json w
  = (inl (HTTPError message),
     add_sent {| Http.url := url; Http.json := json |} w).
Proof.
  intros Hp. unfold http_post. rewrite bind_run. unfold modify.
  now rewrite Hp.
Qed.

Lemma nova_stage_ok env job_id user_id options results url w d nova_data :
  api_jobs w !! job_id = Some d ->
  post env (enrich_request env job_id user_id options url) = inr nova_data ->
  exists w',
    nova_stage env job_id user_id options (results, url) w
    = (inr ({| Results.urls_original := Results.urls_original results;
               Results.urls_upscaled := Results.urls_upscaled results;
               Results.urls_final := Results.urls_final results;
               Results.golden_codex :=
                 Some (default "{}" (Http.golden_codex nova_data)) |}, url),
       w')
    /\ api_jobs w' !! job_id = Some (JobDoc.set_progress NOVA (Some COMPLETED) d)
    /\ sent w' = (sent w ++ [enrich_request env job_id user_id options url])%list.
Proof.
  intros Hd Hp. unfold nova_stage.
  rewrite bind_run, (job_update_some _ _ _ _ Hd).
  rewrite bind_run, (http_post_ok _ _ _ _ _ Hp).
  rewrite bind_run.
  erewrite job_update_some by (simpl; apply lookup_insert_eq).
  unfold ret. eexists. split; [reflexivity|]. simpl.
  now rewrite lookup_insert_eq.
Qed.

Lemma flux_stage_ok env job_id user_id options results url w d flux_data :
  api_jobs w !! job_id = Some d ->
  post env (upscale_request env job_id user_id options url) = inr flux_data ->
  exists w',
    flux_stage env job_id user_id options (results, url) w
    = (inr (if truthy (Http.upscaled_image_url flux_data) then
              ({| Results.urls_original := Results.urls_original results;
                  Results.urls_upscaled := Http.upscaled_image_url flux_data;
                  Results.urls_final := Results.urls_final results;
                  Results.golden_codex := Results.golden_codex results |},
               default "" (Http.upscaled_image_url flux_data))
            else (results, url)),
       w')
    /\ api_jobs w' !! job_id = Some (JobDoc.set_progress FLUX (Some COMPLETED) d)
    /\ sent w' = (sent w ++ [upscale_request env job_id user_id options url])%list.
Proof.
  intros Hd Hp. unfold flux_stage.
  rewrite bind_run, (job_update_some _ _ _ _ Hd).
  rewrite bind_run, (http_post_ok _ _ _ _ _ Hp).
  destruct (truthy (Http.upscaled_image_url flux_data));
    rewrite bind_run;
    (erewrite job_update_some by (simpl; apply lookup_insert_eq));
    unfold ret; (eexists; split; [reflexivity|]); simpl;
    now rewrite lookup_insert_eq.
Qed.

Lemma atlas_stage_ok env job_id user_id options results url w d atlas_data :
  api_jobs w !! job_id = Some d ->
  post env (infuse_request env job_id user_id options url
              (default "{}" (Results.golden_codex results))) = inr atlas_data ->
  exists w',
    atlas_stage env job_id user_id options (results, url) w
    = (inr (if truthy (Http.final_url atlas_data) then
              {| Results.urls_original := Results.urls_original results;
                 Results.urls_upscaled := Results.urls_upscaled results;
                 Results.urls_final := Http.final_url atlas_data;
                 Results.golden_codex := Results.golden_codex results |}
            else results, url),
       w')
    /\ api_jobs w' !! job_id = Some (JobDoc.set_progress ATLAS (Some COMPLETED) d)
    /\ sent w' =
       (sent w ++ [infuse_request env job_id user_id options url
                     (default "{}" (Results.golden_codex results))])%list.
Proof.
  intros Hd Hp. unfold atlas_stage.
  rewrite bind_run, (job_update_some _ _ _ _ Hd).
  rewrite bind_run, (http_post_ok _ _ _ _ _ Hp).
  rewrite bind_run.
  erewrite job_update_some by (simpl; apply lookup_insert_eq).
  unfold ret. eexists. split; [reflexivity|]. simpl.
  now rewrite lookup_insert_eq.
Qed.

Lemma nova_stage_fails env job_id user_id options results url w d message :
  api_jobs w !! job_id = Some d ->
  post env (enrich_request env job_id user_id options url) = inl message ->
  exists w',
    nova_stage env job_id user_id options (results, url) w
    = (inl (HTTPError message), w')
    /\ api_jobs w' !! job_id = Some (JobDoc.set_progress NOVA (Some PROCESSING) d)
    /\ sent w' = (sent w ++ [enrich_request env job_id user_id options url])%list.
Proof.
  intros Hd Hp. unfold nova_stage.
  rewrite bind_run, (job_update_some _ _ _ _ Hd).
  rewrite bind_run, (http_post_fails _ _ _ _ _ Hp).
  eexists. split; [reflexivity|]. simpl. now rewrite lookup_insert_eq.
Qed.

Lemma flux_stage_fails env job_id user_id options results url w d message :
  api_jobs w !! job_id = Some d ->
  post env (upscale_request env job_id user_id options url) = inl message ->
  exists w',
    flux_stage env job_id user_id options (results, url) w
    = (inl (HTTPError message), w')
    /\ api_jobs w' !! job_id = Some (JobDoc.set_progress FLUX (Some PROCESSING) d)
    /\ sent w' = (sent w ++ [upscale_request env job_id user_id options url])%list.
Proof.
  intros Hd Hp. unfold flux_stage.
  rewrite bind_run, (job_update_some _ _ _ _ Hd).
  rewrite bind_run, (http_post_fails _ _ _ _ _ Hp).
  eexists. split; [reflexivity|]. simpl. now rewrite lookup_insert_eq.
Qed.

Lemma atlas_stage_fails env job_id user_id options results url w d message :
  api_jobs w !! job_id = Some d ->
  post env (infuse_request env job_id user_id options url
              (default "{}" (Results.golden_codex results))) = inl message ->
  exists w',
    atlas_stage env job_id user_id options (results, url) w
    = (inl (HTTPError message), w')
    /\ api_jobs w' !! job_id = Some (JobDoc.set_progress ATLAS (Some PROCESSING) d)
    /\ sent w' =
       (sent w ++ [infuse_request env job_id user_id options url
                     (default "{}" (Results.golden_codex results))])%list.
Proof.
  intros Hd Hp. unfold atlas_stage.
  rewrite bind_run, (job_update_some _ _ _ _ Hd).
  rewrite bind_run, (http_post_fails _ _ _ _ _ Hp).
  eexists. split; [reflexivity|]. simpl. now rewrite lookup_insert_eq.
Qed.

Lemma when_requested_nova_outcome env operations job_id user_id options
    state w d :
  api_jobs w !! job_id = Some d ->
  stage_outcome env job_id operations NOVA state w d
    (when_requested NOVA operations
       (nova_stage env job_id user_id options) state w).
Proof.
  intros Hd. unfold when_requested, stage_outcome, stage_done.
  destruct state as [results url]. case_bool_decide as Hin.
  - destruct (post env (enrich_request env job_id user_id options url))
      as [message|resp] eqn:Hp.
    + right.
      destruct (nova_stage_fails env job_id user_id options results url w d
                  message Hd Hp) as (w' & -> & Hd' & Hs).
      exists (enrich_request env job_id user_id options url), message, w'.
      repeat split; auto.
    + left.
      destruct (nova_stage_ok env job_id user_id options results url w d
                  resp Hd Hp) as (w' & -> & Hd' & Hs).
      eexists _, w', [_]. split; [reflexivity|].
      repeat split; eauto. repeat constructor. eauto.
  - left. exists (results, url), w, []. unfold ret. rewrite app_nil_r.
    repeat split; eauto.
Qed.

Lemma when_requested_flux_outcome env operations job_id user_id options
    state w d :
  api_jobs w !! job_id = Some d ->
  stage_outcome env job_id operations FLUX state w d
    (when_requested FLUX operations
       (flux_stage env job_id user_id options) state w).
Proof.
  intros Hd. unfold when_requested, stage_outcome, stage_done.
  destruct state as [results url]. case_bool_decide as Hin.
  - destruct (post env (upscale_request env job_id user_id options url))
      as [message|resp] eqn:Hp.
    + right.
      destruct (flux_stage_fails env job_id user_id options results url w d
                  message Hd Hp) as (w' & -> & Hd' & Hs).
      exists (upscale_request env job_id user_id options url), message, w'.
      repeat split; auto.
    + left.
      destruct (flux_stage_ok env job_id user_id options results url w d
                  resp Hd Hp) as (w' & -> & Hd' & Hs).
      eexists _, w', [_]. split; [reflexivity|].
      split; [exact Hd'|]. split; [now destruct (truthy _)|].
      repeat split; eauto. repeat constructor. eauto.
  - left. exists (results, url), w, []. unfold ret. rewrite app_nil_r.
    repeat split; eauto.
Qed.

Lemma when_requested_atlas_outcome env operations job_id user_id options
    state w d :
  api_jobs w !! job_id = Some d ->
  stage_outcome env job_id operations ATLAS state w d
    (when_requested ATLAS operations
       (atlas_stage env job_id user_id options) state w).
Proof.
  intros Hd. unfold when_requested, stage_outcome, stage_done.
  destruct state as [results url]. case_bool_decide as Hin.
  - destruct (post env (infuse_request env job_id user_id options url
                          (default "{}" (Results.golden_codex results))))
      as [message|resp] eqn:Hp.
    + right.
      destruct (atlas_stage_fails env job_id user_id options results url w d
                  message Hd Hp) as (w' & -> & Hd' & Hs).
      exists (infuse_request env job_id user_id options url
                (default "{}" (Results.golden_codex results))), message, w'.
      repeat split; auto.
    + left.
      destruct (atlas_stage_ok env job_id user_id options results url w d
                  resp Hd Hp) as (w' & -> & Hd' & Hs).
      eexists _, w', [_]. split; [reflexivity|].
      split; [exact Hd'|]. split; [now destruct (truthy _)|].
      repeat split; eauto. repeat constructor. eauto.
  - left. exists (results, url), w, []. unfold ret. rewrite app_nil_r.
    repeat split; eauto.
Qed.

Lemma stage_done_webhook_url operations op d :
  JobDoc.webhook_url (stage_done operations op d) = JobDoc.webhook_url d.
Proof. unfold stage_done. now case_bool_decide. Qed.

Lemma stages_requested (operations : list Operation) :
  length (filter (fun op => op ∈ operations) stages)
  = ((if bool_decide (NOVA ∈ operations) then 1 else 0)
     + ((if bool_decide (FLUX ∈ operations) then 1 else 0)
        + (if bool_decide (ATLAS ∈ operations) then 1 else 0)))%nat.
Proof.
  unfold stages. rewrite !filter_cons, filter_nil.
  repeat case_decide; repeat case_bool_decide; try contradiction;
    reflexivity.
Qed.

(** The [try] body on a stored job ends in one of the two ways of
    [body_outcome]. *)
Lemma pipeline_body_outcome env w job_id image_url operations options
    user_id d :
  api_jobs w !! job_id = Some d ->
  body_outcome env job_id image_url operations w d
    (pipeline_body env job_id image_url operations options user_id w).
Proof.
  intros Hd. unfold pipeline_body, body_outcome.
  set (state0 := ({| Results.urls_original := image_url;
                     Results.urls_upscaled := None;
                     Results.urls_final := None;
                     Results.golden_codex := None |}, image_url)).
  rewrite bind_run.
  destruct (when_requested_nova_outcome env operations job_id user_id options
              state0 w d Hd)
    as [(s1 & w1 & reqs1 & -> & Hd1 & Ho1 & Hs1 & Ha1 & Hl1)
       |(r & m & w1 & -> & Hag & Hp & _ & _ & Hs)];
    [|right; exists w1, [], r, m; now repeat split].
  rewrite bind_run.
  destruct (when_requested_flux_outcome env operations job_id user_id options
              s1 w1 _ Hd1)
    as [(s2 & w2 & reqs2 & -> & Hd2 & Ho2 & Hs2 & Ha2 & Hl2)
       |(r & m & w2 & -> & Hag & Hp & _ & _ & Hs)];
    [|right; exists w2, reqs1, r, m; rewrite Hs, Hs1, <- app_assoc;
      now repeat split].
  rewrite bind_run.
  destruct (when_requested_atlas_outcome env operations job_id user_id options
              s2 w2 _ Hd2)
    as [(s3 & w3 & reqs3 & -> & Hd3 & Ho3 & Hs3 & Ha3 & Hl3)
       |(r & m & w3 & -> & Hag & Hp & _ & _ & Hs)];
    [|right; exists w3, (reqs1 ++ reqs2)%list, r, m;
      rewrite Hs, Hs2, Hs1, <- !app_assoc;
      repeat split; try done; now apply Forall_app].
  left.
  rewrite bind_run, (job_update_some _ _ _ _ Hd3).
  fold (completed_job env s3.1
          (stage_done operations ATLAS
             (stage_done operations FLUX (stage_done operations NOVA d)))).
  set (d' := completed_job env s3.1 _).
  set (w4 := with_api_jobs _ w3).
  assert (Hd4 : api_jobs w4 !! job_id = Some d')
    by (simpl; apply lookup_insert_eq).
  rewrite bind_run, (job_get_dict_some _ _ _ Hd4).
  assert (Hhook : JobDoc.webhook_url d' = JobDoc.webhook_url d).
  { subst d'. unfold completed_job. simpl.
    now rewrite !stage_done_webhook_url. }
  assert (Hsent : sent w4 = (sent w ++ reqs1 ++ reqs2 ++ reqs3)%list).
  { simpl. rewrite Hs3, Hs2, Hs1, <- !app_assoc. reflexivity. }
  assert (Hall : Forall (answered env) (reqs1 ++ reqs2 ++ reqs3)).
  { repeat apply Forall_app_2; assumption. }
  assert (Hlen : length (reqs1 ++ reqs2 ++ reqs3)
                 = length (filter (fun op => op ∈ operations) stages)).
  { rewrite !length_app, Hl1, Hl2, Hl3. symmetry. apply stages_requested. }
  assert (Horig : Results.urls_original s3.1 = image_url).
  { rewrite Ho3, Ho2, Ho1. reflexivity. }
  rewrite <- Hhook.
  destruct (truthy (JobDoc.webhook_url d')) eqn:Ht.
  - rewrite trigger_webhook_sends by exact Ht.
    exists (add_sent (webhook_request env job_id "job.completed" d') w4),
      s3.1, (reqs1 ++ reqs2 ++ reqs3)%list.
    split; [reflexivity|]. split; [exact Hd4|]. split; [exact Horig|].
    split; [|split; assumption].
    unfold add_sent. cbn [sent]. rewrite Hsent, <- !app_assoc. reflexivity.
  - exists w4, s3.1, (reqs1 ++ reqs2 ++ reqs3)%list.
    split; [reflexivity|]. split; [exact Hd4|]. split; [exact Horig|].
    split; [|split; assumption].
    rewrite Hsent, <- !app_assoc, app_nil_r. reflexivity.
Qed.

Lemma trigger_pipeline_run env w job_id image_url operations options
    user_id d r w2 :
  api_jobs w !! job_id = Some d ->
  pipeline_body env job_id image_url operations options user_id
    (with_api_jobs (insert job_id (started_job env d)) w) = (inr r, w2) ->
  trigger_pipeline env job_id image_url operations options user_id w
  = (inr r, w2).
Proof.
  intros Hd Hbody. unfold trigger_pipeline.
  rewrite bind_run, (job_update_some _ _ _ _ Hd).
  fold (started_job env d). unfold try_except. now rewrite Hbody.
Qed.

Lemma stage_done_progress operations d op :
  JobDoc.progress op
    (stage_done operations ATLAS
       (stage_done operations FLUX (stage_done operations NOVA d)))
  = if bool_decide (op ∈ operations) then Some COMPLETED
    else JobDoc.progress op d.
Proof.
  unfold stage_done.
  destruct op; repeat case_bool_decide; try contradiction; reflexivity.
Qed.

(** X15: when every agent answers, the pipeline of a stored job ends well.
    [trigger_pipeline] returns; the job is [COMPLETED] with its start and
    completion times and its results, whose [urls.original] is the
    submitted image; every requested stage is marked [completed] and the
    others keep their entry; nothing is refunded and no account or ledger
    record changes; each requested stage was called exactly once, however
    often it is listed; and a configured webhook receives [job.completed]
    as the last request. *)
Theorem trigger_pipeline_completes env w job_id image_url operations options
    user_id d :
  agents_answer env ->
  api_jobs w !! job_id = Some d ->
  exists w' d' results reqs,
    trigger_pipeline env job_id image_url operations options user_id w
    = (inr tt, w')
    /\ api_jobs w' !! job_id = Some d'
    /\ JobDoc.status d' = COMPLETED
    /\ JobDoc.started_at d' = Some (utcnow env)
    /\ JobDoc.completed_at d' = Some (utcnow env)
    /\ JobDoc.error d' = JobDoc.error d
    /\ JobDoc.cost_charged d' = JobDoc.cost_charged d
    /\ JobDoc.cost_refunded d' = JobDoc.cost_refunded d
    /\ (forall op,
          JobDoc.progress op d'
          = if bool_decide (op ∈ operations) then Some COMPLETED
            else JobDoc.progress op d)
    /\ JobDoc.results d' = Some results
    /\ Results.urls_original results = image_url
    /\ users w' = users w
    /\ tokenTransactions w' = tokenTransactions w
    /\ sent w' =
       (sent w ++ reqs ++
        if truthy (JobDoc.webhook_url d)
        then [webhook_request env job_id "job.completed" d']
        else [])%list
    /\ Forall (answered env) reqs
    /\ length reqs = length (filter (fun op => op ∈ operations) stages).
Proof.
  intros Hans Hd.
  set (w1 := with_api_jobs (insert job_id (started_job env d)) w).
  assert (Hd1 : api_jobs w1 !! job_id = Some (started_job env d))
    by (simpl; apply lookup_insert_eq).
  destruct (pipeline_body_outcome env w1 job_id image_url operations options
              user_id _ Hd1)
    as [(w' & results & reqs & Hbody & Hd' & Horig & Hsent & Hall & Hlen)
       |(w' & reqs & r & m & _ & Hag & Hp & _)].
  - pose proof (keeps_pipeline_body job_id env image_url operations options
                  user_id _ _ _ Hbody) as (Hu & Ht & _ & _).
    exists w'. eexists. exists results, reqs.
    split; [exact (trigger_pipeline_run _ _ _ _ _ _ _ _ _ _ Hd Hbody)|].
    split; [exact Hd'|].
    do 6 (split; [unfold completed_job, stage_done;
                  repeat case_bool_decide; reflexivity|]).
    split.
    { intros op.
      transitivity (JobDoc.progress op
                      (stage_done operations ATLAS
                         (stage_done operations FLUX
                            (stage_done operations NOVA (started_job env d)))));
        [now destruct op|].
      rewrite stage_done_progress. now destruct op. }
    split; [reflexivity|]. split; [exact Horig|].
    split; [exact Hu|]. split; [exact Ht|].
    split; [exact Hsent|]. split; assumption.
  - destruct (Hans r Hag) as [resp Hresp]. congruence.
Qed.

Lemma trigger_pipeline_completes_witness :
  let w :=
    with_api_jobs (insert "job_1" (pending_job "job_1" "user_1" 4))
      (world_with "user_1" (user_with (Some 6) None)) in
  let env := env_at 1700000100 "job_2" network_up in
  exists w' d',
    trigger_pipeline env "job_1" "https://img.example/a.png"
      [ATLAS; NOVA; ATLAS] None "user_1" w = (inr tt, w')
    /\ api_jobs w' !! "job_1" = Some d'
    /\ JobDoc.status d' = COMPLETED
    /\ JobDoc.progress FLUX d' = Some PENDING
    /\ length (sent w') = 3%nat.
Proof.
  intros w env.
  assert (Hans : agents_answer env) by (intros r _; eexists; reflexivity).
  destruct (trigger_pipeline_completes env w "job_1"
              "https://img.example/a.png" [ATLAS; NOVA; ATLAS] None "user_1"
              (pending_job "job_1" "user_1" 4) Hans eq_refl)
    as (w' & d' & results & reqs & Hrun & Hd' & Hst & _ & _ & _ & _ & _
        & Hprog & _ & _ & _ & _ & Hsent & _ & Hlen).
  exists w', d'. split; [exact Hrun|]. split; [exact Hd'|].
  split; [exact Hst|]. split; [rewrite Hprog; reflexivity|].
  rewrite Hsent, !length_app, Hlen. reflexivity.
Defined.

(** X16: how the stages feed one another when all three are requested and
    answer. The enrichment and the upscaling agents both get the submitted
    image; the infusion agent gets the upscaled image when the upscaler
    named one (the submitted image otherwise) together with the metadata
    the enrichment agent returned; the stored results hold those same
    values; and the requests go out in that order, the [job.completed]
    webhook last. *)
Theorem trigger_pipeline_data_flow env w job_id image_url operations options
    user_id d nova_data flux_data atlas_data :
  let codex := default "{}" (Http.golden_codex nova_data) in
  let upscaled := Http.upscaled_image_url flux_data in
  let url := if truthy upscaled then default "" upscaled else image_url in
  api_jobs w !! job_id = Some d ->
  NOVA ∈ operations -> FLUX ∈ operations -> ATLAS ∈ operations ->
  post env (enrich_request env job_id user_id options image_url)
  = inr nova_data ->
  post env (upscale_request env job_id user_id options image_url)
  = inr flux_data ->
  post env (infuse_request env job_id user_id options url codex)
  = inr atlas_data ->
  exists w' d',
    trigger_pipeline env job_id image_url operations options user_id w
    = (inr tt, w')
    /\ api_jobs w' !! job_id = Some d'
    /\ JobDoc.status d' = COMPLETED
    /\ JobDoc.results d' =
       Some {| Results.urls_original := image_url;
               Results.urls_upscaled :=
                 if truthy upscaled then upscaled else None;
               Results.urls_final :=
                 if truthy (Http.final_url atlas_data)
                 then Http.final_url atlas_data else None;
               Results.golden_codex := Some codex |}
    /\ sent w' =
       (sent w ++
        [enrich_request env job_id user_id options image_url;
         upscale_request env job_id user_id options image_url;
         infuse_request env job_id user_id options url codex] ++
        if truthy (JobDoc.webhook_url d)
        then [webhook_request env job_id "job.completed" d']
        else [])%list.
Proof.
  intros codex upscaled url Hd Hn Hf Ha Hnova Hflux Hatlas.
  set (w1 := with_api_jobs (insert job_id (started_job env d)) w).
  assert (Hd1 : api_jobs w1 !! job_id = Some (started_job env d))
    by (simpl; apply lookup_insert_eq).
  assert (Hbody : exists w' d',
    pipeline_body env job_id image_url operations options user_id w1
    = (inr tt, w')
    /\ api_jobs w' !! job_id = Some d'
    /\ JobDoc.status d' = COMPLETED
    /\ JobDoc.results d' =
       Some {| Results.urls_original := image_url;
               Results.urls_upscaled :=
                 if truthy upscaled then upscaled else None;
               Results.urls_final :=
                 if truthy (Http.final_url atlas_data)
                 then Http.final_url atlas_data else None;
               Results.golden_codex := Some codex |}
    /\ sent w' =
       (sent w ++
        [enrich_request env job_id user_id options image_url;
         upscale_request env job_id user_id options image_url;
         infuse_request env job_id user_id options url codex] ++
        if truthy (JobDoc.webhook_url d)
        then [webhook_request env job_id "job.completed" d']
        else [])%list).
  { unfold pipeline_body, when_requested.
    rewrite (bool_decide_eq_true_2 _ Hn), (bool_decide_eq_true_2 _ Hf),
      (bool_decide_eq_true_2 _ Ha).
    destruct (nova_stage_ok env job_id user_id options
                {| Results.urls_original := image_url;
                   Results.urls_upscaled := None;
                   Results.urls_final := None;
                   Results.golden_codex := None |}
                image_url w1 _ nova_data Hd1 Hnova)
      as (w2 & Hrun2 & Hd2 & Hs2).
    cbn [Results.urls_original Results.urls_upscaled Results.urls_final
         Results.golden_codex] in Hrun2.
    fold codex in Hrun2. rewrite bind_run, Hrun2.
    destruct (flux_stage_ok env job_id user_id options
                {| Results.urls_original := image_url;
                   Results.urls_upscaled := None;
                   Results.urls_final := None;
                   Results.golden_codex := Some codex |}
                image_url w2 _ flux_data Hd2 Hflux)
      as (w3 & Hrun3 & Hd3 & Hs3).
    cbn [Results.urls_original Results.urls_upscaled Results.urls_final
         Results.golden_codex] in Hrun3.
    fold upscaled in Hrun3.
    assert (Hstate :
      (if truthy upscaled
       then ({| Results.urls_original := image_url;
                Results.urls_upscaled := upscaled;
                Results.urls_final := None;
                Results.golden_codex := Some codex |},
             default "" upscaled)
       else ({| Results.urls_original := image_url;
                Results.urls_upscaled := None;
                Results.urls_final := None;
                Results.golden_codex := Some codex |}, image_url))
      = ({| Results.urls_original := image_url;
            Results.urls_upscaled := if truthy upscaled then upscaled else None;
            Results.urls_final := None;
            Results.golden_codex := Some codex |}, url)).
    { subst url. now destruct (truthy upscaled). }
    rewrite Hstate in Hrun3. rewrite bind_run, Hrun3.
    destruct (atlas_stage_ok env job_id user_id options
                {| Results.urls_original := image_url;
                   Results.urls_upscaled :=
                     if truthy upscaled then upscaled else None;
                   Results.urls_final := None;
                   Results.golden_codex := Some codex |}
                url w3 _ atlas_data Hd3 Hatlas)
      as (w4 & Hrun4 & Hd4 & Hs4).
    cbn [Results.urls_original Results.urls_upscaled Results.urls_final
         Results.golden_codex] in Hrun4.
    rewrite bind_run, Hrun4.
    rewrite bind_run, (job_update_some _ _ _ _ Hd4).
    set (w5 := with_api_jobs _ w4).
    rewrite bind_run.
    erewrite job_get_dict_some by (simpl; apply lookup_insert_eq).
    cbn [JobDoc.webhook_url JobDoc.set_completed_at JobDoc.set_results
         JobDoc.set_status JobDoc.set_progress started_job
         JobDoc.set_started_at].
    assert (Hsent : sent w5 =
      (sent w ++
       [enrich_request env job_id user_id options image_url;
        upscale_request env job_id user_id options image_url;
        infuse_request env job_id user_id options url codex])%list).
    { simpl. rewrite Hs4, Hs3, Hs2. simpl. now rewrite <- !app_assoc. }
    destruct (truthy (JobDoc.webhook_url d)) eqn:Ht.
    - rewrite trigger_webhook_sends by exact Ht.
      eexists _, _. split; [reflexivity|].
      split; [simpl; apply lookup_insert_eq|].
      split; [reflexivity|]. split.
      + simpl. now destruct (truthy (Http.final_url atlas_data)).
      + unfold add_sent. cbn [sent]. rewrite Hsent, <- !app_assoc.
        reflexivity.
    - unfold ret. eexists _, _. split; [reflexivity|].
      split; [simpl; apply lookup_insert_eq|].
      split; [reflexivity|]. split.
      + simpl. now destruct (truthy (Http.final_url atlas_data)).
      + rewrite Hsent, app_nil_r. reflexivity. }
  destruct Hbody as (w' & d' & Hrun & Hd' & Hst & Hres & Hsent).
  exists w', d'.
  split; [exact (trigger_pipeline_run _ _ _ _ _ _ _ _ _ _ Hd Hrun)|].
  now repeat split.
Qed.

Lemma trigger_pipeline_data_flow_witness :
  let w :=
    with_api_jobs (insert "job_1" (pending_job "job_1" "user_1" 4))
      (world_with "user_1" (user_with (Some 6) None)) in
  let env := env_at 1700000100 "job_2" network_up in
  exists w' d',
    trigger_pipeline env "job_1" "https://img.example/a.png"
      [NOVA; FLUX; ATLAS] None "user_1" w = (inr tt, w')
    /\ api_jobs w' !! "job_1" = Some d'
    /\ JobDoc.status d' = COMPLETED
    /\ (Http.json <$> sent w') !! 2%nat
       = Some (Http.Infuse "https://cdn.example/up.png" "user_1" "job_1"
                 "{}" "full_gcx" "png").
Proof.
  intros w env.
  destruct (trigger_pipeline_data_flow env w "job_1"
              "https://img.example/a.png" [NOVA; FLUX; ATLAS] None "user_1"
              (pending_job "job_1" "user_1" 4)
              {| Http.golden_codex := Some "{}";
                 Http.upscaled_image_url := Some "https://cdn.example/up.png";
                 Http.final_url := Some "https://cdn.example/final.png" |}
              {| Http.golden_codex := Some "{}";
                 Http.upscaled_image_url := Some "https://cdn.example/up.png";
                 Http.final_url := Some "https://cdn.example/final.png" |}
              {| Http.golden_codex := Some "{}";
                 Http.upscaled_image_url := Some "https://cdn.example/up.png";
                 Http.final_url := Some "https://cdn.example/final.png" |})
    as (w' & d' & Hrun & Hd' & Hst & _ & Hsent).
  - reflexivity.
  - set_solver.
  - set_solver.
  - set_solver.
  - reflexivity.
  - reflexivity.
  - reflexivity.
  - exists w', d'. split; [exact Hrun|]. split; [exact Hd'|].
    split; [exact Hst|]. rewrite Hsent. reflexivity.
Defined.

End PipelineSuccess.

(** ** Where a failing pipeline stops *)

Section PipelineStops.

Implicit Types (w : World) (d : JobDoc.t) (job_id user_id : string).

(** X17: the pipeline stops at the first agent that fails. When the [try]
    body raises on a stored job, the exception is the failure of an agent
    request; every request sent before it was answered; it is the last
    request to an agent; and after it only the [job.failed] webhook goes
    out, when one is configured. The job's error message is the agent's. *)
Theorem trigger_pipeline_stops_at_failure env w job_id image_url operations
    options user_id d e w2 :
  api_jobs w !! job_id = Some d ->
  pipeline_body env job_id image_url operations options user_id
    (with_api_jobs (insert job_id (started_job env d)) w) = (inl e, w2) ->
  exists w' reqs r message hooks,
    trigger_pipeline env job_id image_url operations options user_id w
    = (inr tt, w')
    /\ e = HTTPError message
    /\ is_agent_request r = true
    /\ post env r = inl message
    /\ Forall (answered env) reqs
    /\ sent w' = (sent w ++ reqs ++ [r] ++ hooks)%list
    /\ Forall (fun h => is_agent_request h = false) hooks
    /\ length hooks = (if truthy (JobDoc.webhook_url d) then 1 else 0)%nat
    /\ (JobDoc.error <$> api_jobs w' !! job_id)
       = Some (Some {| ErrorData.code := "pipeline_error";
                       ErrorData.message := message;
                       ErrorData.retryable := true |}).
Proof.
  intros Hd Hbody.
  set (w1 := with_api_jobs (insert job_id (started_job env d)) w) in *.
  assert (Hd1 : api_jobs w1 !! job_id = Some (started_job env d))
    by (simpl; apply lookup_insert_eq).
  destruct (pipeline_body_outcome env w1 job_id image_url operations options
              user_id _ Hd1)
    as [(w0 & results & reqs & Hrun & _)
       |(w0 & reqs & r & m & Hrun & Hag & Hp & Hsent2 & Hall)];
    rewrite Hbody in Hrun; [discriminate Hrun|].
  injection Hrun as -> <-.
  destruct (trigger_pipeline_on_fault _ _ _ _ _ _ _ _ _ _ Hd Hbody)
    as (d2 & w' & Hd2 & _ & Hrun & Hjobs & _ & _ & Hsent).
  exists w', reqs, r, m.
  exists (if truthy (JobDoc.webhook_url d)
          then [webhook_request env job_id "job.failed"
                  (failed_job env (HTTPError m) d2)]
          else []).
  split; [exact Hrun|]. split; [reflexivity|]. split; [exact Hag|].
  split; [exact Hp|]. split; [exact Hall|].
  split; [rewrite Hsent, Hsent2, <- !app_assoc; reflexivity|].
  split; [destruct (truthy _); repeat constructor|].
  split; [now destruct (truthy _)|].
  rewrite Hjobs, lookup_insert_eq. now case_bool_decide.
Qed.

Lemma trigger_pipeline_stops_at_failure_witness :
  let w :=
    with_api_jobs (insert "job_1" (pending_job "job_1" "user_1" 4))
      (world_with "user_1" (user_with (Some 6) None)) in
  let env := env_at 1700000100 "job_2" network_flux_down in
  exists w' reqs r hooks,
    trigger_pipeline env "job_1" "https://img.example/a.png"
      [NOVA; FLUX; ATLAS] None "user_1" w = (inr tt, w')
    /\ post env r = inl "timed out"
    /\ sent w' = (sent w ++ reqs ++ [r] ++ hooks)%list
    /\ Forall (fun h => is_agent_request h = false) hooks.
Proof.
  intros w env.
  destruct (pipeline_body env "job_1" "https://img.example/a.png"
              [NOVA; FLUX; ATLAS] None "user_1"
              (with_api_jobs
                 (insert "job_1"
                    (started_job env (pending_job "job_1" "user_1" 4))) w))
    as [[e|[]] w2] eqn:Hbody; [|vm_compute in Hbody; discriminate].
  destruct (trigger_pipeline_stops_at_failure env w "job_1"
              "https://img.example/a.png" [NOVA; FLUX; ATLAS] None "user_1"
              (pending_job "job_1" "user_1" 4) e w2 eq_refl Hbody)
    as (w' & reqs & r & m & hooks & Hrun & He & _ & Hp & _ & Hsent & Hh & _).
  exists w', reqs, r, hooks. split; [exact Hrun|].
  split; [|split; [exact Hsent|exact Hh]].
  rewrite Hp. f_equal.
  assert (Hm : Exc_str e = "timed out")
    by (vm_compute in Hbody; now injection Hbody as <- _).
  rewrite He in Hm. exact Hm.
Defined.

End PipelineStops.

(** ** A created job, end to end *)

Section CreatedJob.

Implicit Types (w : World) (d : JobDoc.t) (job_id user_id : string).

(** On a stored job [trigger_pipeline] returns with the job settled:
    [COMPLETED] with the ledger untouched, or [FAILED] with the charge
    refunded. *)
Lemma trigger_pipeline_settles env w job_id image_url operations options
    user_id d :
  api_jobs w !! job_id = Some d ->
  exists w' d',
    trigger_pipeline env job_id image_url operations options user_id w
    = (inr tt, w')
    /\ api_jobs w' !! job_id = Some d'
    /\ JobDoc.identity d' = JobDoc.identity d
    /\ ((JobDoc.status d' = COMPLETED
         /\ JobDoc.cost_refunded d' = JobDoc.cost_refunded d
         /\ users w' = users w
         /\ tokenTransactions w' = tokenTransactions w)
        \/ (JobDoc.status d' = FAILED
            /\ JobDoc.cost_refunded d'
               = (if bool_decide (0 < JobDoc.cost_charged d)
                  then JobDoc.cost_charged d else JobDoc.cost_refunded d)
            /\ users w'
               = users (refunded_ledger user_id job_id
                          (JobDoc.cost_charged d) w)
            /\ tokenTransactions w'
               = tokenTransactions (refunded_ledger user_id job_id
                                      (JobDoc.cost_charged d) w))).
Proof.
  intros Hd.
  set (w1 := with_api_jobs (insert job_id (started_job env d)) w).
  assert (Hd1 : api_jobs w1 !! job_id = Some (started_job env d))
    by (simpl; apply lookup_insert_eq).
  destruct (pipeline_body env job_id image_url operations options user_id w1)
    as [[e|[]] w2] eqn:Hbody.
  - destruct (trigger_pipeline_on_fault _ _ _ _ _ _ _ _ _ _ Hd Hbody)
      as (d2 & w' & Hd2 & [Hid Href] & Hrun & Hjobs & Hus & Hts & _).
    exists w'. eexists. split; [exact Hrun|].
    split; [rewrite Hjobs; apply lookup_insert_eq|].
    split; [case_bool_decide; exact Hid|].
    right. split; [now case_bool_decide|].
    split; [case_bool_decide; [reflexivity|exact Href]|].
    split; assumption.
  - pose proof (keeps_pipeline_body job_id env image_url operations options
                  user_id _ _ _ Hbody) as (Hu & Ht & _ & Hj).
    destruct (Hj _ Hd1) as (d2 & Hd2 & [Hid Href]).
    destruct (pipeline_body_outcome env w1 job_id image_url operations
                options user_id _ Hd1)
      as [(w0 & results & reqs & Hrun & Hd' & _)
         |(w0 & reqs & r & m & Hrun & _)];
      rewrite Hbody in Hrun; [|discriminate Hrun].
    injection Hrun as <-. rewrite Hd2 in Hd'. injection Hd' as Hd'.
    exists w2, d2.
    split; [exact (trigger_pipeline_run _ _ _ _ _ _ _ _ _ _ Hd Hbody)|].
    split; [exact Hd2|]. split; [exact Hid|].
    left. split; [now rewrite Hd'|]. now repeat split.
Qed.

(** A deduction that goes through took the amount off the balance
    [check_balance] reports. *)
Lemma deduct_tokens_inv w wa user_id amount reason job_id b :
  deduct_tokens user_id amount reason job_id w = (inr b, wa) ->
  exists user_data,
    users w !! user_id = Some user_data
    /\ b = observed_balance user_id w - amount
    /\ amount <= observed_balance user_id w
    /\ users wa = <[user_id := update_balance b amount user_data]> (users w)
    /\ api_jobs wa = api_jobs w
    /\ sent wa = sent w.
Proof.
  unfold deduct_tokens, bind, gets, raise, modify, ret.
  destruct (users w !! user_id) as [user_data|] eqn:Hu; [|discriminate].
  rewrite (observed_balance_lookup _ _ _ Hu).
  case_bool_decide as Hlt; [discriminate|]. simpl.
  intros [= <- <-]. exists user_data. simpl.
  repeat split; try reflexivity. lia.
Qed.

Lemma deduct_tokens_ok w user_id amount reason job_id :
  is_Some (users w !! user_id) ->
  amount <= observed_balance user_id w ->
  exists wa,
    deduct_tokens user_id amount reason job_id w
    = (inr (observed_balance user_id w - amount), wa).
Proof.
  intros [user_data Hu] Hle.
  rewrite (observed_balance_lookup _ _ _ Hu) in *.
  unfold deduct_tokens, bind, gets, raise, modify, ret. rewrite Hu.
  rewrite bool_decide_eq_false_2 by lia. simpl. eauto.
Qed.

(** What a [create_job] call that made a new job went through. *)
Lemma create_job_fresh env w user_id api_key_id image_url operations options
    webhook_url client_metadata request_id is_test_mode r w' :
  create_job env user_id api_key_id image_url operations options webhook_url
    client_metadata request_id is_test_mode w = (inr r, w') ->
  CreateJobResult.message r = None ->
  exists b wa,
    deduct_tokens user_id (calculate_cost (settings env) operations options).1
      "api_job" (generate_job_id env) w = (inr b, wa)
    /\ trigger_pipeline env (generate_job_id env) image_url operations options
         user_id
         (with_api_jobs
            (insert (generate_job_id env)
               (new_job env user_id api_key_id image_url operations options
                  webhook_url client_metadata request_id is_test_mode)) wa)
       = (inr tt, w')
    /\ CreateJobResult.job_id r = generate_job_id env
    /\ CreateJobResult.status r = PENDING.
Proof.
  unfold create_job, new_job.
  destruct (calculate_cost (settings env) operations options)
    as [total_cost breakdown].
  rewrite bind_run.
  assert (Hex : exists docs,
            (if truthy request_id
             then jobs_where user_id (default "" request_id)
             else ret []) w = (inr docs, w))
    by (destruct (truthy request_id); eexists; reflexivity).
  destruct Hex as [docs ->].
  destruct docs as [|existing rest].
  - rewrite bind_run.
    destruct (deduct_tokens user_id total_cost "api_job"
                (generate_job_id env) w) as [[e|b] wa] eqn:Hded;
      [discriminate|].
    rewrite bind_run. unfold job_set, modify. rewrite bind_run.
    match goal with
    | |- context [trigger_pipeline ?e ?j ?i ?o ?p ?u ?x] =>
        destruct (trigger_pipeline e j i o p u x) as [[e'|[]] w3] eqn:Hrun
    end; [discriminate|].
    unfold ret. intros [= <- <-] _. exists b, wa. simpl.
    split; [exact Hded|]. split; [exact Hrun|]. split; reflexivity.
  - unfold ret. intros [= <- <-]. discriminate.
Qed.

(** X18: a job that [create_job] has just made is settled by the time the
    call returns. The response says [pending], but the stored job is
    already [COMPLETED] or [FAILED], so [cancel_job] on it, by its owner or
    anyone else, returns [False] and changes nothing. *)
Theorem created_job_is_settled env w user_id api_key_id image_url operations
    options webhook_url client_metadata request_id is_test_mode r w' :
  create_job env user_id api_key_id image_url operations options webhook_url
    client_metadata request_id is_test_mode w = (inr r, w') ->
  CreateJobResult.message r = None ->
  CreateJobResult.status r = PENDING
  /\ exists d',
       api_jobs w' !! CreateJobResult.job_id r = Some d'
       /\ (JobDoc.status d' = COMPLETED \/ JobDoc.status d' = FAILED)
       /\ forall env' u,
            cancel_job env' (CreateJobResult.job_id r) u w' = (inr false, w').
Proof.
  intros Hcreate Hfresh.
  destruct (create_job_fresh _ _ _ _ _ _ _ _ _ _ _ _ _ Hcreate Hfresh)
    as (b & wa & _ & Hrun & -> & Hst).
  split; [exact Hst|].
  set (d0 := new_job env user_id api_key_id image_url operations options
               webhook_url client_metadata request_id is_test_mode) in *.
  set (wb := with_api_jobs (insert (generate_job_id env) d0) wa) in *.
  destruct (trigger_pipeline_settles env wb (generate_job_id env) image_url
              operations options user_id d0
              ltac:(simpl; apply lookup_insert_eq))
    as (w'' & d' & Hrun' & Hd' & _ & Hcases).
  rewrite Hrun in Hrun'. injection Hrun' as <-.
  exists d'. split; [exact Hd'|].
  assert (Hsettled : JobDoc.status d' = COMPLETED \/ JobDoc.status d' = FAILED)
    by (destruct Hcases as [[? _]|[? _]]; auto).
  split; [exact Hsettled|].
  intros env' u. unfold cancel_job. rewrite bind_run.
  unfold job_get, gets. rewrite Hd'.
  destruct (bool_decide (JobDoc.user_id d' = u)); [|reflexivity].
  rewrite bool_decide_eq_false_2; [reflexivity|].
  destruct Hsettled as [-> | ->]; discriminate.
Qed.

Lemma created_job_is_settled_witness :
  let w := world_with "user_1" (user_with (Some 10) None) in
  let env := env_at 1700000000 "job_0123456789ab" network_flux_down in
  exists r w' d',
    create_job env "user_1" "key_1" "https://img.example/a.png"
      [NOVA; FLUX; ATLAS] None None None None false w = (inr r, w')
    /\ CreateJobResult.status r = PENDING
    /\ api_jobs w' !! CreateJobResult.job_id r = Some d'
    /\ (JobDoc.status d' = COMPLETED \/ JobDoc.status d' = FAILED)
    /\ cancel_job env (CreateJobResult.job_id r) "user_1" w'
       = (inr false, w').
Proof.
  intros w env.
  destruct (create_job env "user_1" "key_1" "https://img.example/a.png"
              [NOVA; FLUX; ATLAS] None None None None false w)
    as [[e|r] w'] eqn:Hcreate; [vm_compute in Hcreate; discriminate|].
  assert (Hfresh : CreateJobResult.message r = None)
    by (vm_compute in Hcreate; now injection Hcreate as <- _).
  destruct (created_job_is_settled env w "user_1" "key_1"
              "https://img.example/a.png" [NOVA; FLUX; ATLAS] None None None
              None false r w' Hcreate Hfresh)
    as (Hst & d' & Hd' & Hsettled & Hcancel).
  exists r, w', d'. split; [reflexivity|]. split; [exact Hst|].
  split; [exact Hd'|]. split; [exact Hsettled|]. apply Hcancel.
Defined.

(** X19: what a new job costs in the end, prices being non-negative. The
    stored job records the calculated cost as charged; if the job
    completed, the account's [tokens.balance] is the balance
    [check_balance] reported before the call less that cost and nothing is
    refunded; if it failed, [tokens.balance] is that balance again and
    [cost.refunded] equals the cost. *)
Theorem create_job_charges_completed_jobs env w user_id api_key_id image_url
    operations options webhook_url client_metadata request_id is_test_mode
    r w' :
  let total_cost := (calculate_cost (settings env) operations options).1 in
  0 <= total_cost ->
  create_job env user_id api_key_id image_url operations options webhook_url
    client_metadata request_id is_test_mode w = (inr r, w') ->
  CreateJobResult.message r = None ->
  exists d' user_data',
    api_jobs w' !! CreateJobResult.job_id r = Some d'
    /\ users w' !! user_id = Some user_data'
    /\ JobDoc.cost_charged d' = total_cost
    /\ ((JobDoc.status d' = COMPLETED
         /\ JobDoc.cost_refunded d' = 0
         /\ UserDoc.tokens_balance user_data'
            = Some (observed_balance user_id w - total_cost))
        \/ (JobDoc.status d' = FAILED
            /\ JobDoc.cost_refunded d' = total_cost
            /\ UserDoc.tokens_balance user_data'
               = Some (observed_balance user_id w))).
Proof.
  intros total_cost Hpos Hcreate Hfresh.
  destruct (create_job_fresh _ _ _ _ _ _ _ _ _ _ _ _ _ Hcreate Hfresh)
    as (b & wa & Hded & Hrun & -> & _).
  fold total_cost in Hded.
  destruct (deduct_tokens_inv _ _ _ _ _ _ _ Hded)
    as (user_data & Hu & Hb & Hle & Hua & _).
  set (d0 := new_job env user_id api_key_id image_url operations options
               webhook_url client_metadata request_id is_test_mode) in *.
  set (wb := with_api_jobs (insert (generate_job_id env) d0) wa) in *.
  destruct (trigger_pipeline_settles env wb (generate_job_id env) image_url
              operations options user_id d0
              ltac:(simpl; apply lookup_insert_eq))
    as (w'' & d' & Hrun' & Hd' & Hid & Hcases).
  rewrite Hrun in Hrun'. injection Hrun' as <-.
  assert (Hcharged : JobDoc.cost_charged d' = total_cost)
    by (unfold JobDoc.identity in Hid; now injection Hid).
  assert (Hub : users wb !! user_id
                = Some (update_balance b total_cost user_data))
    by (simpl; rewrite Hua; apply lookup_insert_eq).
  change (JobDoc.cost_charged d0) with total_cost in Hcases.
  change (JobDoc.cost_refunded d0) with 0 in Hcases.
  destruct Hcases as [(Hst & Href & Hus & _)|(Hst & Href & Hus & _)].
  - exists d', (update_balance b total_cost user_data).
    split; [exact Hd'|]. split; [now rewrite Hus|].
    split; [exact Hcharged|]. left.
    split; [exact Hst|]. split; [exact Href|]. simpl. now rewrite Hb.
  - unfold refunded_ledger in Hus.
    destruct (decide (0 < total_cost)) as [Hlt|Hzero].
    + rewrite (bool_decide_eq_true_2 _ Hlt) in Hus, Href.
      destruct (refund_tokens_credits wb user_id total_cost "job_failed"
                  (generate_job_id env) _ Hub) as (wr & Hr & Hbal & _).
      rewrite Hr in Hus. simpl in Hus.
      destruct (users wr !! user_id) as [ud'|] eqn:Hud; [|discriminate Hbal].
      exists d', ud'. split; [exact Hd'|]. split; [now rewrite Hus|].
      split; [exact Hcharged|]. right.
      split; [exact Hst|]. split; [exact Href|].
      revert Hr Hud. unfold refund_tokens, bind, gets, modify, ret.
      rewrite Hub. simpl. intros [= <-]. simpl.
      rewrite lookup_insert_eq. intros [= <-]. simpl.
      unfold get_balance. simpl. f_equal. lia.
    + rewrite (bool_decide_eq_false_2 _ Hzero) in Hus, Href.
      exists d', (update_balance b total_cost user_data).
      split; [exact Hd'|]. split; [now rewrite Hus|].
      split; [exact Hcharged|]. right.
      split; [exact Hst|]. split; [lia|]. simpl. f_equal. lia.
Qed.

Lemma create_job_charges_completed_jobs_witness :
  let w := world_with "user_1" (user_with (Some 10) None) in
  let env := env_at 1700000000 "job_0123456789ab" network_up in
  exists r w' d' user_data',
    create_job env "user_1" "key_1" "https://img.example/a.png"
      [NOVA; FLUX; ATLAS] None None None None false w = (inr r, w')
    /\ api_jobs w' !! CreateJobResult.job_id r = Some d'
    /\ users w' !! "user_1" = Some user_data'
    /\ JobDoc.status d' = COMPLETED
    /\ JobDoc.cost_charged d' = 4
    /\ UserDoc.tokens_balance user_data' = Some 6.
Proof.
  intros w env.
  destruct (create_job env "user_1" "key_1" "https://img.example/a.png"
              [NOVA; FLUX; ATLAS] None None None None false w)
    as [[e|r] w'] eqn:Hcreate; [vm_compute in Hcreate; discriminate|].
  assert (Hfresh : CreateJobResult.message r = None)
    by (vm_compute in Hcreate; now injection Hcreate as <- _).
  assert (Hpos : 0 <= (calculate_cost (settings env) [NOVA; FLUX; ATLAS]
                         None).1) by (vm_compute; discriminate).
  destruct (create_job_charges_completed_jobs env w "user_1" "key_1"
              "https://img.example/a.png" [NOVA; FLUX; ATLAS] None None None
              None false r w' Hpos Hcreate Hfresh)
    as (d' & ud' & Hd' & Hud' & Hch & Hcases).
  exists r, w', d', ud'. split; [reflexivity|]. split; [exact Hd'|].
  split; [exact Hud'|].
  assert (Hst : JobDoc.status d' = COMPLETED).
  { vm_compute in Hcreate. injection Hcreate as <- <-.
    vm_compute in Hd'. injection Hd' as <-. reflexivity. }
  split; [exact Hst|]. split; [exact Hch|].
  destruct Hcases as [(_ & _ & Hbal)|(Hf & _)]; [exact Hbal|].
  rewrite Hst in Hf. discriminate Hf.
Defined.

End CreatedJob.

(** ** The estimate and the charge *)

Section EstimateAndCreate.

Implicit Types (w : World) (d : JobDoc.t).

(** X20: the estimate predicts the creation of a job. For an account whose
    [auth.balance] is the balance the ledger reads, and a request that is
    not the replay of an idempotency key: when the estimate says the
    balance is sufficient, [create_job] for the same operations and options
    returns a new job, reports the estimated cost and deducts exactly that
    amount, once; when it says insufficient, [create_job] raises and the
    store is unchanged. *)
Theorem estimate_predicts_create env w auth api_key_id image_url operations
    options webhook_url client_metadata request_id is_test_mode :
  let user_id := AuthContext.user_id auth in
  let estimate :=
    estimate_cost_endpoint (settings env)
      {| EstimateCostRequest.operations := operations;
         EstimateCostRequest.options := options |} auth in
  is_Some (users w !! user_id) ->
  AuthContext.balance auth = observed_balance user_id w ->
  truthy request_id = false
  \/ existing_jobs user_id (default "" request_id) w = [] ->
  if CostEstimate.sufficient_balance estimate
  then exists r w' tx,
         create_job env user_id api_key_id image_url operations options
           webhook_url client_metadata request_id is_test_mode w
         = (inr r, w')
         /\ CreateJobResult.message r = None
         /\ CreateJobResult.cost r !! "estimated_aet"
            = Some (CostEstimate.estimated_aet estimate)
         /\ deductions w' = (deductions w ++ [(user_id, tx)])%list
         /\ TxDoc.amount tx = CostEstimate.estimated_aet estimate
         /\ TxDoc.job_id tx = CreateJobResult.job_id r
  else exists e,
         create_job env user_id api_key_id image_url operations options
           webhook_url client_metadata request_id is_test_mode w
         = (inl e, w).
Proof.
  intros user_id estimate Hu Hbal Hfresh. subst estimate.
  unfold estimate_cost_endpoint, create_job.
  cbn [EstimateCostRequest.operations EstimateCostRequest.options].
  destruct (calculate_cost (settings env) operations options)
    as [total_cost breakdown].
  cbn [CostEstimate.sufficient_balance CostEstimate.estimated_aet].
  assert (Hex : (if truthy request_id
                 then jobs_where user_id (default "" request_id)
                 else ret []) w = (inr [], w)).
  { destruct Hfresh as [-> | Hnone]; [reflexivity|].
    destruct (truthy request_id); [|reflexivity].
    unfold jobs_where, gets. now rewrite Hnone. }
  rewrite bind_run, Hex, bind_run, Hbal.
  case_bool_decide as Hle.
  - destruct (deduct_tokens_ok w user_id total_cost "api_job"
                (generate_job_id env) Hu Hle) as [wa Hded].
    rewrite Hded.
    destruct (deduct_tokens_returns _ _ _ _ _ _ _ Hded) as [_ Hda].
    rewrite bind_run. unfold job_set, modify.
    match goal with
    | |- context [with_api_jobs (insert _ ?x) wa] => set (job_data := x)
    end.
    set (wb := with_api_jobs _ wa).
    assert (Hdb : api_jobs wb !! generate_job_id env = Some job_data)
      by (simpl; apply lookup_insert_eq).
    destruct (trigger_pipeline_returns env wb (generate_job_id env)
                image_url operations options user_id job_data Hdb)
      as (w' & d' & Hrun & _ & _ & _ & Hdw).
    rewrite bind_run, Hrun. unfold ret.
    eexists _, w', _. split; [reflexivity|]. simpl.
    split; [reflexivity|]. split; [apply lookup_singleton_eq|].
    split; [rewrite Hdw; exact Hda|]. split; reflexivity.
  - rewrite (deduct_tokens_insufficient _ _ _ "api_job"
               (generate_job_id env) Hu) by lia.
    eauto.
Qed.

Lemma estimate_predicts_create_witness :
  let w := world_with "user_1" (user_with (Some 10) None) in
  let env := env_at 1700000000 "job_0123456789ab" network_up in
  let auth := auth_of "user_1" "key_1" in
  CostEstimate.sufficient_balance
    (estimate_cost_endpoint (settings env)
       {| EstimateCostRequest.operations := [NOVA; FLUX];
          EstimateCostRequest.options := None |} auth) = true
  /\ exists r w' tx,
       create_job env "user_1" "key_1" "https://img.example/a.png"
         [NOVA; FLUX] None None None (Some "req-7") false w = (inr r, w')
       /\ deductions w' = [("user_1", tx)]
       /\ TxDoc.amount tx = 3.
Proof.
  intros w env auth. split; [reflexivity|].
  pose proof (estimate_predicts_create env w auth "key_1"
                "https://img.example/a.png" [NOVA; FLUX] None None None
                (Some "req-7") false
                ltac:(eexists; reflexivity) ltac:(reflexivity)
                ltac:(right; reflexivity)) as H.
  change (CostEstimate.sufficient_balance _) with true in H.
  destruct H as (r & w' & tx & Hrun & _ & _ & Hded & Ham & _).
  exists r, w', tx. split; [exact Hrun|].
  split; [exact Hded|rewrite Ham; reflexivity].
Defined.

End EstimateAndCreate.

(** ** Reading jobs back *)

Section ReadingJobs.

Implicit Types (w : World) (d : JobDoc.t) (job_id user_id : string).















End ReadingJobs.

(** ** The cost of a set of operations *)

Section CostOfSet.

(** X25: the cost depends on which operations are requested, not on how
    the list is written: two lists with the same members, in any order
    and with any repetitions, get the same total and the same breakdown,
    so an operation listed twice is charged once. *)
Theorem calculate_cost_by_membership settings
    (operations operations' : list Operation) options :
  (forall op, op ∈ operations <-> op ∈ operations') ->
  calculate_cost settings operations options
  = calculate_cost settings operations' options.
Proof.
  intros Hsame. unfold calculate_cost.
  now rewrite (bool_decide_ext _ _ (Hsame NOVA)),
    (bool_decide_ext _ _ (Hsame FLUX)), (bool_decide_ext _ _ (Hsame ATLAS)).
Qed.

Lemma calculate_cost_by_membership_witness :
  (forall op, op ∈ [FLUX; NOVA; FLUX; FLUX] <-> op ∈ [NOVA; FLUX])
  /\ calculate_cost default_settings [FLUX; NOVA; FLUX; FLUX] None
     = calculate_cost default_settings [NOVA; FLUX] None.
Proof.
  assert (H : forall op, op ∈ [FLUX; NOVA; FLUX; FLUX] <-> op ∈ [NOVA; FLUX])
    by set_solver.
  split; [exact H|].
  apply calculate_cost_by_membership. exact H.
Defined.

End CostOfSet.

(** ** API keys *)

Section ApiKeyFacts.

Implicit Types (w : World) (api_keys : gmap string KeyDoc.t)
  (s p api_key : string).

Lemma startswith_app p s : startswith (p ++ s) p = true.
Proof.
  unfold startswith. induction p as [|a p IH]; [now destruct s|].
  change (String a p ++ s) with (String a (p ++ s)). simpl.
  destruct (ascii_dec a a) as [_|Hne]; [exact IH|contradiction].
Qed.

Lemma startswith_inv p : forall s,
  startswith s p = true -> s = p ++ string_drop (String.length p) s.
Proof.
  unfold startswith. induction p as [|a p IH]; intros s Hp.
  - reflexivity.
  - destruct s as [|b s]; [discriminate Hp|]. simpl in Hp.
    destruct (ascii_dec a b) as [<-|Hne]; [|discriminate Hp].
    change (String a s = String a (p ++ string_drop (String.length p) s)).
    f_equal. now apply IH.
Qed.

Lemma truthy_bearer api_key : truthy (Some ("Bearer " ++ api_key)) = true.
Proof.
  unfold truthy. now rewrite bool_decide_eq_false_2 by discriminate.
Qed.

(** What [verify_api_key] does with a well-formed header for a key whose
    format is accepted. *)
Lemma verify_api_key_bearer now subscriptionTier w api_key api_keys :
  startswith api_key "gcx_live_" || startswith api_key "gcx_test_" = true ->
  verify_api_key now subscriptionTier w (Some ("Bearer " ++ api_key)) api_keys
  = match api_keys !! key_hash_of api_key with
    | None =>
        (inl (unauthorized "invalid_api_key"
                "API key is invalid or has been revoked"), api_keys)
    | Some key_data =>
        if negb (default false (KeyDoc.active key_data)) then
          (inl (unauthorized "api_key_revoked"
                  "This API key has been revoked"), api_keys)
        else
          match users w !! KeyDoc.user_id key_data with
          | None =>
              (inl (unauthorized "user_not_found"
                      "User account associated with this key no longer exists"),
               <[key_hash_of api_key :=
                   KeyDoc.set_last_used_at (Some now) key_data]> api_keys)
          | Some user_data =>
              (inr {| AuthContext.user_id := KeyDoc.user_id key_data;
                      AuthContext.key_id :=
                        string_take 12 (key_hash_of api_key);
                      AuthContext.tier :=
                        default FREE_TRIAL
                          (SubscriptionTier_of
                             (default "FREE_TRIAL"
                                (subscriptionTier !! KeyDoc.user_id key_data)));
                      AuthContext.balance :=
                        observed_balance (KeyDoc.user_id key_data) w;
                      AuthContext.is_test_mode :=
                        startswith api_key "gcx_test_";
                      AuthContext.permissions :=
                        default ["jobs:create"; "jobs:read"]
                          (KeyDoc.permissions key_data) |},
               <[key_hash_of api_key :=
                   KeyDoc.set_last_used_at (Some now) key_data]> api_keys)
          end
    end.
Proof.
  intros Hfmt. unfold verify_api_key.
  rewrite truthy_bearer. cbn [negb].
  change (default "" (Some ("Bearer " ++ api_key))) with ("Bearer " ++ api_key).
  rewrite (startswith_app "Bearer " api_key). cbn [negb].
  change (string_drop 7 ("Bearer " ++ api_key)) with api_key.
  rewrite Hfmt. cbn [negb].
  generalize (key_hash_of api_key). intros h.
  destruct (api_keys !! h) as [key_data|]; [|reflexivity].
  destruct (negb (default false (KeyDoc.active key_data))); [reflexivity|].
  destruct (users w !! KeyDoc.user_id key_data) as [user_data|] eqn:Hu;
    [|reflexivity].
  now rewrite (observed_balance_lookup _ _ _ Hu).
Qed.

(** X26: a key made by [create_api_key_for_user] for the environment
    [live] or [test] authenticates its user. With the returned key in a
    Bearer header, and the user's document in place, [verify_api_key]
    returns the context of that user, with the key id that was returned at
    creation, test mode exactly for a [test] key, the four permissions
    stored at creation, and the balance [check_balance] reports; and it
    stamps the key's [last_used_at]. *)
Theorem created_key_authenticates now utcnow now' random_part user_id name
    environment subscriptionTier w api_keys user_data :
  environment = "live" \/ environment = "test" ->
  users w !! user_id = Some user_data ->
  exists auth api_keys'',
    let created :=
      (create_api_key_for_user now utcnow random_part user_id name
         environment api_keys).1 in
    let api_keys' :=
      (create_api_key_for_user now utcnow random_part user_id name
         environment api_keys).2 in
    verify_api_key now' subscriptionTier w
      (Some ("Bearer " ++ CreatedKey.api_key created)) api_keys'
    = (inr auth, api_keys'')
    /\ AuthContext.user_id auth = user_id
    /\ AuthContext.key_id auth = CreatedKey.key_id created
    /\ AuthContext.is_test_mode auth = bool_decide (environment = "test")
    /\ AuthContext.balance auth = observed_balance user_id w
    /\ AuthContext.permissions auth
       = ["jobs:create"; "jobs:read"; "account:read"; "webhooks:manage"]
    /\ (KeyDoc.last_used_at
          <$> api_keys'' !! key_hash_of (CreatedKey.api_key created))
       = Some (Some now').
Proof.
  intros Henv Hu. unfold create_api_key_for_user, generate_api_key.
  cbn [fst snd CreatedKey.api_key CreatedKey.key_id].
  set (full_key := "gcx_" ++ environment ++ "_" ++ random_part).
  assert (Hfmt : startswith full_key "gcx_live_"
                 || startswith full_key "gcx_test_" = true
                 /\ startswith full_key "gcx_test_"
                    = bool_decide (environment = "test")).
  { subst full_key. destruct Henv as [-> | ->].
    - change ("gcx_" ++ "live" ++ "_" ++ random_part)
        with ("gcx_live_" ++ random_part).
      rewrite startswith_app. split; reflexivity.
    - change ("gcx_" ++ "test" ++ "_" ++ random_part)
        with ("gcx_test_" ++ random_part).
      rewrite startswith_app, orb_true_r. split; reflexivity. }
  destruct Hfmt as [Hfmt Htest].
  rewrite (verify_api_key_bearer _ _ _ _ _ Hfmt).
  generalize dependent (key_hash_of full_key). intros h.
  rewrite lookup_insert_eq. cbn [KeyDoc.active KeyDoc.user_id default negb].
  rewrite Hu. eexists _, _. split; [reflexivity|].
  cbn [AuthContext.user_id AuthContext.key_id AuthContext.is_test_mode
       AuthContext.balance AuthContext.permissions KeyDoc.permissions default].
  rewrite lookup_insert_eq. now repeat split.
Qed.

Lemma created_key_authenticates_witness :
  let w := world_with "user_1" (user_with (Some 10) None) in
  exists auth api_keys'',
    let created :=
      (create_api_key_for_user 1700000000 1700000000
         "Zq3mT8vK1xR5cN7bW2dL9fH4jP6sY0aGuEoI" "user_1" "ci" "test" ∅).1 in
    let api_keys' :=
      (create_api_key_for_user 1700000000 1700000000
         "Zq3mT8vK1xR5cN7bW2dL9fH4jP6sY0aGuEoI" "user_1" "ci" "test" ∅).2 in
    verify_api_key 1700000100 ∅ w
      (Some ("Bearer " ++ CreatedKey.api_key created)) api_keys'
    = (inr auth, api_keys'')
    /\ AuthContext.user_id auth = "user_1"
    /\ AuthContext.is_test_mode auth = true
    /\ AuthContext.balance auth = 10.
Proof.
  intros w.
  destruct (created_key_authenticates 1700000000 1700000000 1700000100
              "Zq3mT8vK1xR5cN7bW2dL9fH4jP6sY0aGuEoI" "user_1" "ci" "test"
              ∅ w ∅ (user_with (Some 10) None)
              (or_intror eq_refl) eq_refl)
    as (auth & api_keys'' & Hrun & Hu & _ & Ht & Hb & _).
  exists auth, api_keys''. split; [exact Hrun|]. split; [exact Hu|].
  split; [exact Ht|]. rewrite Hb. reflexivity.
Defined.

(** X27: [verify_api_key] lets nobody in without a live key. Whenever it
    returns a context, the header was [Bearer] followed by a key that
    starts with [gcx_live_] or [gcx_test_]; the document stored under the
    SHA-256 hex digest of that key exists and is active; the user it names
    exists and is the context's user; the key id is the first twelve
    characters of the digest; test mode is set exactly for [gcx_test_]
    keys; the balance is the one [check_balance] reports; and the only
    write is the stamp on that key's [last_used_at]. *)
Theorem verify_api_key_sound now subscriptionTier w authorization api_keys
    auth api_keys' :
  verify_api_key now subscriptionTier w authorization api_keys
  = (inr auth, api_keys') ->
  exists api_key key_data,
    authorization = Some ("Bearer " ++ api_key)
    /\ (startswith api_key "gcx_live_" = true
        \/ startswith api_key "gcx_test_" = true)
    /\ api_keys !! key_hash_of api_key = Some key_data
    /\ KeyDoc.active key_data = Some true
    /\ is_Some (users w !! KeyDoc.user_id key_data)
    /\ AuthContext.user_id auth = KeyDoc.user_id key_data
    /\ AuthContext.key_id auth = string_take 12 (key_hash_of api_key)
    /\ AuthContext.is_test_mode auth = startswith api_key "gcx_test_"
    /\ AuthContext.balance auth
       = observed_balance (AuthContext.user_id auth) w
    /\ api_keys'
       = <[key_hash_of api_key :=
             KeyDoc.set_last_used_at (Some now) key_data]> api_keys.
Proof.
  intros Hrun.
  assert (Hshape : exists api_key,
            authorization = Some ("Bearer " ++ api_key)
            /\ startswith api_key "gcx_live_"
               || startswith api_key "gcx_test_" = true).
  { revert Hrun. unfold verify_api_key.
    destruct (truthy authorization) eqn:Ht;
      [|intros H; cbn [negb] in H; discriminate H].
    destruct authorization as [header|]; [|discriminate Ht].
    cbn [negb]. change (default "" (Some header)) with header.
    destruct (startswith header "Bearer ") eqn:Hb;
      [|intros H; cbn [negb] in H; discriminate H].
    cbn [negb].
    destruct (startswith (string_drop 7 header) "gcx_live_"
              || startswith (string_drop 7 header) "gcx_test_") eqn:Hf;
      [|intros H; cbn [negb] in H; discriminate H].
    intros _. exists (string_drop 7 header).
    split; [|exact Hf]. f_equal. exact (startswith_inv _ _ Hb). }
  destruct Hshape as (api_key & -> & Hfmt).
  rewrite (verify_api_key_bearer _ _ _ _ _ Hfmt) in Hrun.
  destruct (api_keys !! key_hash_of api_key) as [key_data|] eqn:Hk;
    [|discriminate Hrun].
  destruct (KeyDoc.active key_data) as [[|]|] eqn:Ha;
    try discriminate Hrun.
  cbn [default negb] in Hrun.
  destruct (users w !! KeyDoc.user_id key_data) as [user_data|] eqn:Hu;
    [|discriminate Hrun].
  injection Hrun as <- <-.
  exists api_key, key_data.
  split; [reflexivity|].
  split; [now apply orb_true_iff|].
  split; [exact Hk|]. split; [exact Ha|]. split; [eauto|].
  now repeat split.
Qed.

Lemma verify_api_key_sound_witness :
  let w := world_with "user_1" (user_with (Some 10) None) in
  let api_keys :=
    (create_api_key_for_user 1700000000 1700000000
       "Zq3mT8vK1xR5cN7bW2dL9fH4jP6sY0aGuEoI" "user_1" "ci" "live" ∅).2 in
  let header :=
    Some ("Bearer " ++ "gcx_live_Zq3mT8vK1xR5cN7bW2dL9fH4jP6sY0aGuEoI") in
  exists auth api_keys' api_key key_data,
    verify_api_key 1700000100 ∅ w header api_keys = (inr auth, api_keys')
    /\ header = Some ("Bearer " ++ api_key)
    /\ api_keys !! key_hash_of api_key = Some key_data
    /\ KeyDoc.active key_data = Some true.
Proof.
  intros w api_keys header.
  assert (Hrun : exists auth api_keys',
            verify_api_key 1700000100 ∅ w header api_keys
            = (inr auth, api_keys')).
  { subst header api_keys.
    rewrite verify_api_key_bearer by reflexivity.
    unfold create_api_key_for_user, generate_api_key. cbn [snd].
    change ("gcx_" ++ "live" ++ "_" ++ "Zq3mT8vK1xR5cN7bW2dL9fH4jP6sY0aGuEoI")
      with "gcx_live_Zq3mT8vK1xR5cN7bW2dL9fH4jP6sY0aGuEoI".
    generalize (key_hash_of "gcx_live_Zq3mT8vK1xR5cN7bW2dL9fH4jP6sY0aGuEoI").
    intros h. rewrite lookup_insert_eq.
    cbn [KeyDoc.active KeyDoc.user_id default negb].
    change (users w !! "user_1") with (Some (user_with (Some 10) None)).
    eexists _, _. reflexivity. }
  destruct Hrun as (auth & api_keys' & Hrun).
  destruct (verify_api_key_sound _ _ _ _ _ _ _ Hrun)
    as (api_key & key_data & Hhdr & _ & Hk & Ha & _).
  exists auth, api_keys', api_key, key_data.
  split; [exact Hrun|]. split; [exact Hhdr|]. split; [exact Hk|exact Ha].
Defined.

(** X28: every refusal of [verify_api_key] is a 401, and a refused request
    writes nothing, with one exception: when the key is valid and active
    but its user's document is gone, the key's [last_used_at] has already
    been stamped when [user_not_found] is raised. A missing or empty
    header is refused as [missing_api_key]. *)
Theorem verify_api_key_refusals now subscriptionTier w authorization api_keys
    e api_keys' :
  verify_api_key now subscriptionTier w authorization api_keys
  = (inl e, api_keys') ->
  exists code message,
    e = HTTPException 401 code message None None
    /\ (truthy authorization = false -> code = "missing_api_key")
    /\ (api_keys' = api_keys
        \/ (code = "user_not_found"
            /\ exists api_key key_data,
                 authorization = Some ("Bearer " ++ api_key)
                 /\ api_keys !! key_hash_of api_key = Some key_data
                 /\ users w !! KeyDoc.user_id key_data = None
                 /\ api_keys'
                    = <[key_hash_of api_key :=
                          KeyDoc.set_last_used_at (Some now) key_data]>
                        api_keys)).
Proof.
  intros Hrun.
  destruct (truthy authorization) eqn:Ht.
  2: { unfold verify_api_key in Hrun. rewrite Ht in Hrun.
       cbn [negb] in Hrun. injection Hrun as <- <-.
       eexists _, _. split; [reflexivity|]. split; [reflexivity|now left]. }
  destruct authorization as [header|]; [|discriminate Ht].
  destruct (startswith header "Bearer ") eqn:Hb.
  2: { unfold verify_api_key in Hrun. rewrite Ht in Hrun.
       cbn [negb] in Hrun.
       change (default "" (Some header)) with header in Hrun.
       rewrite Hb in Hrun. cbn [negb] in Hrun. injection Hrun as <- <-.
       eexists _, _. split; [reflexivity|].
       split; [discriminate|now left]. }
  pose proof (startswith_inv _ _ Hb) as Hhdr.
  change (String.length "Bearer ") with 7%nat in Hhdr.
  destruct (startswith (string_drop 7 header) "gcx_live_"
            || startswith (string_drop 7 header) "gcx_test_") eqn:Hf.
  2: { unfold verify_api_key in Hrun. rewrite Ht in Hrun.
       cbn [negb] in Hrun.
       change (default "" (Some header)) with header in Hrun.
       rewrite Hb in Hrun. cbn [negb] in Hrun.
       rewrite Hf in Hrun. cbn [negb] in Hrun. injection Hrun as <- <-.
       eexists _, _. split; [reflexivity|].
       split; [discriminate|now left]. }
  revert Hrun Hf Hhdr. generalize (string_drop 7 header).
  intros api_key Hrun Hf ->.
  rewrite (verify_api_key_bearer _ _ _ _ _ Hf) in Hrun.
  destruct (api_keys !! key_hash_of api_key) as [key_data|] eqn:Hk.
  2: { injection Hrun as <- <-. eexists _, _. split; [reflexivity|].
       split; [discriminate|now left]. }
  destruct (negb (default false (KeyDoc.active key_data))).
  { injection Hrun as <- <-. eexists _, _. split; [reflexivity|].
    split; [discriminate|now left]. }
  destruct (users w !! KeyDoc.user_id key_data) as [user_data|] eqn:Hu;
    [discriminate Hrun|].
  injection Hrun as <- <-. eexists _, _. split; [reflexivity|].
  split; [discriminate|]. right. split; [reflexivity|].
  exists api_key, key_data. now repeat split.
Qed.

Lemma verify_api_key_refusals_witness :
  let w := world_with "user_1" (user_with (Some 10) None) in
  let api_keys :=
    (create_api_key_for_user 1700000000 1700000000
       "Zq3mT8vK1xR5cN7bW2dL9fH4jP6sY0aGuEoI" "user_1" "ci" "live" ∅).2 in
  exists code message,
    verify_api_key 1700000100 ∅ w (Some "Basic dXNlcjpwYXNz") api_keys
    = (inl (HTTPException 401 code message None None), api_keys).
Proof.
  intros w api_keys.
  destruct (verify_api_key_refusals 1700000100 ∅ w
              (Some "Basic dXNlcjpwYXNz") api_keys
              (unauthorized "invalid_auth_format"
                 "Authorization header must use Bearer scheme")
              api_keys eq_refl)
    as (code & message & He & _).
  exists code, message. rewrite <- He. reflexivity.
Defined.

End ApiKeyFacts.
